(** * Verified-boot kernel image checks (firmware portion)

    A shallow embedding of [vkernel/kernel_image_fw.c]: the header, config
    and data verification stages, [GetLogicalKernelVersion], and the A/B
    selection policy of [VerifyKernelDriver_f] with its rollback counters.

    Conventions.
    - A [const uint8_t*] is the list of bytes found from that address on;
      pointer addition drops a prefix (the offsets in this file are sums of
      field sizes, and a negative one is taken as 0).  C leaves a read past
      the end of the buffer undefined; the model reads zero bytes there.
    - Multi-byte fields are copied with [Memcpy] into host integers; the
      image format is little-endian.
    - Every call that leaves this file (crypto library, algorithm tables,
      rollback counters) is recorded, in program order, in a call log that
      each function returns next to its result. *)

From Stdlib Require Import ZArith List Bool Lia.
From Stdlib Require Import Init.Byte.
From Stdlib Require Strings.Byte.
Import ListNotations.
Open Scope Z_scope.

(** ** Bytes and unaligned little-endian reads *)

Definition blob := list byte.

Definition byte_unsigned (b : byte) : Z := Z.of_N (Strings.Byte.to_N b).

(** [p + n] for a byte pointer. *)
Definition ptr_add (p : blob) (n : Z) : blob := skipn (Z.to_nat n) p.

(** The [n] bytes stored at [p]. *)
Definition load_bytes (p : blob) (n : Z) : list byte :=
  map (fun i => nth i p x00) (seq 0 (Z.to_nat n)).

Fixpoint le_value (bs : list byte) : Z :=
  match bs with
  | [] => 0
  | b :: rest => byte_unsigned b + 256 * le_value rest
  end.

(** [Memcpy(&x, p, sizeof(x))] for [uint16_t x] and [uint64_t x]. *)
Definition Memcpy_uint16 (p : blob) : Z := le_value (load_bytes p 2).
Definition Memcpy_uint64 (p : blob) : Z := le_value (load_bytes p 8).

Definition wrap (bits : Z) (z : Z) : Z := z mod 2 ^ bits.

(** Modelled from the spec: [SafeMemcmp] of utility.h, a byte-exact
    comparison of two regions of [n] bytes.  The result is 0 when they
    agree. *)
Definition SafeMemcmp (s1 s2 : blob) (n : Z) : Z :=
  if list_eq_dec Strings.Byte.byte_eq_dec (load_bytes s1 n) (load_bytes s2 n)
  then 0 else 1.

(** Modelled from the spec: [CombineUint16Pair] of utility.h, the logical
    version [(msw << 16) | lsw] as a 32-bit value. *)
Definition CombineUint16Pair (msw lsw : Z) : Z :=
  wrap 32 (Z.lor (Z.shiftl msw 16) (Z.land lsw 65535)).

(** Modelled from the spec: [Min] of utility.h, the lesser of two logical
    versions, [((a) < (b)) ? (a) : (b)]. *)
Definition Min (a b : Z) : Z := if a <? b then a else b.

(** ** Result codes

    In the order of the message table [kVerifyKernelErrors]. *)
Inductive verify_kernel_result : Set :=
| VERIFY_KERNEL_SUCCESS
| VERIFY_KERNEL_INVALID_IMAGE
| VERIFY_KERNEL_KEY_SIGNATURE_FAILED
| VERIFY_KERNEL_INVALID_ALGORITHM
| VERIFY_KERNEL_CONFIG_SIGNATURE_FAILED
| VERIFY_KERNEL_SIGNATURE_FAILED
| VERIFY_KERNEL_WRONG_MAGIC.

Definition verify_kernel_result_eqb (a b : verify_kernel_result) : bool :=
  match a, b with
  | VERIFY_KERNEL_SUCCESS, VERIFY_KERNEL_SUCCESS
  | VERIFY_KERNEL_INVALID_IMAGE, VERIFY_KERNEL_INVALID_IMAGE
  | VERIFY_KERNEL_KEY_SIGNATURE_FAILED, VERIFY_KERNEL_KEY_SIGNATURE_FAILED
  | VERIFY_KERNEL_INVALID_ALGORITHM, VERIFY_KERNEL_INVALID_ALGORITHM
  | VERIFY_KERNEL_CONFIG_SIGNATURE_FAILED, VERIFY_KERNEL_CONFIG_SIGNATURE_FAILED
  | VERIFY_KERNEL_SIGNATURE_FAILED, VERIFY_KERNEL_SIGNATURE_FAILED
  | VERIFY_KERNEL_WRONG_MAGIC, VERIFY_KERNEL_WRONG_MAGIC => true
  | _, _ => false
  end.

(** Modelled from the spec: the three boot paths of kernel_image_fw.h; the
    recovery path is a value of its own, distinct from both kernel slots. *)
Inductive boot_path : Set :=
| BOOT_KERNEL_A_CONTINUE
| BOOT_KERNEL_B_CONTINUE
| BOOT_KERNEL_RECOVERY_CONTINUE.

(** Modelled from the spec: the two logical slots of the rollback counter
    store that this file reads, writes and locks (rollback_index.h). *)
Inductive version_slot : Set :=
| KERNEL_KEY_VERSION
| KERNEL_VERSION.

(** ** Collaborators

    What the file takes from cryptolib.h and kernel_image_fw.h: the
    algorithm tables, the digest and RSA primitives, and the sizes of the
    [KernelImage] fields whose declarations are elsewhere. *)
Record CryptoLib : Type := {
  RSAPublicKey : Type;
  DigestContext : Type;
  kNumAlgorithms : Z;
  siglen_map : Z -> Z;
  RSAProcessedKeySize : Z -> Z;
  SHA512_DIGEST_ALGORITHM : Z;
  DigestBuf : blob -> Z -> Z -> blob;
  DigestInit : Z -> DigestContext;
  DigestUpdate : DigestContext -> blob -> Z -> DigestContext;
  DigestFinal : DigestContext -> blob;
  RSAPublicKeyFromBuf : blob -> Z -> option RSAPublicKey;
  RSAVerifyBinary_f :
    option blob -> option RSAPublicKey -> blob -> Z -> blob -> Z -> bool;
  RSAVerifyBinaryWithDigest_f :
    option blob -> option RSAPublicKey -> blob -> blob -> Z -> bool;
  (* kernel_image_fw.h *)
  KERNEL_MAGIC : blob;
  KERNEL_MAGIC_SIZE : Z;
  FIELD_LEN_magic : Z;
  FIELD_LEN_header_checksum : Z;
  FIELD_LEN_options_version : Z;
  FIELD_LEN_options_cmd_line : Z;
  FIELD_LEN_options_kernel_load_addr : Z;
  FIELD_LEN_options_kernel_entry_addr : Z;
  (* width of size_t, in which the header length is compared *)
  size_t_bits : Z
}.

(** ** Call log *)

Inductive call : Type :=
| CallRSAProcessedKeySize (algorithm : Z)
| CallSiglenMap (algorithm : Z)
| CallDigestBuf (len : Z) (algorithm : Z)
| CallDigestInit (algorithm : Z)
| CallDigestUpdate (len : Z)
| CallDigestFinal
| CallRSAPublicKeyFromBuf (len : Z)
| CallRSAVerifyBinary (len : Z) (algorithm : Z)
| CallRSAVerifyBinaryWithDigest (algorithm : Z)
| CallGetStoredVersion (slot : version_slot)
| CallWriteStoredVersion (slot : version_slot) (version : Z)
| CallLockStoredVersion (slot : version_slot).

(** A computation is its value and the calls it made. *)
Definition Logged (A : Type) : Type := (A * list call)%type.

Definition ret {A : Type} (a : A) : Logged A := (a, []).

Definition bind {A B : Type} (m : Logged A) (k : A -> Logged B) : Logged B :=
  let (b, l2) := k (fst m) in (b, snd m ++ l2).

Definition logged {A : Type} (c : call) (a : A) : Logged A := (a, [c]).

Declare Scope logged_scope.
Delimit Scope logged_scope with logged.
Notation "x <- m ;; k" := (bind m (fun x => k))
  (at level 61, m at next level, right associativity) : logged_scope.
Open Scope logged_scope.

Definition value {A : Type} (m : Logged A) : A := fst m.
Definition calls {A : Type} (m : Logged A) : list call := snd m.

Definition is_signature_check (c : call) : bool :=
  match c with
  | CallRSAVerifyBinary _ _ | CallRSAVerifyBinaryWithDigest _ => true
  | _ => false
  end.

Definition is_digest (c : call) : bool :=
  match c with
  | CallDigestBuf _ _ | CallDigestInit _ | CallDigestUpdate _
  | CallDigestFinal => true
  | _ => false
  end.

Definition is_table_lookup (c : call) : bool :=
  match c with
  | CallRSAProcessedKeySize _ | CallSiglenMap _ => true
  | _ => false
  end.

Section KernelImageFw.

Variable lib : CryptoLib.

(** The [uint16_t] members of [KernelImage]: each is copied into a
    [uint16_t] local of the same name. *)
Definition FIELD_LEN_header_version : Z := 2.
Definition FIELD_LEN_header_len : Z := 2.
Definition FIELD_LEN_firmware_sign_algorithm : Z := 2.
Definition FIELD_LEN_kernel_sign_algorithm : Z := 2.
Definition FIELD_LEN_kernel_key_version : Z := 2.
Definition FIELD_LEN_kernel_version : Z := 2.
(** [options.kernel_len] is the [uint64_t] copied out by
    [VerifyKernelConfig]. *)
Definition FIELD_LEN_options_kernel_len : Z := 8.

Definition KERNEL_CONFIG_FIELD_LEN : Z :=
  FIELD_LEN_kernel_version + FIELD_LEN_options_version lib +
  FIELD_LEN_options_cmd_line lib +
  FIELD_LEN_options_kernel_len +
  FIELD_LEN_options_kernel_load_addr lib +
  FIELD_LEN_options_kernel_entry_addr lib.

(** Logged collaborator calls. *)
Definition call_RSAProcessedKeySize (algorithm : Z) : Logged Z :=
  logged (CallRSAProcessedKeySize algorithm) (RSAProcessedKeySize lib algorithm).

Definition call_siglen_map (algorithm : Z) : Logged Z :=
  logged (CallSiglenMap algorithm) (siglen_map lib algorithm).

Definition call_DigestBuf (buf : blob) (len algorithm : Z) : Logged blob :=
  logged (CallDigestBuf len algorithm) (DigestBuf lib buf len algorithm).

Definition call_RSAVerifyBinary_f (key_blob : option blob)
    (key : option (RSAPublicKey lib)) (buf : blob) (len : Z) (sig : blob)
    (algorithm : Z) : Logged bool :=
  logged (CallRSAVerifyBinary len algorithm)
         (RSAVerifyBinary_f lib key_blob key buf len sig algorithm).

Definition call_RSAVerifyBinaryWithDigest_f (key_blob : option blob)
    (key : option (RSAPublicKey lib)) (digest sig : blob) (algorithm : Z)
    : Logged bool :=
  logged (CallRSAVerifyBinaryWithDigest algorithm)
         (RSAVerifyBinaryWithDigest_f lib key_blob key digest sig algorithm).

(** *** VerifyKernelHeader *)

(** The three [int*] output locations. *)
Record header_out : Type := {
  firmware_algorithm : Z;
  kernel_algorithm : Z;
  kernel_header_len : Z
}.

Definition VerifyKernelHeader (firmware_key_blob header_blob : blob)
    (dev_mode : Z) (out : header_out)
    : Logged (verify_kernel_result * header_out) :=
  let base_header_checksum_offset :=
    FIELD_LEN_header_version + FIELD_LEN_header_len +
    FIELD_LEN_firmware_sign_algorithm + FIELD_LEN_kernel_sign_algorithm +
    FIELD_LEN_kernel_key_version in
  let header_len :=
    Memcpy_uint16 (ptr_add header_blob FIELD_LEN_header_version) in
  let firmware_sign_algorithm :=
    Memcpy_uint16 (ptr_add header_blob
                     (FIELD_LEN_header_version + FIELD_LEN_header_len)) in
  let kernel_sign_algorithm :=
    Memcpy_uint16 (ptr_add header_blob
                     (FIELD_LEN_header_version + FIELD_LEN_header_len +
                      FIELD_LEN_firmware_sign_algorithm)) in
  if firmware_sign_algorithm >=? kNumAlgorithms lib
  then ret (VERIFY_KERNEL_INVALID_ALGORITHM, out)
  else if kernel_sign_algorithm >=? kNumAlgorithms lib
  then ret (VERIFY_KERNEL_INVALID_ALGORITHM, out)
  else
    let out := {| firmware_algorithm := firmware_sign_algorithm;
                  kernel_algorithm := kernel_sign_algorithm;
                  kernel_header_len := kernel_header_len out |} in
    kernel_sign_key_len <- call_RSAProcessedKeySize kernel_sign_algorithm ;;
    firmware_sign_key_len <- call_RSAProcessedKeySize firmware_sign_algorithm ;;
    if negb (header_len =?
             wrap (size_t_bits lib)
                  (base_header_checksum_offset + kernel_sign_key_len +
                   FIELD_LEN_header_checksum lib))
    then ret (VERIFY_KERNEL_INVALID_IMAGE, out)
    else
      let out := {| firmware_algorithm := firmware_algorithm out;
                    kernel_algorithm := kernel_algorithm out;
                    kernel_header_len := header_len |} in
      header_checksum <-
        call_DigestBuf header_blob
          (wrap (size_t_bits lib) (header_len - FIELD_LEN_header_checksum lib))
          (SHA512_DIGEST_ALGORITHM lib) ;;
      if negb (SafeMemcmp header_checksum
                 (ptr_add header_blob
                    (base_header_checksum_offset + kernel_sign_key_len))
                 (FIELD_LEN_header_checksum lib) =? 0)
      then ret (VERIFY_KERNEL_INVALID_IMAGE, out)
      else if dev_mode =? 0
      then
        ok <- call_RSAVerifyBinary_f (Some firmware_key_blob) None
                header_blob header_len (ptr_add header_blob header_len)
                firmware_sign_algorithm ;;
        if negb ok
        then ret (VERIFY_KERNEL_KEY_SIGNATURE_FAILED, out)
        else ret (VERIFY_KERNEL_SUCCESS, out)
      else ret (VERIFY_KERNEL_SUCCESS, out).

(** *** VerifyKernelConfig

    [kernel_len] is the value held by the output location on entry; the
    second component of the result is what it holds on return. *)
Definition VerifyKernelConfig (kernel_sign_key : option (RSAPublicKey lib))
    (config_blob : blob) (algorithm : Z) (kernel_len : Z)
    : Logged (verify_kernel_result * Z) :=
  ok <- call_RSAVerifyBinary_f None kernel_sign_key
          config_blob KERNEL_CONFIG_FIELD_LEN
          (ptr_add config_blob KERNEL_CONFIG_FIELD_LEN) algorithm ;;
  if negb ok
  then ret (VERIFY_KERNEL_CONFIG_SIGNATURE_FAILED, kernel_len)
  else
    let len :=
      Memcpy_uint64
        (ptr_add config_blob
           (FIELD_LEN_kernel_version + FIELD_LEN_options_version lib +
            FIELD_LEN_options_cmd_line lib)) in
    ret (VERIFY_KERNEL_SUCCESS, len).

(** *** VerifyKernelData *)
Definition VerifyKernelData (kernel_sign_key : option (RSAPublicKey lib))
    (kernel_config_start kernel_data_start : blob) (kernel_len : Z)
    (algorithm : Z) : Logged verify_kernel_result :=
  signature_len <- call_siglen_map algorithm ;;
  ctx <- logged (CallDigestInit algorithm) (DigestInit lib algorithm) ;;
  ctx <- logged (CallDigestUpdate KERNEL_CONFIG_FIELD_LEN)
           (DigestUpdate lib ctx kernel_config_start
              KERNEL_CONFIG_FIELD_LEN) ;;
  ctx <- logged (CallDigestUpdate kernel_len)
           (DigestUpdate lib ctx (ptr_add kernel_data_start signature_len)
              kernel_len) ;;
  digest <- logged CallDigestFinal (DigestFinal lib ctx) ;;
  ok <- call_RSAVerifyBinaryWithDigest_f None kernel_sign_key digest
          kernel_data_start algorithm ;;
  if negb ok
  then ret VERIFY_KERNEL_SIGNATURE_FAILED
  else ret VERIFY_KERNEL_SUCCESS.

(** *** VerifyKernel

    The locals that receive the outputs of the stages start out
    uninitialised; the model starts them at 0, and no path reads one
    before the stage that fills it has succeeded. *)
Definition VerifyKernel (firmware_key_blob kernel_blob : blob) (dev_mode : Z)
    : Logged verify_kernel_result :=
  if negb (SafeMemcmp kernel_blob (KERNEL_MAGIC lib) (KERNEL_MAGIC_SIZE lib)
           =? 0)
  then ret VERIFY_KERNEL_WRONG_MAGIC
  else
    let header_ptr := ptr_add kernel_blob (KERNEL_MAGIC_SIZE lib) in
    hdr <- VerifyKernelHeader firmware_key_blob header_ptr dev_mode
             {| firmware_algorithm := 0; kernel_algorithm := 0;
                kernel_header_len := 0 |} ;;
    let error_code := fst hdr in
    let firmware_sign_algorithm := firmware_algorithm (snd hdr) in
    let kernel_sign_algorithm := kernel_algorithm (snd hdr) in
    let header_len := kernel_header_len (snd hdr) in
    if negb (verify_kernel_result_eqb error_code VERIFY_KERNEL_SUCCESS)
    then ret error_code
    else
      kernel_sign_key_len <- call_RSAProcessedKeySize kernel_sign_algorithm ;;
      let kernel_sign_key_ptr :=
        ptr_add header_ptr
          (FIELD_LEN_header_version + FIELD_LEN_header_len +
           FIELD_LEN_firmware_sign_algorithm +
           FIELD_LEN_kernel_sign_algorithm +
           FIELD_LEN_kernel_key_version) in
      kernel_sign_key <-
        logged (CallRSAPublicKeyFromBuf kernel_sign_key_len)
          (RSAPublicKeyFromBuf lib kernel_sign_key_ptr kernel_sign_key_len) ;;
      kernel_signature_len <- call_siglen_map kernel_sign_algorithm ;;
      kernel_key_signature_len <- call_siglen_map firmware_sign_algorithm ;;
      let config_ptr :=
        ptr_add header_ptr (header_len + kernel_key_signature_len) in
      cfg <- VerifyKernelConfig kernel_sign_key config_ptr
               kernel_sign_algorithm 0 ;;
      let error_code := fst cfg in
      let kernel_len := snd cfg in
      if negb (verify_kernel_result_eqb error_code VERIFY_KERNEL_SUCCESS)
      then ret error_code
      else
        let kernel_ptr :=
          ptr_add config_ptr
            (KERNEL_CONFIG_FIELD_LEN + kernel_signature_len) in
        error_code <- VerifyKernelData kernel_sign_key config_ptr kernel_ptr
                        kernel_len kernel_sign_algorithm ;;
        if negb (verify_kernel_result_eqb error_code VERIFY_KERNEL_SUCCESS)
        then ret error_code
        else ret VERIFY_KERNEL_SUCCESS.

(** *** GetLogicalKernelVersion *)
Definition GetLogicalKernelVersion (kernel_blob : blob) : Logged Z :=
  let kernel_ptr :=
    ptr_add kernel_blob
      (FIELD_LEN_magic lib + FIELD_LEN_header_version +
       FIELD_LEN_header_len) in
  let firmware_sign_algorithm := Memcpy_uint16 kernel_ptr in
  let kernel_ptr := ptr_add kernel_ptr FIELD_LEN_firmware_sign_algorithm in
  let kernel_sign_algorithm := Memcpy_uint16 kernel_ptr in
  let kernel_ptr := ptr_add kernel_ptr FIELD_LEN_kernel_sign_algorithm in
  let kernel_key_version := Memcpy_uint16 kernel_ptr in
  if firmware_sign_algorithm >=? kNumAlgorithms lib
  then ret 0
  else if kernel_sign_algorithm >=? kNumAlgorithms lib
  then ret 0
  else
    kernel_key_signature_len <- call_siglen_map firmware_sign_algorithm ;;
    kernel_sign_key_len <- call_RSAProcessedKeySize kernel_sign_algorithm ;;
    let kernel_ptr :=
      ptr_add kernel_ptr
        (FIELD_LEN_kernel_key_version + kernel_sign_key_len +
         FIELD_LEN_header_checksum lib + kernel_key_signature_len) in
    let kernel_version := Memcpy_uint16 kernel_ptr in
    ret (CombineUint16Pair kernel_key_version kernel_version).

End KernelImageFw.

(** ** Rollback counter store *)

(** Modelled from the spec: the rollback counter store of rollback_index.h,
    which is not part of the sources at hand.  Two 16-bit counters, each
    with a write lock: [read(slot)], [write(slot, v)] with a status, and an
    idempotent [lock(slot)] after which writes to that slot are refused for
    the rest of the boot session. *)
Record counter : Type := {
  version : Z;
  locked : bool
}.

(** Modelled from the spec: the store, one counter per slot. *)
Record rollback_store : Type := {
  kernel_key_version_counter : counter;
  kernel_version_counter : counter
}.

Definition counter_of (tpm : rollback_store) (slot : version_slot) : counter :=
  match slot with
  | KERNEL_KEY_VERSION => kernel_key_version_counter tpm
  | KERNEL_VERSION => kernel_version_counter tpm
  end.

Definition set_counter (tpm : rollback_store) (slot : version_slot)
    (c : counter) : rollback_store :=
  match slot with
  | KERNEL_KEY_VERSION =>
      {| kernel_key_version_counter := c;
         kernel_version_counter := kernel_version_counter tpm |}
  | KERNEL_VERSION =>
      {| kernel_key_version_counter := kernel_key_version_counter tpm;
         kernel_version_counter := c |}
  end.

(** Modelled from the spec: [read(slot)], which returns a [uint16_t]. *)
Definition GetStoredVersion (tpm : rollback_store) (slot : version_slot)
    : Logged Z :=
  logged (CallGetStoredVersion slot) (wrap 16 (version (counter_of tpm slot))).

(** Modelled from the spec: [write(slot, v)], which returns a status
    (nonzero on success); a locked counter refuses the write. *)
Definition WriteStoredVersion (tpm : rollback_store) (slot : version_slot)
    (v : Z) : Logged (Z * rollback_store) :=
  logged (CallWriteStoredVersion slot v)
    (if locked (counter_of tpm slot)
     then (0, tpm)
     else (1, set_counter tpm slot {| version := v; locked := false |})).

(** Modelled from the spec: [lock(slot)]; locking a locked counter changes
    nothing. *)
Definition LockStoredVersion (tpm : rollback_store) (slot : version_slot)
    : Logged rollback_store :=
  logged (CallLockStoredVersion slot)
    (set_counter tpm slot
       {| version := version (counter_of tpm slot); locked := true |}).

(** The logical version the store holds. *)
Definition stored_logical_version (tpm : rollback_store) : Z :=
  CombineUint16Pair (wrap 16 (version (kernel_key_version_counter tpm)))
                    (wrap 16 (version (kernel_version_counter tpm))).

(** ** A/B selection *)

(** [kernel_entry] of kernel_image_fw.h, with the fields the driver uses.
    The one arithmetic step on them, the decrement of
    [boot_tries_remaining], is guarded by [> 0], so no width is needed. *)
Record kernel_entry : Type := {
  kernel_blob : blob;
  boot_priority : Z;
  boot_tries_remaining : Z;
  boot_success_flag : Z
}.

(** A [kernel_entry*]: the two entries are distinct objects owned by the
    caller. *)
Inductive kernel_ptr : Set :=
| PtrKernelA
| PtrKernelB.

(** Everything [VerifyKernelDriver_f] can change. *)
Record driver_state : Type := {
  kernelA : kernel_entry;
  kernelB : kernel_entry;
  tpm : rollback_store;
  stored_lversion : Z;
  kernel_to_boot : boot_path
}.

Definition deref (st : driver_state) (p : kernel_ptr) : kernel_entry :=
  match p with
  | PtrKernelA => kernelA st
  | PtrKernelB => kernelB st
  end.

Definition assign (st : driver_state) (p : kernel_ptr) (e : kernel_entry)
    : driver_state :=
  match p with
  | PtrKernelA =>
      {| kernelA := e; kernelB := kernelB st; tpm := tpm st;
         stored_lversion := stored_lversion st;
         kernel_to_boot := kernel_to_boot st |}
  | PtrKernelB =>
      {| kernelA := kernelA st; kernelB := e; tpm := tpm st;
         stored_lversion := stored_lversion st;
         kernel_to_boot := kernel_to_boot st |}
  end.

Definition set_boot_tries_remaining (e : kernel_entry) (v : Z) : kernel_entry :=
  {| kernel_blob := kernel_blob e; boot_priority := boot_priority e;
     boot_tries_remaining := v; boot_success_flag := boot_success_flag e |}.

Definition set_boot_priority (e : kernel_entry) (v : Z) : kernel_entry :=
  {| kernel_blob := kernel_blob e; boot_priority := v;
     boot_tries_remaining := boot_tries_remaining e;
     boot_success_flag := boot_success_flag e |}.

Definition set_tpm (st : driver_state) (t : rollback_store) : driver_state :=
  {| kernelA := kernelA st; kernelB := kernelB st; tpm := t;
     stored_lversion := stored_lversion st;
     kernel_to_boot := kernel_to_boot st |}.

Definition set_stored_lversion (st : driver_state) (v : Z) : driver_state :=
  {| kernelA := kernelA st; kernelB := kernelB st; tpm := tpm st;
     stored_lversion := v; kernel_to_boot := kernel_to_boot st |}.

Definition set_kernel_to_boot (st : driver_state) (b : boot_path)
    : driver_state :=
  {| kernelA := kernelA st; kernelB := kernelB st; tpm := tpm st;
     stored_lversion := stored_lversion st; kernel_to_boot := b |}.

(** The three two-element arrays that hold the try order. *)
Record try_order : Type := {
  try_kernel : Z -> kernel_ptr;
  try_kernel_which : Z -> boot_path;
  try_kernel_lversion : Z -> Z
}.

Definition make_try_order (kernelA kernelB : kernel_entry)
    (kernelA_lversion kernelB_lversion : Z) : try_order :=
  if boot_priority kernelA >=? boot_priority kernelB
  then {| try_kernel := fun i => if i =? 0 then PtrKernelA else PtrKernelB;
          try_kernel_which := fun i =>
            if i =? 0 then BOOT_KERNEL_A_CONTINUE else BOOT_KERNEL_B_CONTINUE;
          try_kernel_lversion := fun i =>
            if i =? 0 then kernelA_lversion else kernelB_lversion |}
  else {| try_kernel := fun i => if i =? 0 then PtrKernelB else PtrKernelA;
          try_kernel_which := fun i =>
            if i =? 0 then BOOT_KERNEL_B_CONTINUE else BOOT_KERNEL_A_CONTINUE;
          try_kernel_lversion := fun i =>
            if i =? 0 then kernelB_lversion else kernelA_lversion |}.

(** How one pass through the loop body ends: [LoopNext] for [continue] and
    for reaching the end of the body, [LoopBreak] for [break]. *)
Inductive loop_exit : Set :=
| LoopNext
| LoopBreak.

Section Driver.

Variable lib : CryptoLib.
Variable firmware_key_blob : blob.
Variable dev_mode : Z.

(** [boot_success_flag || boot_tries_remaining] *)
Definition eligible (e : kernel_entry) : bool :=
  negb (boot_success_flag e =? 0) || negb (boot_tries_remaining e =? 0).

Definition verifies (kernel_blob : blob) : Logged bool :=
  r <- VerifyKernel lib firmware_key_blob kernel_blob dev_mode ;;
  ret (verify_kernel_result_eqb VERIFY_KERNEL_SUCCESS r).

(** [if (boot_tries_remaining > 0) boot_tries_remaining--;] on the entry
    [p] points to. *)
Definition use_one_try (st : driver_state) (p : kernel_ptr) : driver_state :=
  if boot_tries_remaining (deref st p) >? 0
  then assign st p
         (set_boot_tries_remaining (deref st p)
            (boot_tries_remaining (deref st p) - 1))
  else st.

(** The block guarded by [i == 0 && stored_lversion < try_kernel_lversion[1]]:
    when the other kernel verifies too, both counters are written with the
    halves of [min_lversion].  The statuses of the writes are not looked
    at. *)
Definition update_stored_version (order : try_order) (min_lversion : Z)
    (i : Z) (st : driver_state) : Logged driver_state :=
  if (i =? 0) && (stored_lversion st <? try_kernel_lversion order 1)
  then
    ok <- verifies (kernel_blob (deref st (try_kernel order 1))) ;;
    if ok
    then
      w1 <- WriteStoredVersion (tpm st) KERNEL_KEY_VERSION
              (wrap 16 (Z.shiftr min_lversion 16)) ;;
      w2 <- WriteStoredVersion (snd w1) KERNEL_VERSION
              (wrap 16 (Z.land min_lversion 65535)) ;;
      ret (set_stored_lversion (set_tpm st (snd w2)) min_lversion)
    else ret st
  else ret st.

(** The body of [for (i = 0; i < 2; i++)]. *)
Definition loop_body (order : try_order) (min_lversion : Z) (i : Z)
    (st : driver_state) : Logged (loop_exit * driver_state) :=
  let p := try_kernel order i in
  ok <- (if eligible (deref st p)
         then verifies (kernel_blob (deref st p))
         else ret false) ;;
  if ok
  then
    let st := use_one_try st p in
    if stored_lversion st >? try_kernel_lversion order i
    then ret (LoopNext, st)
    else
      st <- update_stored_version order min_lversion i st ;;
      ret (LoopBreak, set_kernel_to_boot st (try_kernel_which order i))
  else
    ret (LoopNext, assign st p (set_boot_priority (deref st p) 0)).

(** The loop over the indices still to visit. *)
Fixpoint for_loop (order : try_order) (min_lversion : Z) (indices : list Z)
    (st : driver_state) : Logged driver_state :=
  match indices with
  | [] => ret st
  | i :: rest =>
      r <- loop_body order min_lversion i st ;;
      match fst r with
      | LoopBreak => ret (snd r)
      | LoopNext => for_loop order min_lversion rest (snd r)
      end
  end.

Definition VerifyKernelDriver_f (kernelA kernelB : kernel_entry)
    (store : rollback_store) : Logged driver_state :=
  kernelA_lversion <- GetLogicalKernelVersion lib (kernel_blob kernelA) ;;
  kernelB_lversion <- GetLogicalKernelVersion lib (kernel_blob kernelB) ;;
  let min_lversion := Min kernelA_lversion kernelB_lversion in
  stored_key <- GetStoredVersion store KERNEL_KEY_VERSION ;;
  stored_kernel <- GetStoredVersion store KERNEL_VERSION ;;
  let stored_lversion := CombineUint16Pair stored_key stored_kernel in
  let order :=
    make_try_order kernelA kernelB kernelA_lversion kernelB_lversion in
  st <- for_loop order min_lversion [0; 1]
          {| kernelA := kernelA; kernelB := kernelB; tpm := store;
             stored_lversion := stored_lversion;
             kernel_to_boot := BOOT_KERNEL_RECOVERY_CONTINUE |} ;;
  tpm1 <- LockStoredVersion (tpm st) KERNEL_KEY_VERSION ;;
  tpm2 <- LockStoredVersion tpm1 KERNEL_VERSION ;;
  ret (set_tpm st tpm2).

End Driver.

(** ** Vocabulary of the statements *)

(** The boot path that selects the entry behind a pointer. *)
Definition slot_of (p : kernel_ptr) : boot_path :=
  match p with
  | PtrKernelA => BOOT_KERNEL_A_CONTINUE
  | PtrKernelB => BOOT_KERNEL_B_CONTINUE
  end.

Definition other (p : kernel_ptr) : kernel_ptr :=
  match p with
  | PtrKernelA => PtrKernelB
  | PtrKernelB => PtrKernelA
  end.

(** The entry behind a pointer, among the two arguments of the driver. *)
Definition entry (kernelA kernelB : kernel_entry) (p : kernel_ptr)
    : kernel_entry :=
  match p with
  | PtrKernelA => kernelA
  | PtrKernelB => kernelB
  end.

(** The candidate the loop visits first. *)
Definition first_tried (kernelA kernelB : kernel_entry) : kernel_ptr :=
  try_kernel (make_try_order kernelA kernelB 0 0) 0.

(** The loop visits [p]: it is the first candidate, or the first candidate
    is not the one the driver returns. *)
Definition visited (kernelA kernelB : kernel_entry) (result : boot_path)
    (p : kernel_ptr) : Prop :=
  p = first_tried kernelA kernelB \/
  result <> slot_of (first_tried kernelA kernelB).

(** The condition of the loop's [if]: eligible, and [VerifyKernel] succeeds. *)
Definition accepted (lib : CryptoLib) (firmware_key_blob : blob)
    (dev_mode : Z) (e : kernel_entry) : bool :=
  eligible e &&
  value (verifies lib firmware_key_blob dev_mode (kernel_blob e)).

Definition lversion (lib : CryptoLib) (e : kernel_entry) : Z :=
  value (GetLogicalKernelVersion lib (kernel_blob e)).

Definition is_store_call (c : call) : bool :=
  match c with
  | CallGetStoredVersion _ | CallWriteStoredVersion _ _
  | CallLockStoredVersion _ => true
  | _ => false
  end.

(** ** Auxiliary definitions of the proofs *)

Definition kernel_ptr_eqb (p q : kernel_ptr) : bool :=
  match p, q with
  | PtrKernelA, PtrKernelA | PtrKernelB, PtrKernelB => true
  | _, _ => false
  end.

(** The entry after [use_one_try], and after the demotion at the end of the
    loop body. *)
Definition after_try (e : kernel_entry) : kernel_entry :=
  if boot_tries_remaining e >? 0
  then set_boot_tries_remaining e (boot_tries_remaining e - 1)
  else e.

Definition demoted (e : kernel_entry) : kernel_entry := set_boot_priority e 0.

(** The store after both locks. *)
Definition lock_both (store : rollback_store) : rollback_store :=
  value (LockStoredVersion
           (value (LockStoredVersion store KERNEL_KEY_VERSION))
           KERNEL_VERSION).

(** The store after both writes. *)
Definition write_both (store : rollback_store) (m : Z) : rollback_store :=
  snd (value (WriteStoredVersion
                (snd (value (WriteStoredVersion store KERNEL_KEY_VERSION
                               (wrap 16 (Z.shiftr m 16)))))
                KERNEL_VERSION (wrap 16 (Z.land m 65535)))).

(** ** A test double of the collaborators

    The ChromeOS image layout with a stand-in for the crypto library: a
    digest is the byte sum of the data, a signature is valid when its first
    byte is the byte sum of the data plus the first byte of the key.  Used
    to run the functions above on concrete images. *)
Module Fixture.

Definition byte_of_Z (z : Z) : byte :=
  match Strings.Byte.of_N (Z.to_N (z mod 256)) with
  | Some b => b
  | None => x00
  end.

Fixpoint le_bytes (n : nat) (z : Z) : list byte :=
  match n with
  | O => []
  | S n' => byte_of_Z z :: le_bytes n' (z / 256)
  end.

Definition byte_sum (bs : list byte) : Z :=
  fold_right (fun b acc => byte_unsigned b + acc) 0 bs.

Definition zeros (n : nat) : list byte := repeat x00 n.

Definition first_byte (p : blob) : Z := byte_unsigned (nth 0 p x00).

Definition test_siglen_map (algorithm : Z) : Z :=
  if algorithm <? 3 then 128
  else if algorithm <? 6 then 256
  else if algorithm <? 9 then 512
  else 1024.

Definition test_digest (sum : Z) : blob := byte_of_Z sum :: zeros 63.

Definition test_key (key_blob : option blob) (key : option blob) : option Z :=
  match key_blob, key with
  | Some kb, _ => Some (first_byte kb)
  | None, Some k => Some (first_byte k)
  | None, None => None
  end.

Definition test_lib : CryptoLib := {|
  RSAPublicKey := blob;
  DigestContext := Z;
  kNumAlgorithms := 12;
  siglen_map := test_siglen_map;
  RSAProcessedKeySize := fun algorithm => 2 * test_siglen_map algorithm + 8;
  SHA512_DIGEST_ALGORITHM := 2;
  DigestBuf := fun buf len _ => test_digest (byte_sum (load_bytes buf len));
  DigestInit := fun _ => 0;
  DigestUpdate := fun ctx buf len => ctx + byte_sum (load_bytes buf len);
  DigestFinal := test_digest;
  RSAPublicKeyFromBuf := fun buf len => Some (load_bytes buf len);
  RSAVerifyBinary_f := fun key_blob key buf len sig _ =>
    match test_key key_blob key with
    | Some k => first_byte sig =? (byte_sum (load_bytes buf len) + k) mod 256
    | None => false
    end;
  RSAVerifyBinaryWithDigest_f := fun key_blob key digest sig _ =>
    match test_key key_blob key with
    | Some k => first_byte sig =? (first_byte digest + k) mod 256
    | None => false
    end;
  KERNEL_MAGIC := [x43; x48; x52; x4f; x4d; x45; x4f; x53];
  KERNEL_MAGIC_SIZE := 8;
  FIELD_LEN_magic := 8;
  FIELD_LEN_header_checksum := 64;
  FIELD_LEN_options_version := 8;
  FIELD_LEN_options_cmd_line := 4096;
  FIELD_LEN_options_kernel_load_addr := 8;
  FIELD_LEN_options_kernel_entry_addr := 8;
  size_t_bits := 64
|}.

Definition test_firmware_key : blob := [x05; x00; x00; x00].
Definition test_kernel_key : blob := x09 :: zeros 263.
Definition test_kernel_data : blob := [x01; x02; x03; x04].

(** An image signed for [test_firmware_key], with both algorithm fields
    given; [signature_byte_offset] is added to the first byte of the header
    signature (0 for a well-signed image). *)
Definition test_image (firmware_sign_algorithm kernel_sign_algorithm : Z)
    (kernel_key_version kernel_version : Z) (signature_byte_offset : Z)
    : blob :=
  let header_fields :=
    le_bytes 2 1 ++ le_bytes 2 338 ++
    le_bytes 2 firmware_sign_algorithm ++ le_bytes 2 kernel_sign_algorithm ++
    le_bytes 2 kernel_key_version ++ test_kernel_key in
  let header := header_fields ++ test_digest (byte_sum header_fields) in
  let header_signature :=
    byte_of_Z (byte_sum header + first_byte test_firmware_key +
               signature_byte_offset) :: zeros 127 in
  let config :=
    le_bytes 2 kernel_version ++ zeros 8 ++ zeros 4096 ++
    le_bytes 8 (Z.of_nat (length test_kernel_data)) ++ zeros 8 ++ zeros 8 in
  let config_signature :=
    byte_of_Z (byte_sum config + first_byte test_kernel_key) :: zeros 127 in
  let kernel_signature :=
    byte_of_Z (byte_sum config + byte_sum test_kernel_data +
               first_byte test_kernel_key) :: zeros 127 in
  KERNEL_MAGIC test_lib ++ header ++ header_signature ++ config ++
  config_signature ++ kernel_signature ++ test_kernel_data.

Definition good_image (kernel_key_version kernel_version : Z) : blob :=
  test_image 0 0 kernel_key_version kernel_version 0.

Definition unlocked_store (key_version kernel_version : Z) : rollback_store :=
  {| kernel_key_version_counter := {| version := key_version; locked := false |};
     kernel_version_counter := {| version := kernel_version; locked := false |} |}.

Definition candidate (image : blob) (priority tries success : Z)
    : kernel_entry :=
  {| kernel_blob := image; boot_priority := priority;
     boot_tries_remaining := tries; boot_success_flag := success |}.

(** Scenario 1 of the specification: A has priority 4, two tries and
    version 5; B has priority 2, the success flag and version 7. *)
Definition scenario1_A : kernel_entry := candidate (good_image 0 5) 4 2 0.
Definition scenario1_B : kernel_entry := candidate (good_image 0 7) 2 0 1.

(** Both kernels newer than the stored version. *)
Definition newer_A : kernel_entry := candidate (good_image 0 7) 4 2 0.
Definition newer_B : kernel_entry := candidate (good_image 0 9) 2 1 0.

(** A well-signed kernel older than the stored version, ahead of a current
    one. *)
Definition rollback_A : kernel_entry := candidate (good_image 0 3) 4 2 0.
Definition current_B : kernel_entry := candidate (good_image 0 6) 2 1 0.

(** Candidates with no tries left and no success flag. *)
Definition spent_A : kernel_entry := candidate (good_image 0 5) 4 0 0.
Definition spent_B : kernel_entry := candidate (good_image 0 7) 2 0 0.

(** Equal priorities. *)
Definition tie_A : kernel_entry := candidate (good_image 0 5) 3 1 0.
Definition tie_B : kernel_entry := candidate (good_image 0 7) 3 1 0.

(** A store whose key-version counter is locked while its kernel-version
    counter still takes writes. *)
Definition key_locked_store (key_version kernel_version : Z)
    : rollback_store :=
  {| kernel_key_version_counter :=
       {| version := key_version; locked := true |};
     kernel_version_counter :=
       {| version := kernel_version; locked := false |} |}.

(** Two kernels of key version 1, both newer than a stored version 0.5. *)
Definition rekeyed_A : kernel_entry := candidate (good_image 1 0) 4 2 0.
Definition rekeyed_B : kernel_entry := candidate (good_image 1 3) 2 1 0.

End Fixture.

(** ** The stages of the verification, read off the image

    The fields and checks of [VerifyKernelHeader] and [VerifyKernel] as
    functions of the blob, with the expressions of the source. *)
Section Stages.

Variable lib : CryptoLib.

Definition header_len_field (header_blob : blob) : Z :=
  Memcpy_uint16 (ptr_add header_blob FIELD_LEN_header_version).

Definition firmware_sign_algorithm_field (header_blob : blob) : Z :=
  Memcpy_uint16 (ptr_add header_blob
                   (FIELD_LEN_header_version + FIELD_LEN_header_len)).

Definition kernel_sign_algorithm_field (header_blob : blob) : Z :=
  Memcpy_uint16 (ptr_add header_blob
                   (FIELD_LEN_header_version + FIELD_LEN_header_len +
                    FIELD_LEN_firmware_sign_algorithm)).

(** [base_header_checksum_offset]. *)
Definition base_header_checksum_offset : Z :=
  FIELD_LEN_header_version + FIELD_LEN_header_len +
  FIELD_LEN_firmware_sign_algorithm + FIELD_LEN_kernel_sign_algorithm +
  FIELD_LEN_kernel_key_version.

(** The length the header must declare, as compared in [size_t]. *)
Definition expected_header_len (header_blob : blob) : Z :=
  wrap (size_t_bits lib)
    (base_header_checksum_offset +
     RSAProcessedKeySize lib (kernel_sign_algorithm_field header_blob) +
     FIELD_LEN_header_checksum lib).

(** The [SafeMemcmp] of the recomputed digest with the stored checksum. *)
Definition header_checksum_differs (header_blob : blob) : Z :=
  SafeMemcmp
    (DigestBuf lib header_blob
       (wrap (size_t_bits lib)
          (header_len_field header_blob - FIELD_LEN_header_checksum lib))
       (SHA512_DIGEST_ALGORITHM lib))
    (ptr_add header_blob
       (base_header_checksum_offset +
        RSAProcessedKeySize lib (kernel_sign_algorithm_field header_blob)))
    (FIELD_LEN_header_checksum lib).

(** The firmware-key signature check over the header. *)
Definition header_signature_ok (firmware_key_blob header_blob : blob) : bool :=
  RSAVerifyBinary_f lib (Some firmware_key_blob) None header_blob
    (header_len_field header_blob)
    (ptr_add header_blob (header_len_field header_blob))
    (firmware_sign_algorithm_field header_blob).

(** The outputs of a header whose length was accepted. *)
Definition header_fields (header_blob : blob) : header_out :=
  {| firmware_algorithm := firmware_sign_algorithm_field header_blob;
     kernel_algorithm := kernel_sign_algorithm_field header_blob;
     kernel_header_len := header_len_field header_blob |}.

(** Pointers and checks of [VerifyKernel] past the header. *)
Definition header_ptr_of (kernel_blob : blob) : blob :=
  ptr_add kernel_blob (KERNEL_MAGIC_SIZE lib).

Definition kernel_sign_key_of (kernel_blob : blob)
    : option (RSAPublicKey lib) :=
  RSAPublicKeyFromBuf lib
    (ptr_add (header_ptr_of kernel_blob) base_header_checksum_offset)
    (RSAProcessedKeySize lib
       (kernel_sign_algorithm_field (header_ptr_of kernel_blob))).

Definition config_ptr_of (kernel_blob : blob) : blob :=
  ptr_add (header_ptr_of kernel_blob)
    (header_len_field (header_ptr_of kernel_blob) +
     siglen_map lib
       (firmware_sign_algorithm_field (header_ptr_of kernel_blob))).

Definition config_signature_ok (kernel_blob : blob) : bool :=
  RSAVerifyBinary_f lib None (kernel_sign_key_of kernel_blob)
    (config_ptr_of kernel_blob) (KERNEL_CONFIG_FIELD_LEN lib)
    (ptr_add (config_ptr_of kernel_blob) (KERNEL_CONFIG_FIELD_LEN lib))
    (kernel_sign_algorithm_field (header_ptr_of kernel_blob)).

Definition kernel_len_field (kernel_blob : blob) : Z :=
  Memcpy_uint64
    (ptr_add (config_ptr_of kernel_blob)
       (FIELD_LEN_kernel_version + FIELD_LEN_options_version lib +
        FIELD_LEN_options_cmd_line lib)).

Definition kernel_ptr_of (kernel_blob : blob) : blob :=
  ptr_add (config_ptr_of kernel_blob)
    (KERNEL_CONFIG_FIELD_LEN lib +
     siglen_map lib
       (kernel_sign_algorithm_field (header_ptr_of kernel_blob))).

(** The digest [VerifyKernelData] computes: the config region, then
    [kernel_len] bytes of payload past the payload signature. *)
Definition kernel_digest (kernel_config_start kernel_data_start : blob)
    (kernel_len algorithm : Z) : blob :=
  DigestFinal lib
    (DigestUpdate lib
       (DigestUpdate lib (DigestInit lib algorithm) kernel_config_start
          (KERNEL_CONFIG_FIELD_LEN lib))
       (ptr_add kernel_data_start (siglen_map lib algorithm)) kernel_len).

Definition data_signature_ok (kernel_blob : blob) : bool :=
  RSAVerifyBinaryWithDigest_f lib None (kernel_sign_key_of kernel_blob)
    (kernel_digest (config_ptr_of kernel_blob) (kernel_ptr_of kernel_blob)
       (kernel_len_field kernel_blob)
       (kernel_sign_algorithm_field (header_ptr_of kernel_blob)))
    (kernel_ptr_of kernel_blob)
    (kernel_sign_algorithm_field (header_ptr_of kernel_blob)).

End Stages.

(** A call that takes a signature algorithm, with that algorithm. *)
Definition algorithm_of (c : call) : option Z :=
  match c with
  | CallRSAProcessedKeySize a | CallSiglenMap a | CallDigestInit a
  | CallRSAVerifyBinary _ a | CallRSAVerifyBinaryWithDigest a => Some a
  | _ => None
  end.

(** ** Tampered images *)
Module Tampered.

(** The blob with the byte at [offset] replaced. *)
Definition poke (p : blob) (offset : nat) (b : byte) : blob :=
  firstn offset p ++ b :: skipn (S offset) p.

(** A good image whose header declares one byte more than it has. *)
Definition long_header : blob := poke (Fixture.good_image 0 5) 10 x53.

(** A good image with the first byte of the header checksum changed. *)
Definition bad_checksum : blob :=
  poke (Fixture.good_image 0 5) (8 + 10 + 264) xff.

(** A good image with the first byte of the magic changed. *)
Definition bad_magic : blob := poke (Fixture.good_image 0 5) 0 x58.

(** A good image with the first byte of the config signature changed. *)
Definition bad_config_signature : blob :=
  poke (Fixture.good_image 0 5) (8 + 338 + 128 + 4130) xff.

(** A good image with the last byte of the payload changed. *)
Definition bad_payload : blob :=
  poke (Fixture.good_image 0 5) (8 + 338 + 128 + 4130 + 128 + 128 + 3) xff.

(** A good image whose kernel version is changed after signing. *)
Definition bumped_version : blob :=
  poke (Fixture.good_image 0 5) (8 + 338 + 128) x09.

Definition no_outputs : header_out :=
  {| firmware_algorithm := 0; kernel_algorithm := 0; kernel_header_len := 0 |}.

End Tampered.

(** ** Vocabulary of the further statements *)

(** A candidate the loop would select: accepted, and not older than the
    stored version. *)
Definition bootable (lib : CryptoLib) (firmware_key_blob : blob)
    (dev_mode : Z) (store : rollback_store) (e : kernel_entry) : bool :=
  accepted lib firmware_key_blob dev_mode e &&
  (stored_logical_version store <=? lversion lib e).

(** The condition under which the driver writes the counters: the first
    candidate is selected, the second is newer than the stored version, and
    [VerifyKernel] succeeds on the second as well. *)
Definition raises_stored_version (lib : CryptoLib) (firmware_key_blob : blob)
    (dev_mode : Z) (kernelA kernelB : kernel_entry) (store : rollback_store)
    : bool :=
  let p0 := first_tried kernelA kernelB in
  bootable lib firmware_key_blob dev_mode store (entry kernelA kernelB p0) &&
  (stored_logical_version store <?
   lversion lib (entry kernelA kernelB (other p0))) &&
  value (verifies lib firmware_key_blob dev_mode
           (kernel_blob (entry kernelA kernelB (other p0)))).

(** The two writes of the driver, for a minimum [m]. *)
Definition version_writes (m : Z) : list call :=
  [CallWriteStoredVersion KERNEL_KEY_VERSION (wrap 16 (Z.shiftr m 16));
   CallWriteStoredVersion KERNEL_VERSION (wrap 16 (Z.land m 65535))].

(** One more call of the driver on what the previous call left: the entries
    as written back, the store as it is. *)
Definition boot_again (lib : CryptoLib) (firmware_key_blob : blob)
    (dev_mode : Z) (st : driver_state) : driver_state :=
  value (VerifyKernelDriver_f lib firmware_key_blob dev_mode
           (kernelA st) (kernelB st) (tpm st)).

(** ** The fields [GetLogicalKernelVersion] reads *)
Section VersionFields.

Variable lib : CryptoLib.

Definition version_firmware_algorithm (kernel_blob : blob) : Z :=
  Memcpy_uint16
    (ptr_add kernel_blob
       (FIELD_LEN_magic lib + FIELD_LEN_header_version +
        FIELD_LEN_header_len)).

Definition version_kernel_algorithm (kernel_blob : blob) : Z :=
  Memcpy_uint16
    (ptr_add
       (ptr_add kernel_blob
          (FIELD_LEN_magic lib + FIELD_LEN_header_version +
           FIELD_LEN_header_len))
       FIELD_LEN_firmware_sign_algorithm).

Definition kernel_key_version_ptr (kernel_blob : blob) : blob :=
  ptr_add
    (ptr_add
       (ptr_add kernel_blob
          (FIELD_LEN_magic lib + FIELD_LEN_header_version +
           FIELD_LEN_header_len))
       FIELD_LEN_firmware_sign_algorithm)
    FIELD_LEN_kernel_sign_algorithm.

Definition kernel_key_version_read (kernel_blob : blob) : Z :=
  Memcpy_uint16 (kernel_key_version_ptr kernel_blob).

Definition kernel_version_read (kernel_blob : blob) : Z :=
  Memcpy_uint16
    (ptr_add (kernel_key_version_ptr kernel_blob)
       (FIELD_LEN_kernel_key_version +
        RSAProcessedKeySize lib (version_kernel_algorithm kernel_blob) +
        FIELD_LEN_header_checksum lib +
        siglen_map lib (version_firmware_algorithm kernel_blob))).

(** Both algorithm fields pass the range check. *)
Definition version_algorithms_ok (kernel_blob : blob) : bool :=
  negb (version_firmware_algorithm kernel_blob >=? kNumAlgorithms lib) &&
  negb (version_kernel_algorithm kernel_blob >=? kNumAlgorithms lib).

End VersionFields.

(** ** Calls in a row *)

(** The state a first call starts from. *)
Definition before_boot (kernelA kernelB : kernel_entry)
    (store : rollback_store) : driver_state :=
  {| kernelA := kernelA; kernelB := kernelB; tpm := store;
     stored_lversion := stored_logical_version store;
     kernel_to_boot := BOOT_KERNEL_RECOVERY_CONTINUE |}.

(** The state after [n] calls in a row, each on the entries and the store
    the previous one left. *)
Definition boots (lib : CryptoLib) (firmware_key_blob : blob) (dev_mode : Z)
    (n : nat) (kernelA kernelB : kernel_entry) (store : rollback_store)
    : driver_state :=
  Nat.iter n (boot_again lib firmware_key_blob dev_mode)
    (before_boot kernelA kernelB store).

(** Where a call of the loop comes from: [VerifyKernel] on one of the two
    blobs, or the store. *)
Definition loop_call_origin (lib : CryptoLib) (firmware_key_blob : blob)
    (dev_mode : Z) (st : driver_state) (c : call) : Prop :=
  In c (calls (verifies lib firmware_key_blob dev_mode
                 (kernel_blob (kernelA st)))) \/
  In c (calls (verifies lib firmware_key_blob dev_mode
                 (kernel_blob (kernelB st)))) \/
  is_store_call c = true.

(** * Properties *)

(** ** The call log *)

Lemma value_bind {A B : Type} (m : Logged A) (k : A -> Logged B) :
  value (bind m k) = value (k (value m)).
Proof.
  unfold value, bind. destruct (k (fst m)); reflexivity.
Qed.

Lemma calls_bind {A B : Type} (m : Logged A) (k : A -> Logged B) :
  calls (bind m k) = calls m ++ calls (k (value m)).
Proof.
  unfold calls, value, bind. destruct (k (fst m)); reflexivity.
Qed.

Lemma value_ret {A : Type} (a : A) : value (ret a) = a.
Proof. reflexivity. Qed.

Lemma calls_ret {A : Type} (a : A) : calls (ret a) = [].
Proof. reflexivity. Qed.

Lemma value_logged {A : Type} (c : call) (a : A) : value (logged c a) = a.
Proof. reflexivity. Qed.

Lemma calls_logged {A : Type} (c : call) (a : A) : calls (logged c a) = [c].
Proof. reflexivity. Qed.

Lemma value_if {A : Type} (b : bool) (x y : Logged A) :
  value (if b then x else y) = if b then value x else value y.
Proof. destruct b; reflexivity. Qed.

Lemma calls_if {A : Type} (b : bool) (x y : Logged A) :
  calls (if b then x else y) = if b then calls x else calls y.
Proof. destruct b; reflexivity. Qed.

Create Rewrite HintDb logged.
#[local] Hint Rewrite @value_bind @calls_bind @value_ret @calls_ret
  @value_logged @calls_logged : logged.

Ltac logged_simpl :=
  repeat (autorewrite with logged in *; cbn [fst snd app] in *).

(** ** 16-bit fields and the logical version *)

Lemma byte_unsigned_range (b : byte) : 0 <= byte_unsigned b < 256.
Proof.
  unfold byte_unsigned.
  pose proof (Strings.Byte.to_N_bounded b) as H.
  lia.
Qed.

Lemma Memcpy_uint16_range (p : blob) : 0 <= Memcpy_uint16 p < 65536.
Proof.
  change (Memcpy_uint16 p) with
    (byte_unsigned (nth 0 p x00) + 256 * (byte_unsigned (nth 1 p x00) + 256 * 0)).
  pose proof (byte_unsigned_range (nth 0 p x00)).
  pose proof (byte_unsigned_range (nth 1 p x00)).
  lia.
Qed.

Lemma lor_shiftl_16 (msw lsw : Z) :
  0 <= msw -> 0 <= lsw < 65536 ->
  Z.lor (Z.shiftl msw 16) lsw = msw * 65536 + lsw.
Proof.
  intros Hm Hl.
  rewrite Z.shiftl_mul_pow2 by lia.
  change (2 ^ 16) with 65536.
  rewrite <- Z.lxor_lor, <- Z.add_nocarry_lxor; trivial.
  all: apply Z.bits_inj'; intros n Hn; rewrite Z.land_spec, Z.bits_0.
  all: destruct (Z.ltb_spec n 16) as [Hlt | Hge].
  all: try (replace (msw * 65536) with (msw * 2 ^ 16) by reflexivity;
            rewrite Z.mul_pow2_bits_low by lia; reflexivity).
  all: rewrite (Z.bits_above_log2 lsw n), andb_false_r; trivial; try lia.
  all: destruct (Z.eq_dec lsw 0) as [-> | Hnz]; [cbn; lia |].
  all: apply Z.log2_lt_pow2; try lia.
  all: apply Z.lt_le_trans with (2 ^ 16); [change (2 ^ 16) with 65536; lia |].
  all: apply Z.pow_le_mono_r; lia.
Qed.

Lemma CombineUint16Pair_uint16 (msw lsw : Z) :
  0 <= msw < 65536 -> 0 <= lsw < 65536 ->
  CombineUint16Pair msw lsw = msw * 65536 + lsw.
Proof.
  intros Hm Hl. unfold CombineUint16Pair, wrap.
  change 65535 with (Z.ones 16).
  rewrite Z.land_ones by lia.
  change (2 ^ 16) with 65536. change (2 ^ 32) with 4294967296.
  rewrite (Z.mod_small lsw) by lia.
  rewrite lor_shiftl_16 by lia.
  apply Z.mod_small. lia.
Qed.

Lemma CombineUint16Pair_range (msw lsw : Z) :
  0 <= CombineUint16Pair msw lsw < 4294967296.
Proof.
  unfold CombineUint16Pair, wrap. apply Z.mod_pos_bound. reflexivity.
Qed.

Lemma wrap_16_range (z : Z) : 0 <= wrap 16 z < 65536.
Proof. unfold wrap. apply Z.mod_pos_bound. reflexivity. Qed.

(** Splitting a 32-bit logical version into the two counters and reading it
    back gives the same version. *)
Lemma CombineUint16Pair_split (v : Z) :
  0 <= v < 4294967296 ->
  CombineUint16Pair (wrap 16 (Z.shiftr v 16)) (wrap 16 (Z.land v 65535)) = v.
Proof.
  intros Hv.
  rewrite CombineUint16Pair_uint16 by apply wrap_16_range.
  unfold wrap. change 65535 with (Z.ones 16).
  rewrite Z.land_ones, Z.shiftr_div_pow2 by lia.
  change (2 ^ 16) with 65536.
  rewrite Z.mod_mod by lia.
  rewrite (Z.mod_small (v / 65536)).
  - pose proof (Z.div_mod v 65536). lia.
  - split; [apply Z.div_pos; lia |].
    apply Z.div_lt_upper_bound; lia.
Qed.

(** ** Header, config and version reads *)

Ltac unfold_logged :=
  unfold call_RSAProcessedKeySize, call_siglen_map, call_DigestBuf,
    call_RSAVerifyBinary_f, call_RSAVerifyBinaryWithDigest_f,
    logged, bind, ret, value, calls in *;
  cbn [fst snd] in *.

Ltac split_if :=
  match goal with
  | |- context [if ?c then _ else _] => destruct c eqn:?; cbn [fst snd negb app]
  end.

(** C4.  Development mode changes the outcome of [VerifyKernelHeader] in one
    way only: a run that ends in VERIFY_KERNEL_KEY_SIGNATURE_FAILED without
    it ends in success with it.  Every other outcome, the three output
    locations and every call other than the signature check are the same. *)
Theorem dev_mode_skips_only_the_header_signature
    (lib : CryptoLib) (firmware_key_blob header_blob : blob) (dev_mode : Z)
    (out : header_out) :
  dev_mode <> 0 ->
  let strict := VerifyKernelHeader lib firmware_key_blob header_blob 0 out in
  let dev :=
    VerifyKernelHeader lib firmware_key_blob header_blob dev_mode out in
  snd (value dev) = snd (value strict) /\
  (fst (value strict) = VERIFY_KERNEL_KEY_SIGNATURE_FAILED ->
   fst (value dev) = VERIFY_KERNEL_SUCCESS) /\
  (fst (value strict) <> VERIFY_KERNEL_KEY_SIGNATURE_FAILED ->
   fst (value dev) = fst (value strict)) /\
  calls dev = filter (fun c => negb (is_signature_check c)) (calls strict).
Proof.
  intros Hdev strict dev. subst strict dev.
  apply Z.eqb_neq in Hdev.
  unfold VerifyKernelHeader. rewrite Hdev. change (0 =? 0) with true.
  unfold_logged.
  repeat split_if; cbn; repeat split; congruence.
Qed.

Lemma dev_mode_skips_only_the_header_signature_witness :
  let header_blob := ptr_add (Fixture.test_image 0 0 0 5 1) 8 in
  let out := {| firmware_algorithm := 0; kernel_algorithm := 0;
                kernel_header_len := 0 |} in
  let strict :=
    VerifyKernelHeader Fixture.test_lib Fixture.test_firmware_key
      header_blob 0 out in
  let dev :=
    VerifyKernelHeader Fixture.test_lib Fixture.test_firmware_key
      header_blob 1 out in
  1 <> 0 /\
  fst (value strict) = VERIFY_KERNEL_KEY_SIGNATURE_FAILED /\
  fst (value dev) = VERIFY_KERNEL_SUCCESS /\
  snd (value dev) = snd (value strict).
Proof.
  intros header_blob out strict dev.
  assert (Hset : 1 <> 0) by lia.
  destruct (dev_mode_skips_only_the_header_signature Fixture.test_lib
              Fixture.test_firmware_key header_blob 1 out Hset)
    as (Hout & Hfail & _ & _).
  assert (Hstrict : fst (value strict) = VERIFY_KERNEL_KEY_SIGNATURE_FAILED)
    by (vm_compute; reflexivity).
  split; [exact Hset |].
  split; [exact Hstrict |].
  split; [exact (Hfail Hstrict) | exact Hout].
Defined.

(** C5.  An out-of-range firmware or kernel signing algorithm makes
    [VerifyKernelHeader] return VERIFY_KERNEL_INVALID_ALGORITHM with the
    output locations untouched and with no call made at all: no key-size or
    signature-length lookup, no digest, no signature check. *)
Theorem invalid_algorithm_rejected_before_any_lookup
    (lib : CryptoLib) (firmware_key_blob header_blob : blob) (dev_mode : Z)
    (out : header_out) :
  let firmware_sign_algorithm :=
    Memcpy_uint16 (ptr_add header_blob
                     (FIELD_LEN_header_version + FIELD_LEN_header_len)) in
  let kernel_sign_algorithm :=
    Memcpy_uint16 (ptr_add header_blob
                     (FIELD_LEN_header_version + FIELD_LEN_header_len +
                      FIELD_LEN_firmware_sign_algorithm)) in
  firmware_sign_algorithm >= kNumAlgorithms lib \/
  kernel_sign_algorithm >= kNumAlgorithms lib ->
  let r := VerifyKernelHeader lib firmware_key_blob header_blob dev_mode out in
  value r = (VERIFY_KERNEL_INVALID_ALGORITHM, out) /\
  calls r = [] /\
  forallb (fun c => negb (is_table_lookup c || is_signature_check c))
          (calls r) = true.
Proof.
  intros fa ka Hrange r. subst r.
  unfold VerifyKernelHeader. fold fa ka.
  destruct (Z.geb_spec fa (kNumAlgorithms lib)) as [Hfa | Hfa].
  - repeat split; reflexivity.
  - destruct (Z.geb_spec ka (kNumAlgorithms lib)) as [Hka | Hka].
    + repeat split; reflexivity.
    + lia.
Qed.

Lemma invalid_algorithm_rejected_before_any_lookup_witness :
  let header_blob := ptr_add (Fixture.test_image 0 12 0 5 0) 8 in
  let out := {| firmware_algorithm := 7; kernel_algorithm := 7;
                kernel_header_len := 7 |} in
  let r :=
    VerifyKernelHeader Fixture.test_lib Fixture.test_firmware_key
      header_blob 0 out in
  Memcpy_uint16 (ptr_add header_blob 6) = 12 /\
  value r = (VERIFY_KERNEL_INVALID_ALGORITHM, out) /\
  calls r = [].
Proof.
  intros header_blob out r.
  assert (Hka : Memcpy_uint16 (ptr_add header_blob 6) = 12)
    by (vm_compute; reflexivity).
  split; [exact Hka |].
  destruct (invalid_algorithm_rejected_before_any_lookup Fixture.test_lib
              Fixture.test_firmware_key header_blob 0 out)
    as (Hvalue & Hcalls & _).
  - right.
    change (FIELD_LEN_header_version + FIELD_LEN_header_len +
            FIELD_LEN_firmware_sign_algorithm) with 6.
    rewrite Hka. cbn. lia.
  - split; [exact Hvalue | exact Hcalls].
Defined.

(** C6.  [VerifyKernelConfig] makes exactly one call, the signature check
    over the config region.  When that check fails the result is
    VERIFY_KERNEL_CONFIG_SIGNATURE_FAILED and the [kernel_len] location holds
    what it held before; when it passes, the location holds the 64-bit
    length field of the config region, which lies inside the signed bytes
    whenever the field sizes are not negative. *)
Theorem kernel_len_written_only_after_config_verifies
    (lib : CryptoLib) (kernel_sign_key : option (RSAPublicKey lib))
    (config_blob : blob) (algorithm : Z) (kernel_len : Z) :
  let r :=
    VerifyKernelConfig lib kernel_sign_key config_blob algorithm kernel_len in
  let signature_ok :=
    RSAVerifyBinary_f lib None kernel_sign_key config_blob
      (KERNEL_CONFIG_FIELD_LEN lib)
      (ptr_add config_blob (KERNEL_CONFIG_FIELD_LEN lib)) algorithm in
  let kernel_len_offset :=
    FIELD_LEN_kernel_version + FIELD_LEN_options_version lib +
    FIELD_LEN_options_cmd_line lib in
  calls r = [CallRSAVerifyBinary (KERNEL_CONFIG_FIELD_LEN lib) algorithm] /\
  (signature_ok = false ->
   value r = (VERIFY_KERNEL_CONFIG_SIGNATURE_FAILED, kernel_len)) /\
  (signature_ok = true ->
   value r =
     (VERIFY_KERNEL_SUCCESS,
      Memcpy_uint64 (ptr_add config_blob kernel_len_offset))) /\
  (0 <= FIELD_LEN_options_kernel_load_addr lib ->
   0 <= FIELD_LEN_options_kernel_entry_addr lib ->
   kernel_len_offset + 8 <= KERNEL_CONFIG_FIELD_LEN lib).
Proof.
  intros r signature_ok kernel_len_offset. subst r kernel_len_offset.
  assert (Hregion :
    0 <= FIELD_LEN_options_kernel_load_addr lib ->
    0 <= FIELD_LEN_options_kernel_entry_addr lib ->
    FIELD_LEN_kernel_version + FIELD_LEN_options_version lib +
    FIELD_LEN_options_cmd_line lib + 8 <= KERNEL_CONFIG_FIELD_LEN lib).
  { unfold KERNEL_CONFIG_FIELD_LEN, FIELD_LEN_options_kernel_len. lia. }
  unfold VerifyKernelConfig. unfold_logged. fold signature_ok.
  destruct signature_ok; cbn [negb fst snd app];
    repeat split; (congruence || exact Hregion).
Qed.

Lemma kernel_len_written_only_after_config_verifies_witness :
  let config_blob := ptr_add (Fixture.good_image 0 5) (8 + 338 + 128) in
  let good :=
    VerifyKernelConfig Fixture.test_lib (Some Fixture.test_kernel_key)
      config_blob 0 77 in
  let bad :=
    VerifyKernelConfig Fixture.test_lib (Some [x01]) config_blob 0 77 in
  value good = (VERIFY_KERNEL_SUCCESS, 4) /\
  value bad = (VERIFY_KERNEL_CONFIG_SIGNATURE_FAILED, 77) /\
  2 + 8 + 4096 + 8 <= KERNEL_CONFIG_FIELD_LEN Fixture.test_lib.
Proof.
  intros config_blob good bad.
  destruct (kernel_len_written_only_after_config_verifies Fixture.test_lib
              (Some Fixture.test_kernel_key) config_blob 0 77)
    as (_ & _ & Hgood & Hregion).
  destruct (kernel_len_written_only_after_config_verifies Fixture.test_lib
              (Some [x01]) config_blob 0 77)
    as (_ & Hbad & _ & _).
  split; [| split].
  - subst good. rewrite Hgood by (vm_compute; reflexivity).
    vm_compute. reflexivity.
  - apply Hbad. vm_compute. reflexivity.
  - apply Hregion; cbn; lia.
Defined.

(** C8.  [GetLogicalKernelVersion] returns 0 when either signing algorithm
    read from the blob is out of range; otherwise it returns
    [(kernel_key_version << 16) | kernel_version], a 32-bit value, built from
    the two 16-bit fields at their offsets.  On no path does it compute a
    digest or check a signature. *)
Theorem logical_version_from_unverified_fields
    (lib : CryptoLib) (kernel_blob : blob) :
  let firmware_sign_algorithm_ptr :=
    ptr_add kernel_blob
      (FIELD_LEN_magic lib + FIELD_LEN_header_version +
       FIELD_LEN_header_len) in
  let kernel_sign_algorithm_ptr :=
    ptr_add firmware_sign_algorithm_ptr FIELD_LEN_firmware_sign_algorithm in
  let kernel_key_version_ptr :=
    ptr_add kernel_sign_algorithm_ptr FIELD_LEN_kernel_sign_algorithm in
  let firmware_sign_algorithm := Memcpy_uint16 firmware_sign_algorithm_ptr in
  let kernel_sign_algorithm := Memcpy_uint16 kernel_sign_algorithm_ptr in
  let kernel_key_version := Memcpy_uint16 kernel_key_version_ptr in
  let kernel_version :=
    Memcpy_uint16
      (ptr_add kernel_key_version_ptr
         (FIELD_LEN_kernel_key_version +
          RSAProcessedKeySize lib kernel_sign_algorithm +
          FIELD_LEN_header_checksum lib +
          siglen_map lib firmware_sign_algorithm)) in
  let r := GetLogicalKernelVersion lib kernel_blob in
  (firmware_sign_algorithm >= kNumAlgorithms lib \/
   kernel_sign_algorithm >= kNumAlgorithms lib -> value r = 0) /\
  (firmware_sign_algorithm < kNumAlgorithms lib /\
   kernel_sign_algorithm < kNumAlgorithms lib ->
   value r = Z.lor (Z.shiftl kernel_key_version 16) kernel_version /\
   value r = kernel_key_version * 65536 + kernel_version /\
   0 <= value r < 2 ^ 32) /\
  forallb (fun c => negb (is_digest c || is_signature_check c)) (calls r)
    = true.
Proof.
  intros fa_ptr ka_ptr kkv_ptr fa ka kkv kv r. subst r.
  unfold GetLogicalKernelVersion.
  fold fa_ptr. fold ka_ptr. fold kkv_ptr. fold fa ka kkv.
  pose proof (Memcpy_uint16_range kkv_ptr) as Hkkv. fold kkv in Hkkv.
  destruct (Z.geb_spec fa (kNumAlgorithms lib)) as [Hfa | Hfa];
    [| destruct (Z.geb_spec ka (kNumAlgorithms lib)) as [Hka | Hka]].
  1, 2: split; [reflexivity | split; [lia | reflexivity]].
  unfold_logged. fold kv.
  pose proof (Memcpy_uint16_range
                (ptr_add kkv_ptr
                   (FIELD_LEN_kernel_key_version +
                    RSAProcessedKeySize lib ka +
                    FIELD_LEN_header_checksum lib + siglen_map lib fa)))
    as Hkv.
  fold kv in Hkv.
  split; [lia |]. split; [| reflexivity].
  intros _.
  rewrite CombineUint16Pair_uint16 by lia.
  rewrite lor_shiftl_16 by lia.
  change (2 ^ 32) with 4294967296.
  repeat split; lia.
Qed.

Lemma logical_version_from_unverified_fields_witness :
  value (GetLogicalKernelVersion Fixture.test_lib (Fixture.good_image 3 5))
    = Z.lor (Z.shiftl 3 16) 5 /\
  value (GetLogicalKernelVersion Fixture.test_lib
           (Fixture.test_image 12 0 3 5 0)) = 0.
Proof.
  split.
  - destruct (logical_version_from_unverified_fields Fixture.test_lib
                (Fixture.good_image 3 5)) as (_ & Hin & _).
    destruct Hin as (Hlor & _).
    + vm_compute. split; reflexivity.
    + rewrite Hlor. vm_compute. reflexivity.
  - destruct (logical_version_from_unverified_fields Fixture.test_lib
                (Fixture.test_image 12 0 3 5 0)) as (Hout & _ & _).
    apply Hout. left. vm_compute. discriminate.
Defined.

Lemma ptr_add_ptr_add (p : blob) (a b : Z) :
  0 <= a -> 0 <= b -> ptr_add (ptr_add p a) b = ptr_add p (a + b).
Proof.
  intros Ha Hb. unfold ptr_add.
  rewrite skipn_skipn, Z2Nat.inj_add by lia.
  f_equal. lia.
Qed.

(** The place [GetLogicalKernelVersion] reads [kernel_version] from is the
    start of the config block as [VerifyKernel] computes it from a header
    that passed [VerifyKernelHeader], provided the sizes are not negative
    and the header length fits [size_t]. *)
Lemma kernel_version_offset_agrees
    (lib : CryptoLib) (firmware_key_blob kernel_blob : blob) (dev_mode : Z)
    (out : header_out) :
  let header_ptr := ptr_add kernel_blob (KERNEL_MAGIC_SIZE lib) in
  let hdr :=
    value (VerifyKernelHeader lib firmware_key_blob header_ptr dev_mode out) in
  let config_ptr :=
    ptr_add header_ptr
      (kernel_header_len (snd hdr) +
       siglen_map lib (firmware_algorithm (snd hdr))) in
  let kernel_key_version_ptr :=
    ptr_add
      (ptr_add
         (ptr_add kernel_blob
            (FIELD_LEN_magic lib + FIELD_LEN_header_version +
             FIELD_LEN_header_len))
         FIELD_LEN_firmware_sign_algorithm)
      FIELD_LEN_kernel_sign_algorithm in
  FIELD_LEN_magic lib = KERNEL_MAGIC_SIZE lib ->
  0 <= KERNEL_MAGIC_SIZE lib ->
  0 <= FIELD_LEN_header_checksum lib ->
  0 <= RSAProcessedKeySize lib (kernel_algorithm (snd hdr)) ->
  0 <= siglen_map lib (firmware_algorithm (snd hdr)) ->
  10 + RSAProcessedKeySize lib (kernel_algorithm (snd hdr)) +
    FIELD_LEN_header_checksum lib < 2 ^ size_t_bits lib ->
  fst hdr = VERIFY_KERNEL_SUCCESS ->
  ptr_add kernel_key_version_ptr
    (FIELD_LEN_kernel_key_version +
     RSAProcessedKeySize lib (kernel_algorithm (snd hdr)) +
     FIELD_LEN_header_checksum lib +
     siglen_map lib (firmware_algorithm (snd hdr))) = config_ptr /\
  firmware_algorithm (snd hdr) =
    Memcpy_uint16
      (ptr_add kernel_blob
         (FIELD_LEN_magic lib + FIELD_LEN_header_version +
          FIELD_LEN_header_len)) /\
  kernel_algorithm (snd hdr) =
    Memcpy_uint16
      (ptr_add
         (ptr_add kernel_blob
            (FIELD_LEN_magic lib + FIELD_LEN_header_version +
             FIELD_LEN_header_len))
         FIELD_LEN_firmware_sign_algorithm).
Proof.
  intros header_ptr hdr config_ptr kkv_ptr Hmagic Hm Hc.
  subst config_ptr kkv_ptr hdr.
  unfold FIELD_LEN_header_version, FIELD_LEN_header_len,
    FIELD_LEN_firmware_sign_algorithm, FIELD_LEN_kernel_sign_algorithm,
    FIELD_LEN_kernel_key_version.
  rewrite Hmagic.
  unfold VerifyKernelHeader.
  unfold FIELD_LEN_header_version, FIELD_LEN_header_len,
    FIELD_LEN_firmware_sign_algorithm, FIELD_LEN_kernel_sign_algorithm,
    FIELD_LEN_kernel_key_version.
  subst header_ptr.
  rewrite !ptr_add_ptr_add by lia.
  replace (KERNEL_MAGIC_SIZE lib + 2 + 2) with (KERNEL_MAGIC_SIZE lib + (2 + 2))
    by lia.
  replace (KERNEL_MAGIC_SIZE lib + 2 + 2 + 2)
    with (KERNEL_MAGIC_SIZE lib + (2 + 2 + 2)) by lia.
  set (fa := Memcpy_uint16 (ptr_add kernel_blob (KERNEL_MAGIC_SIZE lib + (2 + 2)))).
  set (ka := Memcpy_uint16
               (ptr_add kernel_blob (KERNEL_MAGIC_SIZE lib + (2 + 2 + 2)))).
  set (hl := Memcpy_uint16 (ptr_add kernel_blob (KERNEL_MAGIC_SIZE lib + 2))).
  unfold_logged.
  repeat split_if; cbn [fst snd firmware_algorithm kernel_algorithm
                        kernel_header_len];
    intros Hk Hs Hfit Hok; try discriminate Hok.
  all: match goal with
       | H : negb (_ =? wrap _ _) = false |- _ =>
           apply negb_false_iff, Z.eqb_eq in H; unfold wrap in H;
           rewrite Z.mod_small in H by lia; rewrite H
       end.
  all: rewrite !ptr_add_ptr_add by lia.
  all: repeat split; try reflexivity; try (f_equal; lia).
  all: subst ka; f_equal; f_equal; lia.
Qed.

(** ** The selection loop *)

Lemma VerifyKernel_makes_no_store_call
    (lib : CryptoLib) (firmware_key_blob kernel_blob : blob) (dev_mode : Z) :
  forallb (fun c => negb (is_store_call c))
    (calls (VerifyKernel lib firmware_key_blob kernel_blob dev_mode)) = true.
Proof.
  unfold VerifyKernel, VerifyKernelHeader, VerifyKernelConfig,
    VerifyKernelData.
  unfold_logged.
  repeat split_if; reflexivity.
Qed.

Lemma GetLogicalKernelVersion_makes_no_store_call
    (lib : CryptoLib) (kernel_blob : blob) :
  forallb (fun c => negb (is_store_call c))
    (calls (GetLogicalKernelVersion lib kernel_blob)) = true.
Proof.
  unfold GetLogicalKernelVersion. unfold_logged.
  repeat split_if; reflexivity.
Qed.

Section DriverFacts.

Variable lib : CryptoLib.
Variable firmware_key_blob : blob.
Variable dev_mode : Z.

Local Notation "'accepts'" := (accepted lib firmware_key_blob dev_mode).
Local Notation "'body'" := (loop_body lib firmware_key_blob dev_mode).
Local Notation "'update'" :=
  (update_stored_version lib firmware_key_blob dev_mode).
Local Notation "'check'" := (verifies lib firmware_key_blob dev_mode).

Lemma verifies_makes_no_store_call (kernel_blob : blob) (c : call) :
  In c (calls (check kernel_blob)) -> is_store_call c = false.
Proof.
  unfold verifies. rewrite calls_bind, calls_ret, app_nil_r. intros Hin.
  pose proof (VerifyKernel_makes_no_store_call lib firmware_key_blob
                kernel_blob dev_mode) as Hall.
  rewrite forallb_forall in Hall. apply Hall in Hin.
  now apply negb_true_iff in Hin.
Qed.

(** What [use_one_try] leaves alone. *)
Lemma use_one_try_frame (st : driver_state) (p : kernel_ptr) :
  let st' := use_one_try st p in
  tpm st' = tpm st /\ stored_lversion st' = stored_lversion st /\
  kernel_to_boot st' = kernel_to_boot st /\
  deref st' (other p) = deref st (other p) /\
  kernel_blob (deref st' p) = kernel_blob (deref st p) /\
  boot_priority (deref st' p) = boot_priority (deref st p) /\
  boot_success_flag (deref st' p) = boot_success_flag (deref st p) /\
  boot_tries_remaining (deref st' p) =
    (if boot_tries_remaining (deref st p) >? 0
     then boot_tries_remaining (deref st p) - 1
     else boot_tries_remaining (deref st p)).
Proof.
  unfold use_one_try.
  destruct (boot_tries_remaining (deref st p) >? 0), p; cbn; tauto.
Qed.

(** The block that raises the stored version either leaves the state as it
    is, or runs for the first candidate and writes the halves of
    [min_lversion]. *)
Lemma update_stored_version_cases (order : try_order) (min_lversion i : Z)
    (st : driver_state) :
  let r := update order min_lversion i st in
  (value r = st /\
   forall c, In c (calls r) -> is_store_call c = false) \/
  (i = 0 /\ stored_lversion st < try_kernel_lversion order 1 /\
   value (check (kernel_blob (deref st (try_kernel order 1)))) = true /\
   kernelA (value r) = kernelA st /\ kernelB (value r) = kernelB st /\
   kernel_to_boot (value r) = kernel_to_boot st /\
   stored_lversion (value r) = min_lversion /\
   tpm (value r) =
     snd (value (WriteStoredVersion
                   (snd (value (WriteStoredVersion (tpm st)
                                  KERNEL_KEY_VERSION
                                  (wrap 16 (Z.shiftr min_lversion 16)))))
                   KERNEL_VERSION
                   (wrap 16 (Z.land min_lversion 65535)))) /\
   forall c, In c (calls r) ->
     is_store_call c = false \/
     c = CallWriteStoredVersion KERNEL_KEY_VERSION
           (wrap 16 (Z.shiftr min_lversion 16)) \/
     c = CallWriteStoredVersion KERNEL_VERSION
           (wrap 16 (Z.land min_lversion 65535))).
Proof.
  intros r. subst r. unfold update_stored_version.
  destruct (Z.eqb_spec i 0) as [Hi | Hi]; cbn [andb];
    [| left; split; [reflexivity | intros c []]].
  destruct (Z.ltb_spec (stored_lversion st) (try_kernel_lversion order 1))
    as [Hlt | Hge]; [| left; split; [reflexivity | intros c []]].
  rewrite value_bind, calls_bind.
  destruct (value (check (kernel_blob (deref st (try_kernel order 1)))))
    eqn:Hok.
  - right. repeat (split; [solve [trivial | reflexivity] |]).
    intros c Hin. apply in_app_or in Hin. destruct Hin as [Hin | Hin].
    + left. eapply verifies_makes_no_store_call; eassumption.
    + cbn in Hin. intuition.
  - left. split; [reflexivity |].
    intros c Hin. rewrite calls_ret, app_nil_r in Hin.
    eapply verifies_makes_no_store_call; eassumption.
Qed.


(** The three ways through the loop body. *)
Lemma loop_body_cases (order : try_order) (min_lversion i : Z)
    (st : driver_state) :
  let p := try_kernel order i in
  let r := body order min_lversion i st in
  let tried := use_one_try st p in
  (accepts (deref st p) = false /\
   value r = (LoopNext, assign st p (set_boot_priority (deref st p) 0)) /\
   forall c, In c (calls r) -> is_store_call c = false) \/
  (accepts (deref st p) = true /\
   stored_lversion st > try_kernel_lversion order i /\
   value r = (LoopNext, tried) /\
   forall c, In c (calls r) -> is_store_call c = false) \/
  (accepts (deref st p) = true /\
   stored_lversion st <= try_kernel_lversion order i /\
   value r =
     (LoopBreak,
      set_kernel_to_boot (value (update order min_lversion i tried))
        (try_kernel_which order i)) /\
   forall c, In c (calls r) ->
     is_store_call c = false \/
     In c (calls (update order min_lversion i tried))).
Proof.
  intros p r tried. subst r. unfold loop_body. fold p. fold tried.
  rewrite value_bind, calls_bind.
  assert (Hcalls : forall c,
    In c (calls (if eligible (deref st p)
                 then check (kernel_blob (deref st p))
                 else ret false)) -> is_store_call c = false).
  { intros c. destruct (eligible (deref st p)).
    - apply verifies_makes_no_store_call.
    - intros []. }
  assert (Hok :
    value (if eligible (deref st p)
           then check (kernel_blob (deref st p))
           else ret false) = accepts (deref st p)).
  { unfold accepted. destruct (eligible (deref st p)); reflexivity. }
  rewrite Hok. clear Hok.
  destruct (accepts (deref st p)).
  - destruct (use_one_try_frame st p) as (_ & Hstored & _). fold tried in Hstored.
    rewrite Hstored.
    destruct (Z.gtb_spec (stored_lversion st) (try_kernel_lversion order i))
      as [Hgt | Hle].
    + right; left. repeat split; trivial; try lia.
      intros c Hin. rewrite calls_ret, app_nil_r in Hin. auto.
    + right; right. rewrite value_bind, calls_bind, calls_ret, app_nil_r.
      repeat split; trivial.
      intros c Hin. apply in_app_or in Hin. destruct Hin; auto.
  - left. repeat split; trivial.
    intros c Hin. rewrite calls_ret, app_nil_r in Hin. auto.
Qed.

(** Two passes: the second one runs unless the first one breaks. *)
Lemma for_loop_two (order : try_order) (min_lversion : Z) (st : driver_state) :
  let r0 := body order min_lversion 0 st in
  let r1 := body order min_lversion 1 (snd (value r0)) in
  let r := for_loop lib firmware_key_blob dev_mode order min_lversion [0; 1]
             st in
  match fst (value r0) with
  | LoopBreak => value r = snd (value r0) /\ calls r = calls r0
  | LoopNext => value r = snd (value r1) /\ calls r = calls r0 ++ calls r1
  end.
Proof.
  intros r0 r1 r. subst r. cbn [for_loop].
  rewrite value_bind, calls_bind. fold r0.
  destruct (fst (value r0)).
  - rewrite value_bind, calls_bind. fold r1.
    destruct (fst (value r1)); rewrite value_ret, calls_ret, app_nil_r;
      split; reflexivity.
  - rewrite value_ret, calls_ret, app_nil_r. split; reflexivity.
Qed.


Lemma deref_use_one_try (st : driver_state) (p q : kernel_ptr) :
  deref (use_one_try st p) q =
  if kernel_ptr_eqb p q then after_try (deref st p) else deref st q.
Proof.
  unfold use_one_try, after_try.
  destruct (boot_tries_remaining (deref st p) >? 0), p, q; reflexivity.
Qed.

Lemma deref_assign (st : driver_state) (p q : kernel_ptr) (e : kernel_entry) :
  deref (assign st p e) q = if kernel_ptr_eqb p q then e else deref st q.
Proof. destruct p, q; reflexivity. Qed.

Lemma other_neq (p : kernel_ptr) : kernel_ptr_eqb p (other p) = false.
Proof. destruct p; reflexivity. Qed.

Lemma kernel_ptr_eqb_refl (p : kernel_ptr) : kernel_ptr_eqb p p = true.
Proof. destruct p; reflexivity. Qed.

Lemma other_neq_sym (p : kernel_ptr) : kernel_ptr_eqb (other p) p = false.
Proof. destruct p; reflexivity. Qed.

Lemma deref_set_kernel_to_boot (st : driver_state) (b : boot_path)
    (p : kernel_ptr) :
  deref (set_kernel_to_boot st b) p = deref st p.
Proof. destruct p; reflexivity. Qed.

Lemma deref_same_entries (st' st : driver_state) (p : kernel_ptr) :
  kernelA st' = kernelA st -> kernelB st' = kernelB st ->
  deref st' p = deref st p.
Proof. destruct p; cbn; auto. Qed.

Lemma tpm_assign (st : driver_state) (p : kernel_ptr) (e : kernel_entry) :
  tpm (assign st p e) = tpm st.
Proof. destruct p; reflexivity. Qed.

Lemma stored_lversion_assign (st : driver_state) (p : kernel_ptr)
    (e : kernel_entry) :
  stored_lversion (assign st p e) = stored_lversion st.
Proof. destruct p; reflexivity. Qed.

Lemma kernel_to_boot_assign (st : driver_state) (p : kernel_ptr)
    (e : kernel_entry) :
  kernel_to_boot (assign st p e) = kernel_to_boot st.
Proof. destruct p; reflexivity. Qed.

Lemma deref_set_tpm (st : driver_state) (t : rollback_store) (p : kernel_ptr) :
  deref (set_tpm st t) p = deref st p.
Proof. destruct p; reflexivity. Qed.

(** The outcome of the loop, case by case.  [p0] is visited first; [p1] is
    visited when [p0] is not selected. *)
Lemma for_loop_outcome (order : try_order) (m : Z) (st : driver_state) :
  let p0 := try_kernel order 0 in
  let p1 := try_kernel order 1 in
  let W1 := CallWriteStoredVersion KERNEL_KEY_VERSION
              (wrap 16 (Z.shiftr m 16)) in
  let W2 := CallWriteStoredVersion KERNEL_VERSION
              (wrap 16 (Z.land m 65535)) in
  let r := for_loop lib firmware_key_blob dev_mode order m [0; 1] st in
  p1 = other p0 ->
  (accepts (deref st p0) = true /\
   stored_lversion st <= try_kernel_lversion order 0 /\
   kernel_to_boot (value r) = try_kernel_which order 0 /\
   deref (value r) p0 = after_try (deref st p0) /\
   deref (value r) p1 = deref st p1 /\
   ((tpm (value r) = tpm st /\
     stored_lversion (value r) = stored_lversion st /\
     forall c, In c (calls r) -> is_store_call c = false) \/
    (stored_lversion st < try_kernel_lversion order 1 /\
     value (check (kernel_blob (deref st p1))) = true /\
     stored_lversion (value r) = m /\
     tpm (value r) =
       snd (value (WriteStoredVersion
                     (snd (value (WriteStoredVersion (tpm st)
                                    KERNEL_KEY_VERSION
                                    (wrap 16 (Z.shiftr m 16)))))
                     KERNEL_VERSION (wrap 16 (Z.land m 65535)))) /\
     forall c, In c (calls r) ->
       is_store_call c = false \/ c = W1 \/ c = W2))) \/
  (((accepts (deref st p0) = true /\
     stored_lversion st > try_kernel_lversion order 0 /\
     deref (value r) p0 = after_try (deref st p0)) \/
    (accepts (deref st p0) = false /\
     deref (value r) p0 = demoted (deref st p0))) /\
   ((accepts (deref st p1) = true /\
     stored_lversion st <= try_kernel_lversion order 1 /\
     kernel_to_boot (value r) = try_kernel_which order 1 /\
     deref (value r) p1 = after_try (deref st p1)) \/
    (accepts (deref st p1) = true /\
     stored_lversion st > try_kernel_lversion order 1 /\
     kernel_to_boot (value r) = kernel_to_boot st /\
     deref (value r) p1 = after_try (deref st p1)) \/
    (accepts (deref st p1) = false /\
     kernel_to_boot (value r) = kernel_to_boot st /\
     deref (value r) p1 = demoted (deref st p1))) /\
   tpm (value r) = tpm st /\
   stored_lversion (value r) = stored_lversion st /\
   forall c, In c (calls r) -> is_store_call c = false).
Proof.
  intros p0 p1 W1 W2 r Hp1.
  subst p1. rewrite !Hp1.
  pose proof (for_loop_two order m st) as Hloop. cbv zeta in Hloop.
  fold r in Hloop.
  pose proof (loop_body_cases order m 0 st) as H0. cbv zeta in H0.
  fold p0 in H0.
  set (r0 := body order m 0 st) in *.
  destruct (use_one_try_frame st p0) as (Ttpm & Tstored & Tboot & _).
  destruct H0 as [(Hacc & Hval & Hcalls) | [(Hacc & Hgt & Hval & Hcalls)
                                           | (Hacc & Hle & Hval & Hcalls)]].
  3: {
    (* the first candidate is selected *)
    left. rewrite Hval in Hloop. cbn [fst snd] in Hloop.
    destruct Hloop as (Hv & Hc). rewrite Hv, Hc.
    destruct (update_stored_version_cases order m 0 (use_one_try st p0))
      as [(Hsame & Hnone) | (_ & Hlt & Hok & HA & HB & Hboot & Hst & Htpm & Hcs)].
    - rewrite Hsame. cbn [kernel_to_boot set_kernel_to_boot].
      rewrite !deref_set_kernel_to_boot, !deref_use_one_try.
      rewrite kernel_ptr_eqb_refl, other_neq.
      repeat (split; [solve [trivial] |]).
      left. cbn [tpm stored_lversion set_kernel_to_boot].
      repeat (split; [solve [trivial] |]).
      intros c Hin. destruct (Hcalls c Hin); auto.
    - cbn [kernel_to_boot set_kernel_to_boot].
      rewrite !deref_set_kernel_to_boot.
      rewrite !(deref_same_entries _ _ _ HA HB).
      rewrite !deref_use_one_try.
      rewrite kernel_ptr_eqb_refl, other_neq.
      repeat (split; [solve [trivial] |]).
      right. cbn [tpm stored_lversion set_kernel_to_boot].
      rewrite Tstored in Hlt. rewrite Ttpm in Htpm.
      rewrite deref_use_one_try in Hok. fold p0 in Hok.
      rewrite Hp1, other_neq in Hok.
      repeat (split; [solve [trivial] |]).
      intros c Hin. destruct (Hcalls c Hin) as [Hno | Hup]; auto. }
  all: assert (Hexit : fst (value r0) = LoopNext) by now rewrite Hval.
  all: rewrite Hexit in Hloop.
  all: set (st1 := snd (value r0)) in *.
  all: pose proof (loop_body_cases order m 1 st1) as H1; cbv zeta in H1.
  all: set (r1 := body order m 1 st1) in *.
  all: destruct Hloop as (Hv & Hc); rewrite Hv, Hc.
  all: right.
  all: assert (Hst1 : tpm st1 = tpm st /\
                      stored_lversion st1 = stored_lversion st /\
                      kernel_to_boot st1 = kernel_to_boot st /\
                      deref st1 (other p0) = deref st (other p0))
         by (subst st1; rewrite Hval; cbn [snd];
             rewrite ?deref_use_one_try, ?deref_assign, ?other_neq;
             destruct (try_kernel order 0) eqn:?; cbn; auto).
  all: destruct Hst1 as (S1tpm & S1stored & S1boot & S1other).
  all: rewrite Hp1, S1other, S1stored in H1.
  all: assert (Hfirst :
         deref st1 p0 =
         if accepts (deref st p0)
         then after_try (deref st p0) else demoted (deref st p0))
         by (subst st1; rewrite Hval, Hacc; cbn [snd];
             rewrite ?deref_use_one_try, ?deref_assign, ?kernel_ptr_eqb_refl;
             reflexivity).
  all: rewrite Hacc in Hfirst.
  all: destruct (use_one_try_frame st1 (other p0))
         as (T1tpm & T1stored & T1boot & _).
  all: destruct H1 as [(Hacc1 & Hval1 & Hcalls1)
                      | [(Hacc1 & Hgt1 & Hval1 & Hcalls1)
                        | (Hacc1 & Hle1 & Hval1 & Hcalls1)]].
  all: rewrite Hval1; cbn [snd].
  all: try (destruct (update_stored_version_cases order m 1
                        (use_one_try st1 (other p0)))
              as [(Hsame & Hnone) | (Habs & _)]; [| discriminate];
            rewrite Hsame in *).
  all: cbn [kernel_to_boot set_kernel_to_boot tpm stored_lversion].
  all: rewrite ?deref_set_kernel_to_boot, ?deref_use_one_try, ?deref_assign,
         ?kernel_ptr_eqb_refl, ?other_neq, ?other_neq_sym, ?Hfirst, ?S1other,
         ?tpm_assign, ?stored_lversion_assign, ?kernel_to_boot_assign,
         ?T1tpm, ?T1stored, ?T1boot, ?S1tpm, ?S1stored, ?S1boot.
  all: split; [solve [auto] |].
  all: split; [solve [auto 6] |].
  all: repeat (split; [solve [trivial] |]).
  all: intros c Hin; apply in_app_or in Hin; destruct Hin as [Hin | Hin];
         [now apply Hcalls |].
  all: try (now apply Hcalls1).
  all: destruct (Hcalls1 c Hin); auto.
Qed.

Lemma make_try_order_facts (kernelA kernelB : kernel_entry) (lA lB : Z) :
  let order := make_try_order kernelA kernelB lA lB in
  let p0 := first_tried kernelA kernelB in
  try_kernel order 0 = p0 /\ try_kernel order 1 = other p0 /\
  try_kernel_which order 0 = slot_of p0 /\
  try_kernel_which order 1 = slot_of (other p0) /\
  try_kernel_lversion order 0 =
    match p0 with PtrKernelA => lA | PtrKernelB => lB end /\
  try_kernel_lversion order 1 =
    match p0 with PtrKernelA => lB | PtrKernelB => lA end.
Proof.
  unfold first_tried, make_try_order.
  destruct (boot_priority kernelA >=? boot_priority kernelB); cbn; tauto.
Qed.

Lemma driver_unfold (kernelA kernelB : kernel_entry) (store : rollback_store) :
  let order :=
    make_try_order kernelA kernelB (lversion lib kernelA)
      (lversion lib kernelB) in
  let loop :=
    for_loop lib firmware_key_blob dev_mode order
      (Min (lversion lib kernelA) (lversion lib kernelB)) [0; 1]
      {| kernelA := kernelA; kernelB := kernelB; tpm := store;
         stored_lversion := stored_logical_version store;
         kernel_to_boot := BOOT_KERNEL_RECOVERY_CONTINUE |} in
  let r := VerifyKernelDriver_f lib firmware_key_blob dev_mode
             kernelA kernelB store in
  value r = set_tpm (value loop) (lock_both (tpm (value loop))) /\
  calls r =
    calls (GetLogicalKernelVersion lib (kernel_blob kernelA)) ++
    calls (GetLogicalKernelVersion lib (kernel_blob kernelB)) ++
    [CallGetStoredVersion KERNEL_KEY_VERSION;
     CallGetStoredVersion KERNEL_VERSION] ++
    calls loop ++
    [CallLockStoredVersion KERNEL_KEY_VERSION;
     CallLockStoredVersion KERNEL_VERSION].
Proof.
  intros order loop r. subst r. unfold VerifyKernelDriver_f.
  rewrite !value_bind, !calls_bind.
  split; reflexivity.
Qed.

Lemma driver_outcome (kernelA kernelB : kernel_entry) (store : rollback_store) :
  let p0 := first_tried kernelA kernelB in
  let p1 := other p0 in
  let e0 := entry kernelA kernelB p0 in
  let e1 := entry kernelA kernelB p1 in
  let s := stored_logical_version store in
  let m := Min (lversion lib kernelA) (lversion lib kernelB) in
  let r := VerifyKernelDriver_f lib firmware_key_blob dev_mode
             kernelA kernelB store in
  (accepts e0 = true /\ s <= lversion lib e0 /\
   kernel_to_boot (value r) = slot_of p0 /\
   deref (value r) p0 = after_try e0 /\ deref (value r) p1 = e1 /\
   ((tpm (value r) = lock_both store /\ stored_lversion (value r) = s /\
     forall slot v, ~ In (CallWriteStoredVersion slot v) (calls r)) \/
    (s < lversion lib e1 /\
     value (check (kernel_blob e1)) = true /\
     stored_lversion (value r) = m /\
     tpm (value r) = lock_both (write_both store m) /\
     forall slot v, In (CallWriteStoredVersion slot v) (calls r) ->
       (slot = KERNEL_KEY_VERSION /\ v = wrap 16 (Z.shiftr m 16)) \/
       (slot = KERNEL_VERSION /\ v = wrap 16 (Z.land m 65535))))) \/
  (((accepts e0 = true /\ s > lversion lib e0 /\
     deref (value r) p0 = after_try e0) \/
    (accepts e0 = false /\ deref (value r) p0 = demoted e0)) /\
   ((accepts e1 = true /\ s <= lversion lib e1 /\
     kernel_to_boot (value r) = slot_of p1 /\
     deref (value r) p1 = after_try e1) \/
    (accepts e1 = true /\ s > lversion lib e1 /\
     kernel_to_boot (value r) = BOOT_KERNEL_RECOVERY_CONTINUE /\
     deref (value r) p1 = after_try e1) \/
    (accepts e1 = false /\
     kernel_to_boot (value r) = BOOT_KERNEL_RECOVERY_CONTINUE /\
     deref (value r) p1 = demoted e1)) /\
   tpm (value r) = lock_both store /\
   stored_lversion (value r) = s /\
   forall slot v, ~ In (CallWriteStoredVersion slot v) (calls r)).
Proof.
  intros p0 p1 e0 e1 s m r.
  destruct (driver_unfold kernelA kernelB store) as (Hv & Hc).
  fold r in Hv, Hc. fold m in Hv, Hc.
  destruct (make_try_order_facts kernelA kernelB
              (lversion lib kernelA) (lversion lib kernelB))
    as (O0 & O1 & W0 & W1 & L0 & L1).
  fold p0 in O0, O1, W0, W1, L0, L1. fold p1 in O1, W1, L1.
  set (order := make_try_order kernelA kernelB (lversion lib kernelA)
                  (lversion lib kernelB)) in *.
  set (st0 := {| kernelA := kernelA; kernelB := kernelB; tpm := store;
                 stored_lversion := stored_logical_version store;
                 kernel_to_boot := BOOT_KERNEL_RECOVERY_CONTINUE |}) in *.
  assert (HL0 : try_kernel_lversion order 0 = lversion lib e0)
    by (rewrite L0; subst e0; destruct p0; reflexivity).
  assert (HL1 : try_kernel_lversion order 1 = lversion lib e1)
    by (rewrite L1; subst e1 p1; destruct p0; reflexivity).
  assert (Hwrites : forall (l : call -> Prop) slot v,
    In (CallWriteStoredVersion slot v) (calls r) ->
    (forall c, In c (calls (for_loop lib firmware_key_blob dev_mode order m
                              [0; 1] st0)) -> l c) ->
    l (CallWriteStoredVersion slot v)).
  { intros l slot v Hin Hl. rewrite Hc in Hin.
    repeat (apply in_app_or in Hin; destruct Hin as [Hin | Hin]).
    - pose proof (GetLogicalKernelVersion_makes_no_store_call lib
                    (kernel_blob kernelA)) as Hall.
      rewrite forallb_forall in Hall. apply Hall in Hin. discriminate Hin.
    - pose proof (GetLogicalKernelVersion_makes_no_store_call lib
                    (kernel_blob kernelB)) as Hall.
      rewrite forallb_forall in Hall. apply Hall in Hin. discriminate Hin.
    - cbn in Hin. intuition discriminate.
    - auto.
    - cbn in Hin. intuition discriminate. }
  pose proof (for_loop_outcome order m st0) as Hloop. cbv zeta in Hloop.
  rewrite O0, O1, W0, W1, HL0, HL1 in Hloop.
  specialize (Hloop eq_refl).
  change (deref st0 p0) with e0 in Hloop.
  change (deref st0 p1) with e1 in Hloop.
  change (stored_lversion st0) with s in Hloop.
  change (tpm st0) with store in Hloop.
  change (kernel_to_boot st0) with BOOT_KERNEL_RECOVERY_CONTINUE in Hloop.
  rewrite Hv.
  cbn [kernel_to_boot stored_lversion tpm set_tpm].
  rewrite !deref_set_tpm.
  destruct Hloop as [(Ha & Hle & Hboot & Hd0 & Hd1 & Hstore) | Hrest].
  - left. repeat (split; [solve [trivial] |]).
    destruct Hstore as [(Htpm & Hst & Hnone) | (Hlt & Hok & Hst & Htpm & Hcs)].
    + left. rewrite Htpm. repeat (split; [solve [trivial] |]).
      intros slot v Hin.
      apply (Hwrites (fun c => is_store_call c = false)) in Hin;
        [discriminate | exact Hnone].
    + right. rewrite Htpm. repeat (split; [solve [trivial] |]).
      intros slot v Hin.
      apply (Hwrites (fun c => is_store_call c = false \/
                 c = CallWriteStoredVersion KERNEL_KEY_VERSION
                       (wrap 16 (Z.shiftr m 16)) \/
                 c = CallWriteStoredVersion KERNEL_VERSION
                       (wrap 16 (Z.land m 65535)))) in Hin; [| exact Hcs].
      destruct Hin as [Hno | [Heq | Heq]]; [discriminate Hno | |];
        injection Heq as -> ->; auto.
  - right. destruct Hrest as (H0 & H1 & Htpm & Hst & Hnone).
    rewrite Htpm. repeat (split; [solve [trivial] |]).
    intros slot v Hin.
    apply (Hwrites (fun c => is_store_call c = false)) in Hin;
      [discriminate | exact Hnone].
Qed.

End DriverFacts.

(** ** The selection policy *)

Lemma lversion_range (lib : CryptoLib) (e : kernel_entry) :
  0 <= lversion lib e < 4294967296.
Proof.
  unfold lversion, GetLogicalKernelVersion. unfold_logged.
  repeat split_if; try lia.
  apply CombineUint16Pair_range.
Qed.

Lemma accepted_true (lib : CryptoLib) (firmware_key_blob : blob)
    (dev_mode : Z) (e : kernel_entry) :
  accepted lib firmware_key_blob dev_mode e = true <->
  eligible e = true /\
  value (verifies lib firmware_key_blob dev_mode (kernel_blob e)) = true.
Proof. unfold accepted. apply andb_true_iff. Qed.

Lemma slot_of_other (p : kernel_ptr) : slot_of (other p) <> slot_of p.
Proof. destruct p; discriminate. Qed.

Lemma slot_of_not_recovery (p : kernel_ptr) :
  slot_of p <> BOOT_KERNEL_RECOVERY_CONTINUE.
Proof. destruct p; discriminate. Qed.

Lemma first_or_other (kernelA kernelB : kernel_entry) (p : kernel_ptr) :
  p = first_tried kernelA kernelB \/ p = other (first_tried kernelA kernelB).
Proof. destruct p, (first_tried kernelA kernelB); auto. Qed.

(** An accepted candidate below the stored version is not returned. *)
Lemma rollback_never_returned
    (lib : CryptoLib) (firmware_key_blob : blob) (dev_mode : Z)
    (kernelA kernelB : kernel_entry) (store : rollback_store)
    (p : kernel_ptr) :
  let e := entry kernelA kernelB p in
  let r := VerifyKernelDriver_f lib firmware_key_blob dev_mode
             kernelA kernelB store in
  accepted lib firmware_key_blob dev_mode e = true ->
  lversion lib e < stored_logical_version store ->
  kernel_to_boot (value r) <> slot_of p.
Proof.
  intros e r Hacc Hlt.
  pose proof (driver_outcome lib firmware_key_blob dev_mode
                kernelA kernelB store) as Hout.
  cbv zeta in Hout. fold r in Hout.
  destruct (first_or_other kernelA kernelB p) as [Hp | Hp].
  - rewrite <- Hp in Hout. fold e in Hout.
    destruct Hout as [(_ & Hle & _) | (_ & Hsecond & _)]; [lia |].
    destruct Hsecond as [(_ & _ & Hboot & _) | [(_ & _ & Hboot & _)
                                               | (_ & Hboot & _)]];
      rewrite Hboot;
      auto using slot_of_other, not_eq_sym, slot_of_not_recovery.
  - assert (Hq : first_tried kernelA kernelB = other p)
      by (rewrite Hp; destruct (first_tried kernelA kernelB); reflexivity).
    rewrite Hq in Hout.
    replace (other (other p)) with p in Hout by (destruct p; reflexivity).
    fold e in Hout.
    destruct Hout as [(_ & _ & Hboot & _) | (_ & Hsecond & _)].
    + rewrite Hboot. apply slot_of_other.
    + destruct Hsecond as [(_ & Hle & _) | [(_ & _ & Hboot & _)
                                            | (Hrej & _)]];
        [lia | | congruence].
      rewrite Hboot. auto using not_eq_sym, slot_of_not_recovery.
Qed.

(** C1.  A candidate that is eligible and passes [VerifyKernel] but whose
    logical version is below the stored one is never the boot path the
    driver returns.  The pass of the loop that meets it ends in [continue]
    with [kernel_to_boot] as it was, and when it is the first candidate the
    decision falls to the second one. *)
Theorem rollback_candidate_is_never_selected
    (lib : CryptoLib) (firmware_key_blob : blob) (dev_mode : Z)
    (kernelA kernelB : kernel_entry) (store : rollback_store)
    (p : kernel_ptr) :
  let e := entry kernelA kernelB p in
  let e' := entry kernelA kernelB (other p) in
  let s := stored_logical_version store in
  let r := VerifyKernelDriver_f lib firmware_key_blob dev_mode
             kernelA kernelB store in
  eligible e = true ->
  value (verifies lib firmware_key_blob dev_mode (kernel_blob e)) = true ->
  lversion lib e < s ->
  kernel_to_boot (value r) <> slot_of p /\
  (forall order m i st,
     try_kernel order i = p -> deref st p = e ->
     try_kernel_lversion order i = lversion lib e ->
     stored_lversion st = s ->
     let pass := value (loop_body lib firmware_key_blob dev_mode order m i st) in
     fst pass = LoopNext /\
     kernel_to_boot (snd pass) = kernel_to_boot st) /\
  (p = first_tried kernelA kernelB ->
   (accepted lib firmware_key_blob dev_mode e' = true ->
    s <= lversion lib e' -> kernel_to_boot (value r) = slot_of (other p)) /\
   (accepted lib firmware_key_blob dev_mode e' = false \/
    lversion lib e' < s ->
    kernel_to_boot (value r) = BOOT_KERNEL_RECOVERY_CONTINUE)).
Proof.
  intros e e' s r Hel Hok Hlt.
  assert (Hacc : accepted lib firmware_key_blob dev_mode e = true)
    by (apply accepted_true; auto).
  pose proof (driver_outcome lib firmware_key_blob dev_mode
                kernelA kernelB store) as Hout.
  cbv zeta in Hout. fold r s in Hout.
  split; [| split].
  - apply rollback_never_returned; assumption.
  - intros order m i st Hp He Hl Hs pass. subst pass.
    pose proof (loop_body_cases lib firmware_key_blob dev_mode order m i st)
      as Hbody.
    cbv zeta in Hbody. rewrite Hp, He, Hl, Hs in Hbody.
    destruct Hbody as [(Hrej & _) | [(_ & _ & Hval & _) | (_ & Hle & _)]];
      [congruence | | lia].
    rewrite Hval. cbn [fst snd]. split; [reflexivity |].
    apply use_one_try_frame.
  - intros Hp. rewrite <- Hp in Hout. fold e e' in Hout.
    destruct Hout as [(_ & Hle & _) | (_ & Hsecond & _)]; [lia |].
    split.
    + intros Hacc' Hle'.
      destruct Hsecond as [(_ & _ & Hboot & _) | [(_ & Hgt & _)
                                                 | (Hrej & _)]];
        [assumption | lia | congruence].
    + intros Hno.
      destruct Hsecond as [(Hacc' & Hle' & _) | [(_ & _ & Hboot & _)
                                                | (_ & Hboot & _)]];
        [| assumption | assumption].
      destruct Hno; [congruence | lia].
Qed.

Lemma Min_glb (a b s : Z) : s <= a -> s <= b -> s <= Min a b.
Proof. unfold Min. destruct (a <? b); auto. Qed.

Lemma Min_range (lib : CryptoLib) (kernelA kernelB : kernel_entry) :
  0 <= Min (lversion lib kernelA) (lversion lib kernelB) < 4294967296.
Proof.
  unfold Min.
  destruct (lversion lib kernelA <? lversion lib kernelB);
    apply lversion_range.
Qed.

Lemma wrap_16_idempotent (z : Z) : wrap 16 (wrap 16 z) = wrap 16 z.
Proof. unfold wrap. apply Z.mod_mod. discriminate. Qed.

(** With both counters in the same lock state the two writes either both
    land or are both refused. *)
Lemma stored_logical_version_after_writes (store : rollback_store) (m : Z) :
  0 <= m < 4294967296 ->
  locked (kernel_key_version_counter store) =
    locked (kernel_version_counter store) ->
  stored_logical_version (lock_both (write_both store m)) = m \/
  stored_logical_version (lock_both (write_both store m)) =
    stored_logical_version store.
Proof.
  intros Hm Hlock. unfold lock_both, write_both, stored_logical_version.
  unfold WriteStoredVersion, LockStoredVersion. rewrite !value_logged.
  cbn [counter_of].
  destruct (locked (kernel_key_version_counter store)) eqn:Hkey;
    cbn [snd counter_of set_counter kernel_key_version_counter
         kernel_version_counter version locked];
    rewrite <- Hlock;
    cbn [snd counter_of set_counter kernel_key_version_counter
         kernel_version_counter version locked].
  - right. reflexivity.
  - left. rewrite !wrap_16_idempotent. apply CombineUint16Pair_split, Hm.
Qed.

Lemma stored_logical_version_lock_both (store : rollback_store) :
  stored_logical_version (lock_both store) = stored_logical_version store.
Proof. reflexivity. Qed.


(** C7.  On every path the last two calls of the driver lock
    KERNEL_KEY_VERSION and KERNEL_VERSION, and both counters are locked in
    the store it leaves behind, whichever of the three boot paths it
    returns; the recovery path is neither kernel's slot. *)
Theorem both_counters_locked_before_return
    (lib : CryptoLib) (firmware_key_blob : blob) (dev_mode : Z)
    (kernelA kernelB : kernel_entry) (store : rollback_store) :
  let r := VerifyKernelDriver_f lib firmware_key_blob dev_mode
             kernelA kernelB store in
  (exists earlier,
     calls r = earlier ++ [CallLockStoredVersion KERNEL_KEY_VERSION;
                           CallLockStoredVersion KERNEL_VERSION]) /\
  locked (kernel_key_version_counter (tpm (value r))) = true /\
  locked (kernel_version_counter (tpm (value r))) = true /\
  (kernel_to_boot (value r) = BOOT_KERNEL_A_CONTINUE \/
   kernel_to_boot (value r) = BOOT_KERNEL_B_CONTINUE \/
   kernel_to_boot (value r) = BOOT_KERNEL_RECOVERY_CONTINUE) /\
  BOOT_KERNEL_RECOVERY_CONTINUE <> BOOT_KERNEL_A_CONTINUE /\
  BOOT_KERNEL_RECOVERY_CONTINUE <> BOOT_KERNEL_B_CONTINUE.
Proof.
  intros r.
  destruct (driver_unfold lib firmware_key_blob dev_mode kernelA kernelB store)
    as (Hv & Hc).
  fold r in Hv, Hc. rewrite Hv, Hc.
  split; [| split; [reflexivity | split; [reflexivity |]]].
  - eexists. rewrite !app_assoc. reflexivity.
  - split; [| split; discriminate].
    cbn [kernel_to_boot set_tpm].
    destruct (kernel_to_boot _); auto.
Qed.

Lemma after_try_fields (e : kernel_entry) :
  kernel_blob (after_try e) = kernel_blob e /\
  boot_priority (after_try e) = boot_priority e /\
  boot_success_flag (after_try e) = boot_success_flag e /\
  boot_tries_remaining (after_try e) =
    (if boot_tries_remaining e >? 0
     then boot_tries_remaining e - 1 else boot_tries_remaining e).
Proof.
  unfold after_try. destruct (boot_tries_remaining e >? 0); cbn; tauto.
Qed.

Lemma deref_entry (r : driver_state) (p : kernel_ptr) :
  deref r p = entry (kernelA r) (kernelB r) p.
Proof. destruct p; reflexivity. Qed.

(** C3, as the code has it.  A candidate the loop visits and turns down,
    because it is not eligible or because [VerifyKernel] fails on it, has
    [boot_priority] 0 on return; so has every such candidate when the
    result is recovery.  The second candidate is not visited when the first
    one is selected, and is handed back as it was. *)
Theorem rejected_candidate_is_demoted
    (lib : CryptoLib) (firmware_key_blob : blob) (dev_mode : Z)
    (kernelA kernelB : kernel_entry) (store : rollback_store)
    (p : kernel_ptr) :
  let e := entry kernelA kernelB p in
  let r := value (VerifyKernelDriver_f lib firmware_key_blob dev_mode
                    kernelA kernelB store) in
  (accepted lib firmware_key_blob dev_mode e = false ->
   visited kernelA kernelB (kernel_to_boot r) p ->
   boot_priority (deref r p) = 0) /\
  (accepted lib firmware_key_blob dev_mode e = false ->
   kernel_to_boot r = BOOT_KERNEL_RECOVERY_CONTINUE ->
   boot_priority (deref r p) = 0) /\
  (~ visited kernelA kernelB (kernel_to_boot r) p -> deref r p = e).
Proof.
  intros e r.
  pose proof (driver_outcome lib firmware_key_blob dev_mode
                kernelA kernelB store) as Hout.
  cbv zeta in Hout. fold r in Hout.
  assert (Hvisited :
    accepted lib firmware_key_blob dev_mode e = false ->
    visited kernelA kernelB (kernel_to_boot r) p ->
    boot_priority (deref r p) = 0).
  { intros Hrej Hvis.
    destruct (first_or_other kernelA kernelB p) as [Hp | Hp].
    - rewrite <- Hp in Hout. fold e in Hout.
      destruct Hout as [(Hacc & _) | ([(Hacc & _) | (_ & Hd)] & _)];
        [congruence | congruence |].
      rewrite Hd. reflexivity.
    - destruct Hvis as [Hfirst | Hnot].
      { rewrite Hfirst in Hp.
        destruct (first_tried kernelA kernelB); discriminate. }
      rewrite <- Hp in Hout. fold e in Hout.
      destruct Hout as [(_ & _ & Hboot & _) | (_ & Hsecond & _)];
        [congruence |].
      destruct Hsecond as [(Hacc & _) | [(Hacc & _) | (_ & _ & Hd)]];
        [congruence | congruence |].
      rewrite Hd. reflexivity. }
  split; [exact Hvisited | split].
  - intros Hrej Hrec. apply Hvisited; [assumption |].
    right. rewrite Hrec. apply not_eq_sym, slot_of_not_recovery.
  - intros Hnot. unfold visited in Hnot.
    destruct (first_or_other kernelA kernelB p) as [Hp | Hp]; [tauto |].
    rewrite <- Hp in Hout. fold e in Hout.
    destruct Hout as [(_ & _ & _ & _ & Hd & _) | (_ & Hsecond & _)];
      [assumption |].
    exfalso. apply Hnot. right.
    destruct Hsecond as [(_ & _ & Hboot & _) | [(_ & _ & Hboot & _)
                                               | (_ & Hboot & _)]];
      rewrite Hboot; rewrite ?Hp;
      auto using slot_of_other, not_eq_sym, slot_of_not_recovery.
Qed.

(** C9.  The try order follows [boot_priority]: kernel A comes first when
    its priority is greater than or equal to that of kernel B, kernel B
    comes first exactly when its priority is strictly greater.  The run
    follows that order.  The first candidate is always tried: it is returned
    exactly when it is accepted and is not a rollback, and it bears the marks
    of the attempt, a try taken or the priority reset.  The second candidate
    is tried exactly when the first one is not selected: it is then returned
    exactly when it is accepted and is not a rollback, and bears the marks of
    its attempt; otherwise it is handed back untouched.  Recovery is
    returned exactly when neither is selected. *)
Theorem candidates_tried_by_descending_priority
    (lib : CryptoLib) (firmware_key_blob : blob) (dev_mode : Z)
    (kernelA kernelB : kernel_entry) (store : rollback_store) (lA lB : Z) :
  let order := make_try_order kernelA kernelB lA lB in
  let p0 := try_kernel order 0 in
  let p1 := try_kernel order 1 in
  let s := stored_logical_version store in
  let r := value (VerifyKernelDriver_f lib firmware_key_blob dev_mode
                    kernelA kernelB store) in
  let selectable p :=
    accepted lib firmware_key_blob dev_mode (entry kernelA kernelB p) = true /\
    s <= lversion lib (entry kernelA kernelB p) in
  let attempted p :=
    if accepted lib firmware_key_blob dev_mode (entry kernelA kernelB p)
    then after_try (entry kernelA kernelB p)
    else demoted (entry kernelA kernelB p) in
  (boot_priority kernelA >= boot_priority kernelB ->
   p0 = PtrKernelA /\ p1 = PtrKernelB /\
   try_kernel_which order 0 = BOOT_KERNEL_A_CONTINUE /\
   try_kernel_which order 1 = BOOT_KERNEL_B_CONTINUE /\
   try_kernel_lversion order 0 = lA /\ try_kernel_lversion order 1 = lB) /\
  (boot_priority kernelB > boot_priority kernelA ->
   p0 = PtrKernelB /\ p1 = PtrKernelA /\
   try_kernel_which order 0 = BOOT_KERNEL_B_CONTINUE /\
   try_kernel_which order 1 = BOOT_KERNEL_A_CONTINUE /\
   try_kernel_lversion order 0 = lB /\ try_kernel_lversion order 1 = lA) /\
  (p0 = PtrKernelB <-> boot_priority kernelB > boot_priority kernelA) /\
  boot_priority (entry kernelA kernelB p0) >=
    boot_priority (entry kernelA kernelB p1) /\
  (accepted lib firmware_key_blob dev_mode (entry kernelA kernelB p0) = true ->
   s <= lversion lib (entry kernelA kernelB p0) ->
   kernel_to_boot r = slot_of p0) /\
  (kernel_to_boot r = slot_of p1 ->
   accepted lib firmware_key_blob dev_mode (entry kernelA kernelB p0) = false \/
   lversion lib (entry kernelA kernelB p0) < s) /\
  (kernel_to_boot r = slot_of p0 <-> selectable p0) /\
  (kernel_to_boot r = slot_of p1 <-> ~ selectable p0 /\ selectable p1) /\
  (kernel_to_boot r = BOOT_KERNEL_RECOVERY_CONTINUE <->
   ~ selectable p0 /\ ~ selectable p1) /\
  deref r p0 = attempted p0 /\
  (selectable p0 -> deref r p1 = entry kernelA kernelB p1) /\
  (~ selectable p0 -> deref r p1 = attempted p1).
Proof.
  intros order p0 p1 s r selectable attempted.
  pose proof (driver_outcome lib firmware_key_blob dev_mode
                kernelA kernelB store) as Hout.
  cbv zeta in Hout. fold r s in Hout.
  assert (Hp0 : p0 = first_tried kernelA kernelB).
  { subst p0 order. unfold first_tried, make_try_order.
    destruct (boot_priority kernelA >=? boot_priority kernelB); reflexivity. }
  assert (Hp1 : p1 = other p0).
  { subst p0 p1 order. unfold make_try_order.
    destruct (boot_priority kernelA >=? boot_priority kernelB); reflexivity. }
  rewrite <- Hp0, <- Hp1 in Hout.
  assert (Horder :
    boot_priority kernelA >= boot_priority kernelB /\
    order = make_try_order kernelA kernelB lA lB /\
    p0 = PtrKernelA /\ p1 = PtrKernelB /\
    try_kernel_which order 0 = BOOT_KERNEL_A_CONTINUE /\
    try_kernel_which order 1 = BOOT_KERNEL_B_CONTINUE /\
    try_kernel_lversion order 0 = lA /\ try_kernel_lversion order 1 = lB \/
    boot_priority kernelB > boot_priority kernelA /\
    order = make_try_order kernelA kernelB lA lB /\
    p0 = PtrKernelB /\ p1 = PtrKernelA /\
    try_kernel_which order 0 = BOOT_KERNEL_B_CONTINUE /\
    try_kernel_which order 1 = BOOT_KERNEL_A_CONTINUE /\
    try_kernel_lversion order 0 = lB /\ try_kernel_lversion order 1 = lA).
  { subst p0 p1 order. unfold make_try_order.
    destruct (Z.geb_spec (boot_priority kernelA) (boot_priority kernelB));
      [left | right]; cbn; repeat split; lia. }
  assert (Hslots : slot_of p1 <> slot_of p0 /\
                   slot_of p0 <> BOOT_KERNEL_RECOVERY_CONTINUE /\
                   slot_of p1 <> BOOT_KERNEL_RECOVERY_CONTINUE).
  { rewrite Hp1.
    auto using slot_of_other, slot_of_not_recovery. }
  destruct Hslots as (Hne & Hr0 & Hr1).
  assert (Hrun :
    selectable p0 /\ kernel_to_boot r = slot_of p0 /\
    deref r p0 = attempted p0 /\ deref r p1 = entry kernelA kernelB p1 \/
    ~ selectable p0 /\ deref r p0 = attempted p0 /\
    deref r p1 = attempted p1 /\
    (selectable p1 /\ kernel_to_boot r = slot_of p1 \/
     ~ selectable p1 /\ kernel_to_boot r = BOOT_KERNEL_RECOVERY_CONTINUE)).
  { subst selectable attempted. cbv beta.
    destruct Hout as [(Hacc & Hle & Hboot & Hd0 & Hd1 & _)
                     | (Hfirst & Hsecond & _)].
    - left. rewrite Hacc. auto.
    - right.
      assert (H0 : ~ (accepted lib firmware_key_blob dev_mode
                        (entry kernelA kernelB p0) = true /\
                      s <= lversion lib (entry kernelA kernelB p0)) /\
                   deref r p0 =
                   (if accepted lib firmware_key_blob dev_mode
                         (entry kernelA kernelB p0)
                    then after_try (entry kernelA kernelB p0)
                    else demoted (entry kernelA kernelB p0))).
      { destruct Hfirst as [(Hacc & Hgt & Hd) | (Hrej & Hd)];
          rewrite ?Hacc, ?Hrej; split; trivial; intros (Ha & Hle);
          [lia | congruence]. }
      destruct H0 as (Hnot & Hd0).
      split; [exact Hnot |]. split; [exact Hd0 |].
      destruct Hsecond as [(Hacc & Hle & Hboot & Hd)
                          | [(Hacc & Hgt & Hboot & Hd)
                            | (Hrej & Hboot & Hd)]];
        rewrite ?Hacc, ?Hrej.
      + split; [exact Hd |]. left. auto.
      + split; [exact Hd |]. right. split; [| exact Hboot].
        intros (_ & Hle). lia.
      + split; [exact Hd |]. right. split; [| exact Hboot].
        intros (Ha & _). congruence. }
  split; [| split; [| split; [| split; [| split; [| split]]]]].
  - intros Hge. destruct Horder as [(_ & _ & H) | (Hlt & _)]; [exact H | lia].
  - intros Hgt. destruct Horder as [(Hge & _) | (_ & _ & H)]; [lia | exact H].
  - destruct Horder as [(Hge & _ & -> & _) | (Hgt & _ & -> & _)];
      split; intros; solve [trivial | lia | discriminate].
  - destruct Horder as [(Hge & _ & -> & -> & _) | (Hgt & _ & -> & -> & _)];
      cbn [entry]; lia.
  - intros Hacc Hle.
    destruct Hout as [(_ & _ & Hboot & _) | ([(_ & Hgt & _) | (Hrej & _)] & _)];
      [assumption | lia | congruence].
  - intros Hboot.
    destruct Hout as [(_ & _ & Hboot0 & _)
                     | ([(_ & Hgt & _) | (Hrej & _)] & _)].
    + rewrite Hboot0 in Hboot. symmetry in Hboot. contradiction.
    + right. lia.
    + left. assumption.
  - destruct Hrun as [(Hs0 & Hboot & Hd0 & Hd1)
                     | (Hn0 & Hd0 & Hd1 & [(Hs1 & Hboot) | (Hn1 & Hboot)])];
      rewrite Hboot;
      (split; [split; [intros H; try exact Hs0; try congruence
                      | intros H; try reflexivity; try contradiction] |]);
      (split; [split; [intros H; try (split; assumption); try congruence
                      | intros (H & H'); try reflexivity;
                        try contradiction] |]);
      (split; [split; [intros H; try (split; assumption); try congruence
                      | intros (H & H'); try reflexivity;
                        try contradiction] |]);
      (split; [exact Hd0 |]);
      (split; [intros H; try exact Hd1; try contradiction
              | intros H; try exact Hd1; try contradiction]).
Qed.

(** C10.  Of each entry the driver leaves [kernel_blob] and
    [boot_success_flag] alone; [boot_tries_remaining] is as before or one
    less, and one less only when the candidate was eligible, passed
    [VerifyKernel] and had a positive count; [boot_priority] is as before or
    0.  A visited candidate that is accepted loses one try whenever its count
    is positive, also when it is then skipped as a rollback. *)
Theorem driver_touches_only_tries_and_priority
    (lib : CryptoLib) (firmware_key_blob : blob) (dev_mode : Z)
    (kernelA kernelB : kernel_entry) (store : rollback_store)
    (p : kernel_ptr) :
  let e := entry kernelA kernelB p in
  let s := stored_logical_version store in
  let r := value (VerifyKernelDriver_f lib firmware_key_blob dev_mode
                    kernelA kernelB store) in
  let e' := deref r p in
  kernel_blob e' = kernel_blob e /\
  boot_success_flag e' = boot_success_flag e /\
  (boot_tries_remaining e' = boot_tries_remaining e \/
   boot_tries_remaining e' = boot_tries_remaining e - 1 /\
   eligible e = true /\
   value (verifies lib firmware_key_blob dev_mode (kernel_blob e)) = true /\
   boot_tries_remaining e > 0) /\
  (boot_priority e' = boot_priority e \/ boot_priority e' = 0) /\
  (visited kernelA kernelB (kernel_to_boot r) p ->
   accepted lib firmware_key_blob dev_mode e = true ->
   boot_tries_remaining e > 0 ->
   boot_tries_remaining e' = boot_tries_remaining e - 1) /\
  (visited kernelA kernelB (kernel_to_boot r) p ->
   accepted lib firmware_key_blob dev_mode e = true ->
   lversion lib e < s ->
   boot_tries_remaining e > 0 ->
   kernel_to_boot r <> slot_of p /\
   boot_tries_remaining e' = boot_tries_remaining e - 1 /\
   boot_priority e' = boot_priority e).
Proof.
  intros e s r e'.
  pose proof (driver_outcome lib firmware_key_blob dev_mode
                kernelA kernelB store) as Hout.
  cbv zeta in Hout. fold r s in Hout.
  destruct (after_try_fields e) as (Tblob & Tprio & Tflag & Ttries).
  assert (Hcases :
    e' = e /\ ~ visited kernelA kernelB (kernel_to_boot r) p \/
    e' = after_try e /\ accepted lib firmware_key_blob dev_mode e = true \/
    e' = demoted e /\ accepted lib firmware_key_blob dev_mode e = false).
  { subst e'. unfold visited.
    destruct (first_or_other kernelA kernelB p) as [Hp | Hp];
      rewrite <- Hp in Hout; fold e in Hout.
    - destruct Hout as [(Hacc & _ & _ & Hd & _) | (Hfirst & _)];
        [auto |].
      destruct Hfirst as [(Hacc & _ & Hd) | (Hrej & Hd)]; auto.
    - destruct Hout as [(_ & _ & Hboot & _ & Hd & _) | (_ & Hsecond & _)].
      + left. split; [assumption |]. rewrite Hboot. intros [Heq | Hne].
        * rewrite Heq in Hp.
          destruct (first_tried kernelA kernelB); discriminate.
        * congruence.
      + destruct Hsecond as [(Hacc & _ & _ & Hd) | [(Hacc & _ & _ & Hd)
                                                   | (Hrej & _ & Hd)]]; auto. }
  assert (Hroll :
    accepted lib firmware_key_blob dev_mode e = true -> lversion lib e < s ->
    kernel_to_boot r <> slot_of p).
  { intros Hacc Hlt.
    apply (rollback_never_returned lib firmware_key_blob dev_mode
             kernelA kernelB store p); assumption. }
  destruct Hcases as [(He & Hnot) | [(He & Hacc) | (He & Hrej)]]; rewrite He.
  - repeat split; auto; tauto.
  - rewrite Tblob, Tflag, Tprio, Ttries.
    apply accepted_true in Hacc as Hparts. destruct Hparts as (Hel & Hok).
    destruct (Z.gtb_spec (boot_tries_remaining e) 0).
    + repeat split; auto; right; repeat split; auto; lia.
    + repeat split; auto; lia.
  - cbn. repeat split; auto; congruence.
Qed.

(** ** The policy on concrete images *)

Ltac find_in_list := repeat (try (left; reflexivity); right).

Lemma rollback_candidate_is_never_selected_witness :
  let store := Fixture.unlocked_store 0 5 in
  let r := VerifyKernelDriver_f Fixture.test_lib Fixture.test_firmware_key 0
             Fixture.rollback_A Fixture.current_B store in
  eligible (entry Fixture.rollback_A Fixture.current_B PtrKernelA) = true /\
  value (verifies Fixture.test_lib Fixture.test_firmware_key 0
           (kernel_blob (entry Fixture.rollback_A Fixture.current_B
                           PtrKernelA))) = true /\
  lversion Fixture.test_lib
    (entry Fixture.rollback_A Fixture.current_B PtrKernelA) <
    stored_logical_version store /\
  kernel_to_boot (value r) <> slot_of PtrKernelA /\
  kernel_to_boot (value r) = slot_of (other PtrKernelA).
Proof.
  intros store r.
  assert (Hel : eligible (entry Fixture.rollback_A Fixture.current_B
                            PtrKernelA) = true)
    by (vm_compute; reflexivity).
  assert (Hok : value (verifies Fixture.test_lib Fixture.test_firmware_key 0
                         (kernel_blob (entry Fixture.rollback_A
                                         Fixture.current_B PtrKernelA)))
                = true)
    by (vm_compute; reflexivity).
  assert (Hlt : lversion Fixture.test_lib
                  (entry Fixture.rollback_A Fixture.current_B PtrKernelA) <
                stored_logical_version store)
    by (vm_compute; reflexivity).
  destruct (rollback_candidate_is_never_selected Fixture.test_lib
              Fixture.test_firmware_key 0 Fixture.rollback_A
              Fixture.current_B store PtrKernelA Hel Hok Hlt)
    as (Hnot & _ & Hnext).
  assert (Hfirst : PtrKernelA =
                   first_tried Fixture.rollback_A Fixture.current_B)
    by (vm_compute; reflexivity).
  destruct (Hnext Hfirst) as (Hsecond & _).
  split; [exact Hel |]. split; [exact Hok |]. split; [exact Hlt |].
  split; [exact Hnot |].
  apply Hsecond; vm_compute; [reflexivity | discriminate].
Defined.



(** C3 as stated does not hold.  In scenario 1 of the specification kernel A
    is selected, and kernel B, which is not, comes back with the priority it
    had. *)
Lemma unvisited_candidate_keeps_priority :
  let r := value (VerifyKernelDriver_f Fixture.test_lib
                    Fixture.test_firmware_key 0 Fixture.scenario1_A
                    Fixture.scenario1_B (Fixture.unlocked_store 0 5)) in
  kernel_to_boot r = BOOT_KERNEL_A_CONTINUE /\
  kernel_to_boot r <> BOOT_KERNEL_B_CONTINUE /\
  boot_priority (kernelB r) = 2 /\
  boot_priority (kernelB r) <> 0.
Proof.
  vm_compute. repeat split; discriminate.
Qed.

(** A verified candidate skipped as a rollback keeps its priority too,
    here with the result being recovery. *)
Example rollback_skipped_candidate_keeps_priority :
  let r := value (VerifyKernelDriver_f Fixture.test_lib
                    Fixture.test_firmware_key 0 Fixture.rollback_A
                    Fixture.spent_B (Fixture.unlocked_store 0 5)) in
  kernel_to_boot r = BOOT_KERNEL_RECOVERY_CONTINUE /\
  boot_priority (kernelA r) = 4 /\ boot_tries_remaining (kernelA r) = 1 /\
  boot_priority (kernelB r) = 0.
Proof.
  vm_compute. repeat split.
Qed.

Lemma rejected_candidate_is_demoted_witness :
  let store := Fixture.unlocked_store 0 5 in
  let recovery :=
    value (VerifyKernelDriver_f Fixture.test_lib Fixture.test_firmware_key 0
             Fixture.spent_A Fixture.spent_B store) in
  let boot_A :=
    value (VerifyKernelDriver_f Fixture.test_lib Fixture.test_firmware_key 0
             Fixture.scenario1_A Fixture.scenario1_B store) in
  accepted Fixture.test_lib Fixture.test_firmware_key 0
    (entry Fixture.spent_A Fixture.spent_B PtrKernelB) = false /\
  kernel_to_boot recovery = BOOT_KERNEL_RECOVERY_CONTINUE /\
  boot_priority (deref recovery PtrKernelB) = 0 /\
  ~ visited Fixture.scenario1_A Fixture.scenario1_B (kernel_to_boot boot_A)
      PtrKernelB /\
  deref boot_A PtrKernelB =
    entry Fixture.scenario1_A Fixture.scenario1_B PtrKernelB.
Proof.
  intros store recovery boot_A.
  assert (Hrej : accepted Fixture.test_lib Fixture.test_firmware_key 0
                   (entry Fixture.spent_A Fixture.spent_B PtrKernelB) = false)
    by (vm_compute; reflexivity).
  assert (Hrec : kernel_to_boot recovery = BOOT_KERNEL_RECOVERY_CONTINUE)
    by (vm_compute; reflexivity).
  assert (Hnot : ~ visited Fixture.scenario1_A Fixture.scenario1_B
                     (kernel_to_boot boot_A) PtrKernelB).
  { intros [H | H].
    - vm_compute in H. discriminate H.
    - apply H. vm_compute. reflexivity. }
  destruct (rejected_candidate_is_demoted Fixture.test_lib
              Fixture.test_firmware_key 0 Fixture.spent_A Fixture.spent_B
              store PtrKernelB) as (_ & Hdemoted & _).
  destruct (rejected_candidate_is_demoted Fixture.test_lib
              Fixture.test_firmware_key 0 Fixture.scenario1_A
              Fixture.scenario1_B store PtrKernelB) as (_ & _ & Hkept).
  split; [exact Hrej |]. split; [exact Hrec |].
  split; [exact (Hdemoted Hrej Hrec) |].
  split; [exact Hnot | exact (Hkept Hnot)].
Defined.

(** All three boot paths occur, each with both counters locked. *)
Example every_boot_path_leaves_counters_locked :
  let run kernelA kernelB :=
    value (VerifyKernelDriver_f Fixture.test_lib Fixture.test_firmware_key 0
             kernelA kernelB (Fixture.unlocked_store 0 5)) in
  let both_locked r :=
    locked (kernel_key_version_counter (tpm r)) &&
    locked (kernel_version_counter (tpm r)) in
  let a := run Fixture.scenario1_A Fixture.scenario1_B in
  let b := run Fixture.rollback_A Fixture.current_B in
  let c := run Fixture.spent_A Fixture.spent_B in
  (kernel_to_boot a, both_locked a) = (BOOT_KERNEL_A_CONTINUE, true) /\
  (kernel_to_boot b, both_locked b) = (BOOT_KERNEL_B_CONTINUE, true) /\
  (kernel_to_boot c, both_locked c) = (BOOT_KERNEL_RECOVERY_CONTINUE, true).
Proof.
  vm_compute. repeat split.
Qed.

Lemma candidates_tried_by_descending_priority_witness :
  let store := Fixture.unlocked_store 0 5 in
  let s := stored_logical_version store in
  let tie := make_try_order Fixture.tie_A Fixture.tie_B 5 7 in
  let swapped :=
    make_try_order Fixture.scenario1_B Fixture.scenario1_A 7 5 in
  let old_first :=
    make_try_order Fixture.rollback_A Fixture.current_B 3 6 in
  let first_of := entry Fixture.rollback_A Fixture.current_B
                    (try_kernel old_first 0) in
  let second_of := entry Fixture.rollback_A Fixture.current_B
                     (try_kernel old_first 1) in
  let r :=
    value (VerifyKernelDriver_f Fixture.test_lib Fixture.test_firmware_key 0
             Fixture.tie_A Fixture.tie_B store) in
  let r' :=
    value (VerifyKernelDriver_f Fixture.test_lib Fixture.test_firmware_key 0
             Fixture.rollback_A Fixture.current_B store) in
  boot_priority Fixture.tie_A >= boot_priority Fixture.tie_B /\
  try_kernel tie 0 = PtrKernelA /\
  kernel_to_boot r = slot_of (try_kernel tie 0) /\
  boot_priority Fixture.scenario1_A > boot_priority Fixture.scenario1_B /\
  try_kernel swapped 0 = PtrKernelB /\
  ~ (accepted Fixture.test_lib Fixture.test_firmware_key 0 first_of = true /\
     s <= lversion Fixture.test_lib first_of) /\
  (accepted Fixture.test_lib Fixture.test_firmware_key 0 second_of = true /\
   s <= lversion Fixture.test_lib second_of) /\
  kernel_to_boot r' = slot_of (try_kernel old_first 1) /\
  deref r' (try_kernel old_first 1) =
    (if accepted Fixture.test_lib Fixture.test_firmware_key 0 second_of
     then after_try second_of else demoted second_of).
Proof.
  intros store s tie swapped old_first first_of second_of r r'.
  assert (Hge : boot_priority Fixture.tie_A >= boot_priority Fixture.tie_B)
    by (vm_compute; discriminate).
  assert (Hgt : boot_priority Fixture.scenario1_A >
                boot_priority Fixture.scenario1_B)
    by (vm_compute; reflexivity).
  assert (Hn0 : ~ (accepted Fixture.test_lib Fixture.test_firmware_key 0
                     first_of = true /\
                   s <= lversion Fixture.test_lib first_of))
    by (intros (_ & Hle); vm_compute in Hle; apply Hle; reflexivity).
  assert (Hs1 : accepted Fixture.test_lib Fixture.test_firmware_key 0
                  second_of = true /\
                s <= lversion Fixture.test_lib second_of)
    by (split; vm_compute; [reflexivity | discriminate]).
  destruct (candidates_tried_by_descending_priority Fixture.test_lib
              Fixture.test_firmware_key 0 Fixture.tie_A Fixture.tie_B
              store 5 7) as (HA & _ & _ & _ & Hsel & _).
  destruct (candidates_tried_by_descending_priority Fixture.test_lib
              Fixture.test_firmware_key 0 Fixture.scenario1_B
              Fixture.scenario1_A store 7 5) as (_ & HB & _).
  destruct (candidates_tried_by_descending_priority Fixture.test_lib
              Fixture.test_firmware_key 0 Fixture.rollback_A
              Fixture.current_B store 3 6)
    as (_ & _ & _ & _ & _ & _ & _ & (_ & Hsecond) & _ & _ & _ & Htried).
  destruct (HA Hge) as (Hfirst & _). destruct (HB Hgt) as (HfirstB & _).
  split; [exact Hge |]. split; [exact Hfirst |].
  split; [apply Hsel; vm_compute; [reflexivity | discriminate] |].
  split; [exact Hgt |]. split; [exact HfirstB |].
  split; [exact Hn0 |]. split; [exact Hs1 |].
  split; [exact (Hsecond (conj Hn0 Hs1)) | exact (Htried Hn0)].
Defined.

Lemma driver_touches_only_tries_and_priority_witness :
  let store := Fixture.unlocked_store 0 5 in
  let e := entry Fixture.rollback_A Fixture.current_B PtrKernelA in
  let r := value (VerifyKernelDriver_f Fixture.test_lib
                    Fixture.test_firmware_key 0 Fixture.rollback_A
                    Fixture.current_B store) in
  visited Fixture.rollback_A Fixture.current_B (kernel_to_boot r) PtrKernelA /\
  accepted Fixture.test_lib Fixture.test_firmware_key 0 e = true /\
  lversion Fixture.test_lib e < stored_logical_version store /\
  boot_tries_remaining e > 0 /\
  kernel_to_boot r <> slot_of PtrKernelA /\
  boot_tries_remaining (deref r PtrKernelA) = boot_tries_remaining e - 1 /\
  boot_priority (deref r PtrKernelA) = boot_priority e.
Proof.
  intros store e r.
  assert (Hvis : visited Fixture.rollback_A Fixture.current_B
                   (kernel_to_boot r) PtrKernelA)
    by (left; vm_compute; reflexivity).
  assert (Hacc : accepted Fixture.test_lib Fixture.test_firmware_key 0 e
                 = true) by (vm_compute; reflexivity).
  assert (Hlt : lversion Fixture.test_lib e < stored_logical_version store)
    by (vm_compute; reflexivity).
  assert (Htries : boot_tries_remaining e > 0) by (vm_compute; reflexivity).
  destruct (driver_touches_only_tries_and_priority Fixture.test_lib
              Fixture.test_firmware_key 0 Fixture.rollback_A
              Fixture.current_B store PtrKernelA)
    as (_ & _ & _ & _ & _ & Hroll).
  split; [exact Hvis |]. split; [exact Hacc |]. split; [exact Hlt |].
  split; [exact Htries | exact (Hroll Hvis Hacc Hlt Htries)].
Defined.

(** * Further properties *)

(** ** The header stage *)

(** [VerifyKernelHeader] as a decision list over the fields of the header. *)
Lemma VerifyKernelHeader_value
    (lib : CryptoLib) (firmware_key_blob header_blob : blob) (dev_mode : Z)
    (out : header_out) :
  let fa := firmware_sign_algorithm_field header_blob in
  let ka := kernel_sign_algorithm_field header_blob in
  let algorithms_only :=
    {| firmware_algorithm := fa; kernel_algorithm := ka;
       kernel_header_len := kernel_header_len out |} in
  value (VerifyKernelHeader lib firmware_key_blob header_blob dev_mode out) =
  if (fa >=? kNumAlgorithms lib) || (ka >=? kNumAlgorithms lib)
  then (VERIFY_KERNEL_INVALID_ALGORITHM, out)
  else if negb (header_len_field header_blob =?
                expected_header_len lib header_blob)
  then (VERIFY_KERNEL_INVALID_IMAGE, algorithms_only)
  else if negb (header_checksum_differs lib header_blob =? 0)
  then (VERIFY_KERNEL_INVALID_IMAGE, header_fields header_blob)
  else if (dev_mode =? 0) &&
          negb (header_signature_ok lib firmware_key_blob header_blob)
  then (VERIFY_KERNEL_KEY_SIGNATURE_FAILED, header_fields header_blob)
  else (VERIFY_KERNEL_SUCCESS, header_fields header_blob).
Proof.
  intros fa ka algorithms_only. subst algorithms_only.
  unfold VerifyKernelHeader, header_signature_ok, header_checksum_differs,
    expected_header_len, header_fields, base_header_checksum_offset.
  fold (header_len_field header_blob).
  fold (firmware_sign_algorithm_field header_blob).
  fold (kernel_sign_algorithm_field header_blob).
  fold fa ka.
  unfold_logged.
  destruct (fa >=? kNumAlgorithms lib); [reflexivity |].
  destruct (ka >=? kNumAlgorithms lib); [reflexivity |].
  cbn [orb].
  destruct (negb (header_len_field header_blob =? _)); [reflexivity |].
  cbn [fst snd firmware_algorithm kernel_algorithm kernel_header_len].
  destruct (negb (SafeMemcmp _ _ _ =? 0)); [reflexivity |].
  destruct (dev_mode =? 0); [| reflexivity].
  cbn [andb fst snd].
  destruct (RSAVerifyBinary_f lib _ _ _ _ _ _); reflexivity.
Qed.

Lemma VerifyKernelHeader_calls
    (lib : CryptoLib) (firmware_key_blob header_blob : blob) (dev_mode : Z)
    (out : header_out) :
  let fa := firmware_sign_algorithm_field header_blob in
  let ka := kernel_sign_algorithm_field header_blob in
  let hl := header_len_field header_blob in
  calls (VerifyKernelHeader lib firmware_key_blob header_blob dev_mode out) =
  if (fa >=? kNumAlgorithms lib) || (ka >=? kNumAlgorithms lib)
  then []
  else
    [CallRSAProcessedKeySize ka; CallRSAProcessedKeySize fa] ++
    if negb (hl =? expected_header_len lib header_blob)
    then []
    else
      [CallDigestBuf
         (wrap (size_t_bits lib) (hl - FIELD_LEN_header_checksum lib))
         (SHA512_DIGEST_ALGORITHM lib)] ++
      if negb (header_checksum_differs lib header_blob =? 0)
      then []
      else if dev_mode =? 0 then [CallRSAVerifyBinary hl fa] else [].
Proof.
  intros fa ka hl.
  unfold VerifyKernelHeader, header_checksum_differs,
    expected_header_len, base_header_checksum_offset.
  fold (header_len_field header_blob).
  fold (firmware_sign_algorithm_field header_blob).
  fold (kernel_sign_algorithm_field header_blob).
  fold fa ka hl.
  unfold_logged.
  destruct (fa >=? kNumAlgorithms lib); [reflexivity |].
  destruct (ka >=? kNumAlgorithms lib); [reflexivity |].
  cbn [orb].
  destruct (negb (hl =? _)); [reflexivity |].
  cbn [fst snd].
  destruct (negb (SafeMemcmp _ _ _ =? 0)); [reflexivity |].
  destruct (dev_mode =? 0); [| reflexivity].
  cbn [fst snd].
  destruct (negb (RSAVerifyBinary_f lib _ _ _ _ _ _)); reflexivity.
Qed.

(** X1.  A header whose algorithms are in range but whose length field is
    not the length its layout gives is VERIFY_KERNEL_INVALID_IMAGE: the two
    algorithm outputs are written, [kernel_header_len] is not, and nothing
    but the two key-size lookups is called; no byte is digested and no
    signature is checked. *)
Theorem header_length_mismatch_is_invalid_image
    (lib : CryptoLib) (firmware_key_blob header_blob : blob) (dev_mode : Z)
    (out : header_out) :
  let fa := firmware_sign_algorithm_field header_blob in
  let ka := kernel_sign_algorithm_field header_blob in
  let r := VerifyKernelHeader lib firmware_key_blob header_blob dev_mode out in
  fa < kNumAlgorithms lib -> ka < kNumAlgorithms lib ->
  header_len_field header_blob <> expected_header_len lib header_blob ->
  value r =
    (VERIFY_KERNEL_INVALID_IMAGE,
     {| firmware_algorithm := fa; kernel_algorithm := ka;
        kernel_header_len := kernel_header_len out |}) /\
  calls r = [CallRSAProcessedKeySize ka; CallRSAProcessedKeySize fa].
Proof.
  intros fa ka r Hfa Hka Hlen. subst r.
  rewrite VerifyKernelHeader_value, VerifyKernelHeader_calls.
  fold fa ka.
  destruct (Z.geb_spec fa (kNumAlgorithms lib)); [lia |].
  destruct (Z.geb_spec ka (kNumAlgorithms lib)); [lia |].
  destruct (Z.eqb_spec (header_len_field header_blob)
              (expected_header_len lib header_blob)); [contradiction |].
  split; reflexivity.
Qed.

Lemma header_length_mismatch_is_invalid_image_witness :
  let header_blob := ptr_add Tampered.long_header 8 in
  let r := VerifyKernelHeader Fixture.test_lib Fixture.test_firmware_key
             header_blob 0 Tampered.no_outputs in
  header_len_field header_blob = 339 /\
  expected_header_len Fixture.test_lib header_blob = 338 /\
  fst (value r) = VERIFY_KERNEL_INVALID_IMAGE /\
  calls r = [CallRSAProcessedKeySize
               (kernel_sign_algorithm_field header_blob);
             CallRSAProcessedKeySize
               (firmware_sign_algorithm_field header_blob)].
Proof.
  intros header_blob r.
  assert (Hfa : firmware_sign_algorithm_field header_blob <
                kNumAlgorithms Fixture.test_lib) by (vm_compute; reflexivity).
  assert (Hka : kernel_sign_algorithm_field header_blob <
                kNumAlgorithms Fixture.test_lib) by (vm_compute; reflexivity).
  assert (Hhl : header_len_field header_blob = 339)
    by (vm_compute; reflexivity).
  assert (Hex : expected_header_len Fixture.test_lib header_blob = 338)
    by (vm_compute; reflexivity).
  assert (Hne : header_len_field header_blob <>
                expected_header_len Fixture.test_lib header_blob)
    by (rewrite Hhl, Hex; discriminate).
  destruct (header_length_mismatch_is_invalid_image Fixture.test_lib
              Fixture.test_firmware_key header_blob 0 Tampered.no_outputs
              Hfa Hka Hne) as (Hv & Hc).
  split; [exact Hhl |]. split; [exact Hex |].
  split; [exact (f_equal fst Hv) | exact Hc].
Defined.

(** X2.  A header of the right length whose stored checksum differs from
    the digest of its bytes is VERIFY_KERNEL_INVALID_IMAGE, in development
    mode or not, and the firmware-key signature is never looked at: the call
    log ends with the digest. *)
Theorem header_checksum_mismatch_is_invalid_image
    (lib : CryptoLib) (firmware_key_blob header_blob : blob) (dev_mode : Z)
    (out : header_out) :
  let fa := firmware_sign_algorithm_field header_blob in
  let ka := kernel_sign_algorithm_field header_blob in
  let hl := header_len_field header_blob in
  let r := VerifyKernelHeader lib firmware_key_blob header_blob dev_mode out in
  fa < kNumAlgorithms lib -> ka < kNumAlgorithms lib ->
  hl = expected_header_len lib header_blob ->
  header_checksum_differs lib header_blob <> 0 ->
  value r = (VERIFY_KERNEL_INVALID_IMAGE, header_fields header_blob) /\
  calls r =
    [CallRSAProcessedKeySize ka; CallRSAProcessedKeySize fa;
     CallDigestBuf
       (wrap (size_t_bits lib) (hl - FIELD_LEN_header_checksum lib))
       (SHA512_DIGEST_ALGORITHM lib)] /\
  forallb (fun c => negb (is_signature_check c)) (calls r) = true.
Proof.
  intros fa ka hl r Hfa Hka Hlen Hsum. subst r.
  rewrite VerifyKernelHeader_value, VerifyKernelHeader_calls.
  fold fa ka hl.
  destruct (Z.geb_spec fa (kNumAlgorithms lib)); [lia |].
  destruct (Z.geb_spec ka (kNumAlgorithms lib)); [lia |].
  destruct (Z.eqb_spec hl (expected_header_len lib header_blob));
    [| contradiction].
  destruct (Z.eqb_spec (header_checksum_differs lib header_blob) 0);
    [contradiction |].
  repeat split; reflexivity.
Qed.

Lemma header_checksum_mismatch_is_invalid_image_witness :
  let header_blob := ptr_add Tampered.bad_checksum 8 in
  let r := VerifyKernelHeader Fixture.test_lib Fixture.test_firmware_key
             header_blob 1 Tampered.no_outputs in
  header_checksum_differs Fixture.test_lib header_blob <> 0 /\
  value r = (VERIFY_KERNEL_INVALID_IMAGE, header_fields header_blob).
Proof.
  intros header_blob r.
  assert (Hfa : firmware_sign_algorithm_field header_blob <
                kNumAlgorithms Fixture.test_lib) by (vm_compute; reflexivity).
  assert (Hka : kernel_sign_algorithm_field header_blob <
                kNumAlgorithms Fixture.test_lib) by (vm_compute; reflexivity).
  assert (Hlen : header_len_field header_blob =
                 expected_header_len Fixture.test_lib header_blob)
    by (vm_compute; reflexivity).
  assert (Hsum : header_checksum_differs Fixture.test_lib header_blob <> 0)
    by (vm_compute; discriminate).
  destruct (header_checksum_mismatch_is_invalid_image Fixture.test_lib
              Fixture.test_firmware_key header_blob 1 Tampered.no_outputs
              Hfa Hka Hlen Hsum) as (Hv & _).
  split; [exact Hsum | exact Hv].
Defined.

(** What a successful header stage has checked. *)
Lemma header_success_checks
    (lib : CryptoLib) (firmware_key_blob header_blob : blob) (dev_mode : Z)
    (out : header_out) :
  fst (value (VerifyKernelHeader lib firmware_key_blob header_blob dev_mode
                out)) = VERIFY_KERNEL_SUCCESS ->
  firmware_sign_algorithm_field header_blob < kNumAlgorithms lib /\
  kernel_sign_algorithm_field header_blob < kNumAlgorithms lib /\
  header_len_field header_blob = expected_header_len lib header_blob /\
  header_checksum_differs lib header_blob = 0 /\
  (dev_mode = 0 ->
   header_signature_ok lib firmware_key_blob header_blob = true).
Proof.
  rewrite VerifyKernelHeader_value.
  destruct (Z.geb_spec (firmware_sign_algorithm_field header_blob)
              (kNumAlgorithms lib)); [discriminate |].
  destruct (Z.geb_spec (kernel_sign_algorithm_field header_blob)
              (kNumAlgorithms lib)); [discriminate |].
  cbn [orb].
  destruct (Z.eqb_spec (header_len_field header_blob)
              (expected_header_len lib header_blob)); [| discriminate].
  destruct (Z.eqb_spec (header_checksum_differs lib header_blob) 0);
    [| discriminate].
  cbn [negb].
  destruct (Z.eqb_spec dev_mode 0) as [Hdev | Hdev]; cbn [andb].
  - destruct (header_signature_ok lib firmware_key_blob header_blob);
      cbn [negb fst]; [auto 6 | discriminate].
  - intros _. repeat split; auto; intros Hz; contradiction.
Qed.

(** X3.  [VerifyKernelHeader] succeeds exactly when both algorithms are in
    range, the length field is the one the layout gives, the checksum
    matches and, outside development mode, the firmware-key signature over
    the header verifies.  On success the three outputs are the fields of
    the header, the algorithms being valid table indices. *)
Theorem header_success_iff_every_check_passes
    (lib : CryptoLib) (firmware_key_blob header_blob : blob) (dev_mode : Z)
    (out : header_out) :
  let fa := firmware_sign_algorithm_field header_blob in
  let ka := kernel_sign_algorithm_field header_blob in
  let r :=
    value (VerifyKernelHeader lib firmware_key_blob header_blob dev_mode out) in
  (fst r = VERIFY_KERNEL_SUCCESS <->
   fa < kNumAlgorithms lib /\ ka < kNumAlgorithms lib /\
   header_len_field header_blob = expected_header_len lib header_blob /\
   header_checksum_differs lib header_blob = 0 /\
   (dev_mode = 0 ->
    header_signature_ok lib firmware_key_blob header_blob = true)) /\
  (fst r = VERIFY_KERNEL_SUCCESS ->
   snd r = header_fields header_blob /\
   0 <= firmware_algorithm (snd r) < kNumAlgorithms lib /\
   0 <= kernel_algorithm (snd r) < kNumAlgorithms lib).
Proof.
  intros fa ka r. subst r.
  rewrite VerifyKernelHeader_value. fold fa ka.
  pose proof (Memcpy_uint16_range
                (ptr_add header_blob
                   (FIELD_LEN_header_version + FIELD_LEN_header_len)))
    as Rfa.
  pose proof (Memcpy_uint16_range
                (ptr_add header_blob
                   (FIELD_LEN_header_version + FIELD_LEN_header_len +
                    FIELD_LEN_firmware_sign_algorithm))) as Rka.
  fold (firmware_sign_algorithm_field header_blob) in Rfa.
  fold (kernel_sign_algorithm_field header_blob) in Rka.
  fold fa in Rfa. fold ka in Rka.
  destruct (Z.geb_spec fa (kNumAlgorithms lib));
    [cbn [orb fst]; split;
       [split; [discriminate | intros (? & ? & _); exfalso; lia]
       | discriminate] |].
  destruct (Z.geb_spec ka (kNumAlgorithms lib));
    [cbn [orb fst]; split;
       [split; [discriminate | intros (? & ? & _); exfalso; lia]
       | discriminate] |].
  cbn [orb].
  destruct (Z.eqb_spec (header_len_field header_blob)
              (expected_header_len lib header_blob));
    [| cbn [negb fst]; split;
         [split; [discriminate | intros (_ & _ & ? & _); contradiction]
         | discriminate]].
  destruct (Z.eqb_spec (header_checksum_differs lib header_blob) 0);
    [| cbn [negb fst]; split;
         [split; [discriminate | intros (_ & _ & _ & ? & _); contradiction]
         | discriminate]].
  cbn [negb].
  destruct (Z.eqb_spec dev_mode 0) as [Hdev | Hdev]; cbn [andb].
  - destruct (header_signature_ok lib firmware_key_blob header_blob);
      cbn [negb fst snd].
    + split; [split; auto; intros _; repeat split; auto |].
      intros _. split; [reflexivity |].
      unfold header_fields. cbn [snd firmware_algorithm kernel_algorithm].
      fold fa ka. lia.
    + split; [split; [discriminate |] | discriminate].
      intros (_ & _ & _ & _ & Hsig). specialize (Hsig Hdev).
      discriminate Hsig.
  - cbn [fst snd]. split.
    + split; auto. intros _. repeat split; auto; intros Hz; contradiction.
    + intros _. split; [reflexivity |].
      unfold header_fields. cbn [snd firmware_algorithm kernel_algorithm].
      fold fa ka. lia.
Qed.

Lemma header_success_iff_every_check_passes_witness :
  let header_blob := ptr_add (Fixture.good_image 0 5) 8 in
  let r := value (VerifyKernelHeader Fixture.test_lib
                    Fixture.test_firmware_key header_blob 0
                    Tampered.no_outputs) in
  fst r = VERIFY_KERNEL_SUCCESS /\
  header_signature_ok Fixture.test_lib Fixture.test_firmware_key header_blob
    = true /\
  snd r = header_fields header_blob.
Proof.
  intros header_blob r.
  destruct (header_success_iff_every_check_passes Fixture.test_lib
              Fixture.test_firmware_key header_blob 0 Tampered.no_outputs)
    as ((Honly & _) & Hout).
  assert (Hok : fst r = VERIFY_KERNEL_SUCCESS) by (vm_compute; reflexivity).
  destruct (Honly Hok) as (_ & _ & _ & _ & Hsig).
  destruct (Hout Hok) as (Hfields & _).
  split; [exact Hok |]. split; [exact (Hsig eq_refl) | exact Hfields].
Defined.

(** ** The whole pipeline *)

Lemma header_fields_on_success
    (lib : CryptoLib) (firmware_key_blob header_blob : blob) (dev_mode : Z)
    (out : header_out) :
  let r :=
    value (VerifyKernelHeader lib firmware_key_blob header_blob dev_mode out) in
  verify_kernel_result_eqb (fst r) VERIFY_KERNEL_SUCCESS = true ->
  snd r = header_fields header_blob.
Proof.
  intros r Hok. subst r. revert Hok.
  rewrite VerifyKernelHeader_value.
  repeat split_if; cbn; intros Hok; try discriminate Hok; reflexivity.
Qed.

Lemma verify_kernel_result_eqb_eq (a b : verify_kernel_result) :
  verify_kernel_result_eqb a b = true <-> a = b.
Proof. destruct a, b; cbn; split; intros H; try discriminate H; reflexivity. Qed.

(** [VerifyKernel] as its four stages in a row. *)
Lemma VerifyKernel_value
    (lib : CryptoLib) (firmware_key_blob kernel_blob : blob) (dev_mode : Z) :
  let hdr :=
    fst (value (VerifyKernelHeader lib firmware_key_blob
                  (header_ptr_of lib kernel_blob) dev_mode
                  {| firmware_algorithm := 0; kernel_algorithm := 0;
                     kernel_header_len := 0 |})) in
  value (VerifyKernel lib firmware_key_blob kernel_blob dev_mode) =
  if negb (SafeMemcmp kernel_blob (KERNEL_MAGIC lib) (KERNEL_MAGIC_SIZE lib)
           =? 0)
  then VERIFY_KERNEL_WRONG_MAGIC
  else if negb (verify_kernel_result_eqb hdr VERIFY_KERNEL_SUCCESS)
  then hdr
  else if negb (config_signature_ok lib kernel_blob)
  then VERIFY_KERNEL_CONFIG_SIGNATURE_FAILED
  else if negb (data_signature_ok lib kernel_blob)
  then VERIFY_KERNEL_SIGNATURE_FAILED
  else VERIFY_KERNEL_SUCCESS.
Proof.
  intros hdr. unfold VerifyKernel.
  destruct (negb (SafeMemcmp kernel_blob (KERNEL_MAGIC lib)
                    (KERNEL_MAGIC_SIZE lib) =? 0)); [reflexivity |].
  rewrite value_bind. fold (header_ptr_of lib kernel_blob).
  pose proof (header_fields_on_success lib firmware_key_blob
                (header_ptr_of lib kernel_blob) dev_mode
                {| firmware_algorithm := 0; kernel_algorithm := 0;
                   kernel_header_len := 0 |}) as Hfields.
  cbv zeta in Hfields. fold hdr in Hfields |- *.
  destruct (verify_kernel_result_eqb hdr VERIFY_KERNEL_SUCCESS);
    [| reflexivity].
  rewrite (Hfields eq_refl). clear Hfields.
  cbn [negb header_fields firmware_algorithm kernel_algorithm
       kernel_header_len].
  unfold VerifyKernelConfig, VerifyKernelData.
  unfold config_signature_ok, data_signature_ok, kernel_digest,
    kernel_len_field, kernel_ptr_of, config_ptr_of, kernel_sign_key_of,
    base_header_checksum_offset.
  unfold_logged.
  destruct (RSAVerifyBinary_f lib None _ _ _ _ _);
    cbn [negb verify_kernel_result_eqb fst snd]; [| reflexivity].
  destruct (RSAVerifyBinaryWithDigest_f lib None _ _ _ _); reflexivity.
Qed.

Lemma VerifyKernel_calls
    (lib : CryptoLib) (firmware_key_blob kernel_blob : blob) (dev_mode : Z) :
  let header_ptr := header_ptr_of lib kernel_blob in
  let hdr :=
    VerifyKernelHeader lib firmware_key_blob header_ptr dev_mode
      {| firmware_algorithm := 0; kernel_algorithm := 0;
         kernel_header_len := 0 |} in
  let fa := firmware_sign_algorithm_field header_ptr in
  let ka := kernel_sign_algorithm_field header_ptr in
  calls (VerifyKernel lib firmware_key_blob kernel_blob dev_mode) =
  if negb (SafeMemcmp kernel_blob (KERNEL_MAGIC lib) (KERNEL_MAGIC_SIZE lib)
           =? 0)
  then []
  else
    calls hdr ++
    if negb (verify_kernel_result_eqb (fst (value hdr)) VERIFY_KERNEL_SUCCESS)
    then []
    else
      [CallRSAProcessedKeySize ka;
       CallRSAPublicKeyFromBuf (RSAProcessedKeySize lib ka);
       CallSiglenMap ka; CallSiglenMap fa;
       CallRSAVerifyBinary (KERNEL_CONFIG_FIELD_LEN lib) ka] ++
      if negb (config_signature_ok lib kernel_blob)
      then []
      else
        [CallSiglenMap ka; CallDigestInit ka;
         CallDigestUpdate (KERNEL_CONFIG_FIELD_LEN lib);
         CallDigestUpdate (kernel_len_field lib kernel_blob);
         CallDigestFinal; CallRSAVerifyBinaryWithDigest ka].
Proof.
  intros header_ptr hdr fa ka. unfold VerifyKernel.
  destruct (negb (SafeMemcmp kernel_blob (KERNEL_MAGIC lib)
                    (KERNEL_MAGIC_SIZE lib) =? 0)); [reflexivity |].
  rewrite calls_bind. fold (header_ptr_of lib kernel_blob).
  fold header_ptr. fold hdr. f_equal.
  pose proof (header_fields_on_success lib firmware_key_blob
                header_ptr dev_mode
                {| firmware_algorithm := 0; kernel_algorithm := 0;
                   kernel_header_len := 0 |}) as Hfields.
  cbv zeta in Hfields. fold hdr in Hfields.
  destruct (verify_kernel_result_eqb (fst (value hdr)) VERIFY_KERNEL_SUCCESS);
    [| reflexivity].
  rewrite (Hfields eq_refl). clear Hfields.
  cbn [negb header_fields firmware_algorithm kernel_algorithm
       kernel_header_len].
  fold fa ka.
  unfold VerifyKernelConfig, VerifyKernelData.
  unfold config_signature_ok, kernel_len_field, config_ptr_of,
    kernel_sign_key_of, base_header_checksum_offset.
  fold header_ptr. fold fa ka.
  unfold_logged.
  destruct (RSAVerifyBinary_f lib None _ _ _ _ _);
    cbn [negb verify_kernel_result_eqb fst snd app]; [| reflexivity].
  destruct (RSAVerifyBinaryWithDigest_f lib None _ _ _ _); reflexivity.
Qed.

(** The header stage has four results. *)
Lemma VerifyKernelHeader_results
    (lib : CryptoLib) (firmware_key_blob header_blob : blob) (dev_mode : Z)
    (out : header_out) :
  let r :=
    fst (value (VerifyKernelHeader lib firmware_key_blob header_blob
                  dev_mode out)) in
  r = VERIFY_KERNEL_SUCCESS \/ r = VERIFY_KERNEL_INVALID_IMAGE \/
  r = VERIFY_KERNEL_KEY_SIGNATURE_FAILED \/
  r = VERIFY_KERNEL_INVALID_ALGORITHM.
Proof.
  intros r. subst r. rewrite VerifyKernelHeader_value.
  repeat split_if; cbn; auto.
Qed.

(** X4.  The result of [VerifyKernel] names the first stage that fails:
    VERIFY_KERNEL_WRONG_MAGIC exactly when the magic differs; a header
    failure is returned as the header stage gave it;
    VERIFY_KERNEL_CONFIG_SIGNATURE_FAILED exactly when magic and header pass
    and the config signature does not; VERIFY_KERNEL_SIGNATURE_FAILED
    exactly when only the payload signature fails; success exactly when all
    four stages pass. *)
Theorem verify_kernel_result_names_the_failing_stage
    (lib : CryptoLib) (firmware_key_blob kernel_blob : blob) (dev_mode : Z) :
  let magic_differs :=
    SafeMemcmp kernel_blob (KERNEL_MAGIC lib) (KERNEL_MAGIC_SIZE lib) in
  let hdr :=
    fst (value (VerifyKernelHeader lib firmware_key_blob
                  (header_ptr_of lib kernel_blob) dev_mode
                  {| firmware_algorithm := 0; kernel_algorithm := 0;
                     kernel_header_len := 0 |})) in
  let r := value (VerifyKernel lib firmware_key_blob kernel_blob dev_mode) in
  (r = VERIFY_KERNEL_WRONG_MAGIC <-> magic_differs <> 0) /\
  (magic_differs = 0 -> hdr <> VERIFY_KERNEL_SUCCESS -> r = hdr) /\
  (r = VERIFY_KERNEL_INVALID_IMAGE \/
   r = VERIFY_KERNEL_KEY_SIGNATURE_FAILED \/
   r = VERIFY_KERNEL_INVALID_ALGORITHM ->
   magic_differs = 0 /\ r = hdr) /\
  (r = VERIFY_KERNEL_CONFIG_SIGNATURE_FAILED <->
   magic_differs = 0 /\ hdr = VERIFY_KERNEL_SUCCESS /\
   config_signature_ok lib kernel_blob = false) /\
  (r = VERIFY_KERNEL_SIGNATURE_FAILED <->
   magic_differs = 0 /\ hdr = VERIFY_KERNEL_SUCCESS /\
   config_signature_ok lib kernel_blob = true /\
   data_signature_ok lib kernel_blob = false) /\
  (r = VERIFY_KERNEL_SUCCESS <->
   magic_differs = 0 /\ hdr = VERIFY_KERNEL_SUCCESS /\
   config_signature_ok lib kernel_blob = true /\
   data_signature_ok lib kernel_blob = true).
Proof.
  intros magic_differs hdr r. subst r.
  rewrite VerifyKernel_value. fold magic_differs hdr.
  pose proof (VerifyKernelHeader_results lib firmware_key_blob
                (header_ptr_of lib kernel_blob) dev_mode
                {| firmware_algorithm := 0; kernel_algorithm := 0;
                   kernel_header_len := 0 |}) as Hres.
  cbv zeta in Hres. fold hdr in Hres.
  destruct (Z.eqb_spec magic_differs 0) as [Hm | Hm]; cbn [negb].
  2: { repeat split; intros; try tauto; try discriminate;
       repeat match goal with
              | H : _ /\ _ |- _ => destruct H
              | H : _ \/ _ |- _ => destruct H
              end; try contradiction; try discriminate. }
  destruct Hres as [Hh | [Hh | [Hh | Hh]]]; rewrite Hh;
    cbn [verify_kernel_result_eqb negb].
  2-4: repeat split; intros; try tauto; try discriminate;
       repeat match goal with
              | H : _ /\ _ |- _ => destruct H
              | H : _ \/ _ |- _ => destruct H
              end; try contradiction; try discriminate; auto.
  destruct (config_signature_ok lib kernel_blob); cbn [negb];
    [destruct (data_signature_ok lib kernel_blob); cbn [negb] |].
  all: repeat split; intros; try tauto; try discriminate;
       repeat match goal with
              | H : _ /\ _ |- _ => destruct H
              | H : _ \/ _ |- _ => destruct H
              end; try contradiction; try discriminate; auto.
Qed.

Lemma verify_kernel_result_names_the_failing_stage_witness :
  let run kernel_blob :=
    value (VerifyKernel Fixture.test_lib Fixture.test_firmware_key
             kernel_blob 0) in
  run Tampered.bad_magic = VERIFY_KERNEL_WRONG_MAGIC /\
  config_signature_ok Fixture.test_lib Tampered.bad_config_signature
    = false /\
  run Tampered.bad_config_signature = VERIFY_KERNEL_CONFIG_SIGNATURE_FAILED /\
  data_signature_ok Fixture.test_lib Tampered.bad_payload = false /\
  run Tampered.bad_payload = VERIFY_KERNEL_SIGNATURE_FAILED /\
  run (Fixture.good_image 0 5) = VERIFY_KERNEL_SUCCESS.
Proof.
  intros run. subst run. cbv beta.
  destruct (verify_kernel_result_names_the_failing_stage Fixture.test_lib
              Fixture.test_firmware_key Tampered.bad_magic 0)
    as ((_ & Hmagic) & _).
  destruct (verify_kernel_result_names_the_failing_stage Fixture.test_lib
              Fixture.test_firmware_key Tampered.bad_config_signature 0)
    as (_ & _ & _ & (_ & Hconfig) & _).
  destruct (verify_kernel_result_names_the_failing_stage Fixture.test_lib
              Fixture.test_firmware_key Tampered.bad_payload 0)
    as (_ & _ & _ & _ & (_ & Hdata) & _).
  destruct (verify_kernel_result_names_the_failing_stage Fixture.test_lib
              Fixture.test_firmware_key (Fixture.good_image 0 5) 0)
    as (_ & _ & _ & _ & _ & (_ & Hgood)).
  assert (Hc : config_signature_ok Fixture.test_lib
                 Tampered.bad_config_signature = false)
    by (vm_compute; reflexivity).
  assert (Hd : data_signature_ok Fixture.test_lib Tampered.bad_payload
               = false) by (vm_compute; reflexivity).
  split; [apply Hmagic; vm_compute; discriminate |].
  split; [exact Hc |].
  split; [apply Hconfig; repeat split; solve [exact Hc
                                             | vm_compute; reflexivity] |].
  split; [exact Hd |].
  split; [apply Hdata; repeat split; solve [exact Hd
                                           | vm_compute; reflexivity] |].
  apply Hgood; repeat split; vm_compute; reflexivity.
Defined.

(** X5.  Development mode changes the result of the whole pipeline only
    for an image whose one defect, up to the header, is the firmware-key
    signature: every other result of the strict run is the result of the
    development run too, and an image the development run accepts is one
    the strict run accepts or rejects with
    VERIFY_KERNEL_KEY_SIGNATURE_FAILED. *)
Theorem dev_mode_changes_only_key_signature_failures
    (lib : CryptoLib) (firmware_key_blob kernel_blob : blob) (dev_mode : Z) :
  let strict := value (VerifyKernel lib firmware_key_blob kernel_blob 0) in
  let dev := value (VerifyKernel lib firmware_key_blob kernel_blob dev_mode) in
  dev_mode <> 0 ->
  (strict <> VERIFY_KERNEL_KEY_SIGNATURE_FAILED -> dev = strict) /\
  (dev = VERIFY_KERNEL_SUCCESS ->
   strict = VERIFY_KERNEL_SUCCESS \/
   strict = VERIFY_KERNEL_KEY_SIGNATURE_FAILED) /\
  (strict = VERIFY_KERNEL_KEY_SIGNATURE_FAILED ->
   dev = VERIFY_KERNEL_CONFIG_SIGNATURE_FAILED \/
   dev = VERIFY_KERNEL_SIGNATURE_FAILED \/ dev = VERIFY_KERNEL_SUCCESS).
Proof.
  intros strict dev Hdev. subst strict dev.
  apply Z.eqb_neq in Hdev.
  rewrite !VerifyKernel_value, !VerifyKernelHeader_value.
  rewrite Hdev. change (0 =? 0) with true. cbn [andb].
  destruct (negb (SafeMemcmp _ _ _ =? 0));
    [repeat split; intros; solve [reflexivity | discriminate] |].
  repeat (split_if; cbn [fst verify_kernel_result_eqb negb]);
    repeat split; intros; auto; try discriminate; try congruence.
Qed.

Lemma dev_mode_changes_only_key_signature_failures_witness :
  let unsigned := Fixture.test_image 0 0 0 5 1 in
  let strict kernel_blob :=
    value (VerifyKernel Fixture.test_lib Fixture.test_firmware_key
             kernel_blob 0) in
  let dev kernel_blob :=
    value (VerifyKernel Fixture.test_lib Fixture.test_firmware_key
             kernel_blob 1) in
  1 <> 0 /\
  strict unsigned = VERIFY_KERNEL_KEY_SIGNATURE_FAILED /\
  dev unsigned = VERIFY_KERNEL_SUCCESS /\
  strict Tampered.bad_payload <> VERIFY_KERNEL_KEY_SIGNATURE_FAILED /\
  dev Tampered.bad_payload = strict Tampered.bad_payload.
Proof.
  intros unsigned strict dev. subst strict dev. cbv beta.
  assert (Hset : 1 <> 0) by discriminate.
  destruct (dev_mode_changes_only_key_signature_failures Fixture.test_lib
              Fixture.test_firmware_key Tampered.bad_payload 1 Hset)
    as (Hsame & _).
  assert (Hne : value (VerifyKernel Fixture.test_lib
                         Fixture.test_firmware_key Tampered.bad_payload 0)
                <> VERIFY_KERNEL_KEY_SIGNATURE_FAILED)
    by (vm_compute; discriminate).
  split; [exact Hset |].
  split; [vm_compute; reflexivity |].
  split; [vm_compute; reflexivity |].
  split; [exact Hne | exact (Hsame Hne)].
Defined.

(** X6.  Chain of trust.  The key embedded in the image is parsed only
    after the magic matched and the header passed every check: algorithms in
    range, length, checksum and, outside development mode, the firmware-key
    signature.  The payload is digested only after the config signature
    verified as well, and the length digested is the length field of that
    config block. *)
Theorem embedded_key_is_used_only_after_the_header_verifies
    (lib : CryptoLib) (firmware_key_blob kernel_blob : blob) (dev_mode : Z) :
  let header_ptr := header_ptr_of lib kernel_blob in
  let log := calls (VerifyKernel lib firmware_key_blob kernel_blob dev_mode) in
  (forall n, In (CallRSAPublicKeyFromBuf n) log ->
     SafeMemcmp kernel_blob (KERNEL_MAGIC lib) (KERNEL_MAGIC_SIZE lib) = 0 /\
     firmware_sign_algorithm_field header_ptr < kNumAlgorithms lib /\
     kernel_sign_algorithm_field header_ptr < kNumAlgorithms lib /\
     header_len_field header_ptr = expected_header_len lib header_ptr /\
     header_checksum_differs lib header_ptr = 0 /\
     (dev_mode = 0 ->
      header_signature_ok lib firmware_key_blob header_ptr = true)) /\
  (forall a, In (CallDigestInit a) log ->
     (exists n, In (CallRSAPublicKeyFromBuf n) log) /\
     config_signature_ok lib kernel_blob = true) /\
  (forall n, In (CallDigestUpdate n) log ->
     config_signature_ok lib kernel_blob = true /\
     (n = KERNEL_CONFIG_FIELD_LEN lib \/
      n = kernel_len_field lib kernel_blob)).
Proof.
  intros header_ptr log. subst log.
  rewrite VerifyKernel_calls. fold header_ptr.
  set (out0 := {| firmware_algorithm := 0; kernel_algorithm := 0;
                  kernel_header_len := 0 |}).
  pose proof (header_success_checks lib firmware_key_blob
                header_ptr dev_mode out0) as Honly.
  pose proof (VerifyKernelHeader_calls lib firmware_key_blob header_ptr
                dev_mode out0) as Hhc. cbv zeta in Hhc.
  set (hdr := VerifyKernelHeader lib firmware_key_blob header_ptr dev_mode
                out0) in *.
  assert (Hheader : forall c, In c (calls hdr) ->
            match c with
            | CallRSAPublicKeyFromBuf _ | CallDigestInit _
            | CallDigestUpdate _ => False
            | _ => True
            end).
  { intros c. rewrite Hhc.
    repeat split_if; cbn; intros Hin;
      repeat match goal with
             | H : _ \/ _ |- _ => destruct H
             end; subst; tauto. }
  destruct (Z.eqb_spec
              (SafeMemcmp kernel_blob (KERNEL_MAGIC lib)
                 (KERNEL_MAGIC_SIZE lib)) 0) as [Hm | Hm]; cbn [negb];
    [| split; [| split]; intros ? []].
  destruct (verify_kernel_result_eqb (fst (value hdr))
              VERIFY_KERNEL_SUCCESS) eqn:Hok; cbn [negb].
  2: { rewrite app_nil_r.
       split; [| split]; intros ? Hin; destruct (Hheader _ Hin). }
  apply verify_kernel_result_eqb_eq in Hok. specialize (Honly Hok).
  assert (Hkey : exists n,
            In (CallRSAPublicKeyFromBuf n)
               (calls hdr ++
                [CallRSAProcessedKeySize
                   (kernel_sign_algorithm_field header_ptr);
                 CallRSAPublicKeyFromBuf
                   (RSAProcessedKeySize lib
                      (kernel_sign_algorithm_field header_ptr));
                 CallSiglenMap (kernel_sign_algorithm_field header_ptr);
                 CallSiglenMap (firmware_sign_algorithm_field header_ptr);
                 CallRSAVerifyBinary (KERNEL_CONFIG_FIELD_LEN lib)
                   (kernel_sign_algorithm_field header_ptr)] ++
                [CallSiglenMap (kernel_sign_algorithm_field header_ptr);
                 CallDigestInit (kernel_sign_algorithm_field header_ptr);
                 CallDigestUpdate (KERNEL_CONFIG_FIELD_LEN lib);
                 CallDigestUpdate (kernel_len_field lib kernel_blob);
                 CallDigestFinal;
                 CallRSAVerifyBinaryWithDigest
                   (kernel_sign_algorithm_field header_ptr)])).
  { eexists. apply in_or_app. right. cbn. auto. }
  destruct (config_signature_ok lib kernel_blob); cbn [negb].
  - split; [| split].
    + intros n _. tauto.
    + intros a _. split; [exact Hkey | reflexivity].
    + intros n Hin. split; [reflexivity |].
      apply in_app_or in Hin. destruct Hin as [Hin | Hin];
        [destruct (Hheader _ Hin) |].
      cbn in Hin.
      repeat match goal with
             | H : _ \/ _ |- _ => destruct H
             end; try discriminate; try contradiction;
        match goal with
        | H : CallDigestUpdate _ = CallDigestUpdate _ |- _ =>
            injection H as <-; auto
        end.
  - split; [| split].
    + intros n _. tauto.
    + intros a Hin. exfalso.
      apply in_app_or in Hin. destruct Hin as [Hin | Hin];
        [destruct (Hheader _ Hin) |].
      cbn in Hin.
      repeat match goal with
             | H : _ \/ _ |- _ => destruct H
             end; try discriminate; try contradiction.
    + intros n Hin. exfalso.
      apply in_app_or in Hin. destruct Hin as [Hin | Hin];
        [destruct (Hheader _ Hin) |].
      cbn in Hin.
      repeat match goal with
             | H : _ \/ _ |- _ => destruct H
             end; try discriminate; try contradiction.
Qed.

Lemma embedded_key_is_used_only_after_the_header_verifies_witness :
  let kernel_blob := Fixture.good_image 0 5 in
  let log := calls (VerifyKernel Fixture.test_lib Fixture.test_firmware_key
                      kernel_blob 0) in
  In (CallRSAPublicKeyFromBuf 264) log /\
  In (CallDigestUpdate 4) log /\
  (0 = 0 ->
   header_signature_ok Fixture.test_lib Fixture.test_firmware_key
     (header_ptr_of Fixture.test_lib kernel_blob) = true) /\
  config_signature_ok Fixture.test_lib kernel_blob = true.
Proof.
  intros kernel_blob log.
  assert (Hkey : In (CallRSAPublicKeyFromBuf 264) log)
    by (vm_compute; find_in_list).
  assert (Hupd : In (CallDigestUpdate 4) log)
    by (vm_compute; find_in_list).
  destruct (embedded_key_is_used_only_after_the_header_verifies
              Fixture.test_lib Fixture.test_firmware_key kernel_blob 0)
    as (Hheader & _ & Hpayload).
  destruct (Hheader 264 Hkey) as (_ & _ & _ & _ & _ & Hsig).
  destruct (Hpayload 4 Hupd) as (Hconfig & _).
  split; [exact Hkey |]. split; [exact Hupd |].
  split; [exact Hsig | exact Hconfig].
Defined.

(** Every call of [VerifyKernel] that takes a signature algorithm takes one
    the range check accepted. *)
Lemma VerifyKernel_algorithms_checked
    (lib : CryptoLib) (firmware_key_blob kernel_blob : blob) (dev_mode : Z)
    (c : call) (a : Z) :
  In c (calls (VerifyKernel lib firmware_key_blob kernel_blob dev_mode)) ->
  algorithm_of c = Some a ->
  0 <= a < kNumAlgorithms lib.
Proof.
  rewrite VerifyKernel_calls.
  set (header_ptr := header_ptr_of lib kernel_blob).
  set (out0 := {| firmware_algorithm := 0; kernel_algorithm := 0;
                  kernel_header_len := 0 |}).
  pose proof (header_success_checks lib firmware_key_blob
                header_ptr dev_mode out0) as Honly.
  pose proof (VerifyKernelHeader_calls lib firmware_key_blob header_ptr
                dev_mode out0) as Hhc. cbv zeta in Hhc.
  set (hdr := VerifyKernelHeader lib firmware_key_blob header_ptr dev_mode
                out0) in *.
  pose proof (Memcpy_uint16_range
                (ptr_add header_ptr
                   (FIELD_LEN_header_version + FIELD_LEN_header_len)))
    as Rfa.
  pose proof (Memcpy_uint16_range
                (ptr_add header_ptr
                   (FIELD_LEN_header_version + FIELD_LEN_header_len +
                    FIELD_LEN_firmware_sign_algorithm))) as Rka.
  fold (firmware_sign_algorithm_field header_ptr) in Rfa.
  fold (kernel_sign_algorithm_field header_ptr) in Rka.
  assert (Hheader : forall c, In c (calls hdr) -> algorithm_of c = Some a ->
                              0 <= a < kNumAlgorithms lib).
  { intros c'. rewrite Hhc.
    destruct (Z.geb_spec (firmware_sign_algorithm_field header_ptr)
                (kNumAlgorithms lib)); [intros [] |].
    destruct (Z.geb_spec (kernel_sign_algorithm_field header_ptr)
                (kNumAlgorithms lib)); [intros [] |].
    cbn [orb].
    repeat split_if; cbn [In app]; intros Hin;
      repeat match goal with
             | H : _ \/ _ |- _ => destruct H
             end; subst; cbn [algorithm_of]; intros Ha;
      try discriminate Ha; try contradiction; injection Ha as <-; lia. }
  destruct (negb (SafeMemcmp _ _ _ =? 0)); [intros [] |].
  intros Hin Ha. apply in_app_or in Hin. destruct Hin as [Hin | Hin];
    [exact (Hheader c Hin Ha) |].
  destruct (verify_kernel_result_eqb (fst (value hdr))
              VERIFY_KERNEL_SUCCESS) eqn:Hok; cbn [negb] in Hin;
    [| destruct Hin].
  apply verify_kernel_result_eqb_eq in Hok.
  destruct (Honly Hok) as (Hfa & Hka & _).
  destruct (config_signature_ok lib kernel_blob); cbn [negb In app] in Hin;
    repeat match goal with
           | H : _ \/ _ |- _ => destruct H
           end; subst; cbn [algorithm_of] in Ha;
    try discriminate Ha; try contradiction; injection Ha as <-; lia.
Qed.

Lemma VerifyKernel_success
    (lib : CryptoLib) (firmware_key_blob kernel_blob : blob) (dev_mode : Z) :
  value (VerifyKernel lib firmware_key_blob kernel_blob dev_mode)
    = VERIFY_KERNEL_SUCCESS ->
  SafeMemcmp kernel_blob (KERNEL_MAGIC lib) (KERNEL_MAGIC_SIZE lib) = 0 /\
  fst (value (VerifyKernelHeader lib firmware_key_blob
                (header_ptr_of lib kernel_blob) dev_mode
                {| firmware_algorithm := 0; kernel_algorithm := 0;
                   kernel_header_len := 0 |})) = VERIFY_KERNEL_SUCCESS /\
  config_signature_ok lib kernel_blob = true /\
  data_signature_ok lib kernel_blob = true.
Proof.
  rewrite VerifyKernel_value.
  destruct (Z.eqb_spec (SafeMemcmp kernel_blob (KERNEL_MAGIC lib)
                          (KERNEL_MAGIC_SIZE lib)) 0); cbn [negb];
    [| discriminate].
  destruct (verify_kernel_result_eqb _ VERIFY_KERNEL_SUCCESS) eqn:Hok;
    cbn [negb].
  - apply verify_kernel_result_eqb_eq in Hok.
    destruct (config_signature_ok lib kernel_blob); cbn [negb];
      [| discriminate].
    destruct (data_signature_ok lib kernel_blob); cbn [negb];
      [auto | discriminate].
  - intros Heq. rewrite Heq in Hok. discriminate Hok.
Qed.

(** X7.  For an image [VerifyKernel] accepts, the version
    [GetLogicalKernelVersion] reports without any check is the verified
    one: its key version is the field inside the checksummed and signed
    header, and its kernel version is the first field of the config block
    whose signature verified.  This needs the magic field to have the size
    of the magic, sizes that are not negative, and a header length that
    fits [size_t]. *)
Theorem accepted_image_reports_its_verified_version
    (lib : CryptoLib) (firmware_key_blob kernel_blob : blob) (dev_mode : Z) :
  let header_ptr := header_ptr_of lib kernel_blob in
  let fa := firmware_sign_algorithm_field header_ptr in
  let ka := kernel_sign_algorithm_field header_ptr in
  let kernel_key_version_offset :=
    FIELD_LEN_header_version + FIELD_LEN_header_len +
    FIELD_LEN_firmware_sign_algorithm + FIELD_LEN_kernel_sign_algorithm in
  value (VerifyKernel lib firmware_key_blob kernel_blob dev_mode)
    = VERIFY_KERNEL_SUCCESS ->
  FIELD_LEN_magic lib = KERNEL_MAGIC_SIZE lib ->
  0 <= KERNEL_MAGIC_SIZE lib ->
  0 <= FIELD_LEN_header_checksum lib ->
  0 <= RSAProcessedKeySize lib ka ->
  0 <= siglen_map lib fa ->
  10 + RSAProcessedKeySize lib ka + FIELD_LEN_header_checksum lib
    < 2 ^ size_t_bits lib ->
  value (GetLogicalKernelVersion lib kernel_blob) =
    CombineUint16Pair
      (Memcpy_uint16 (ptr_add header_ptr kernel_key_version_offset))
      (Memcpy_uint16 (config_ptr_of lib kernel_blob)) /\
  kernel_key_version_offset + FIELD_LEN_kernel_key_version <=
    header_len_field header_ptr - FIELD_LEN_header_checksum lib /\
  header_checksum_differs lib header_ptr = 0 /\
  (dev_mode = 0 ->
   header_signature_ok lib firmware_key_blob header_ptr = true) /\
  config_signature_ok lib kernel_blob = true.
Proof.
  intros header_ptr fa ka kkv_offset Hok Hmagic Hm Hc Hk Hs Hfit.
  destruct (VerifyKernel_success lib firmware_key_blob kernel_blob dev_mode
              Hok) as (_ & Hhdr & Hcfg & _).
  fold header_ptr in Hhdr.
  set (out0 := {| firmware_algorithm := 0; kernel_algorithm := 0;
                  kernel_header_len := 0 |}) in *.
  pose proof (header_success_checks lib firmware_key_blob
                header_ptr dev_mode out0) as Honly.
  destruct (Honly Hhdr) as (Hfa & Hka & Hlen & Hsum & Hsig).
  fold fa ka in Hfa, Hka.
  assert (Hhl : header_len_field header_ptr =
                10 + RSAProcessedKeySize lib ka + FIELD_LEN_header_checksum lib).
  { rewrite Hlen. unfold expected_header_len, wrap. fold ka.
    rewrite Z.mod_small by (unfold base_header_checksum_offset,
      FIELD_LEN_header_version, FIELD_LEN_header_len,
      FIELD_LEN_firmware_sign_algorithm, FIELD_LEN_kernel_sign_algorithm,
      FIELD_LEN_kernel_key_version; lia).
    reflexivity. }
  assert (Hfa' : Memcpy_uint16
                   (ptr_add kernel_blob
                      (FIELD_LEN_magic lib + FIELD_LEN_header_version +
                       FIELD_LEN_header_len)) = fa).
  { subst fa header_ptr. unfold firmware_sign_algorithm_field, header_ptr_of.
    rewrite ptr_add_ptr_add by (unfold FIELD_LEN_header_version,
      FIELD_LEN_header_len; lia).
    rewrite Hmagic. do 2 f_equal. lia. }
  assert (Hka' : Memcpy_uint16
                   (ptr_add
                      (ptr_add kernel_blob
                         (FIELD_LEN_magic lib + FIELD_LEN_header_version +
                          FIELD_LEN_header_len))
                      FIELD_LEN_firmware_sign_algorithm) = ka).
  { subst ka header_ptr. unfold kernel_sign_algorithm_field, header_ptr_of.
    rewrite !ptr_add_ptr_add by (unfold FIELD_LEN_header_version,
      FIELD_LEN_header_len, FIELD_LEN_firmware_sign_algorithm; lia).
    rewrite Hmagic. do 2 f_equal. lia. }
  assert (Hkkv : ptr_add
                   (ptr_add
                      (ptr_add kernel_blob
                         (FIELD_LEN_magic lib + FIELD_LEN_header_version +
                          FIELD_LEN_header_len))
                      FIELD_LEN_firmware_sign_algorithm)
                   FIELD_LEN_kernel_sign_algorithm =
                 ptr_add header_ptr kkv_offset).
  { subst header_ptr kkv_offset. unfold header_ptr_of.
    rewrite !ptr_add_ptr_add by (unfold FIELD_LEN_header_version,
      FIELD_LEN_header_len, FIELD_LEN_firmware_sign_algorithm,
      FIELD_LEN_kernel_sign_algorithm; lia).
    rewrite Hmagic. f_equal. lia. }
  split; [| split; [| split; [exact Hsum | split; [exact Hsig | exact Hcfg]]]].
  - unfold GetLogicalKernelVersion.
    rewrite Hfa', Hka', Hkkv.
    destruct (Z.geb_spec fa (kNumAlgorithms lib)); [lia |].
    destruct (Z.geb_spec ka (kNumAlgorithms lib)); [lia |].
    unfold_logged. do 2 f_equal.
    unfold config_ptr_of. fold header_ptr. fold fa. rewrite Hhl.
    subst kkv_offset.
    rewrite ptr_add_ptr_add by (unfold FIELD_LEN_header_version,
      FIELD_LEN_header_len, FIELD_LEN_firmware_sign_algorithm,
      FIELD_LEN_kernel_sign_algorithm, FIELD_LEN_kernel_key_version; lia).
    f_equal. unfold FIELD_LEN_header_version, FIELD_LEN_header_len,
      FIELD_LEN_firmware_sign_algorithm, FIELD_LEN_kernel_sign_algorithm,
      FIELD_LEN_kernel_key_version. lia.
  - rewrite Hhl. subst kkv_offset.
    unfold FIELD_LEN_header_version, FIELD_LEN_header_len,
      FIELD_LEN_firmware_sign_algorithm, FIELD_LEN_kernel_sign_algorithm,
      FIELD_LEN_kernel_key_version. lia.
Qed.

Lemma accepted_image_reports_its_verified_version_witness :
  let kernel_blob := Fixture.good_image 3 5 in
  value (VerifyKernel Fixture.test_lib Fixture.test_firmware_key
           kernel_blob 0) = VERIFY_KERNEL_SUCCESS /\
  value (GetLogicalKernelVersion Fixture.test_lib kernel_blob) =
    CombineUint16Pair
      (Memcpy_uint16
         (ptr_add (header_ptr_of Fixture.test_lib kernel_blob)
            (FIELD_LEN_header_version + FIELD_LEN_header_len +
             FIELD_LEN_firmware_sign_algorithm +
             FIELD_LEN_kernel_sign_algorithm)))
      (Memcpy_uint16 (config_ptr_of Fixture.test_lib kernel_blob)) /\
  config_signature_ok Fixture.test_lib kernel_blob = true.
Proof.
  intros kernel_blob.
  assert (Hok : value (VerifyKernel Fixture.test_lib
                         Fixture.test_firmware_key kernel_blob 0)
                = VERIFY_KERNEL_SUCCESS) by (vm_compute; reflexivity).
  assert (H1 : FIELD_LEN_magic Fixture.test_lib =
               KERNEL_MAGIC_SIZE Fixture.test_lib)
    by (vm_compute; reflexivity).
  assert (H2 : 0 <= KERNEL_MAGIC_SIZE Fixture.test_lib)
    by (vm_compute; discriminate).
  assert (H3 : 0 <= FIELD_LEN_header_checksum Fixture.test_lib)
    by (vm_compute; discriminate).
  assert (H4 : 0 <= RSAProcessedKeySize Fixture.test_lib
                      (kernel_sign_algorithm_field
                         (header_ptr_of Fixture.test_lib kernel_blob)))
    by (vm_compute; discriminate).
  assert (H5 : 0 <= siglen_map Fixture.test_lib
                      (firmware_sign_algorithm_field
                         (header_ptr_of Fixture.test_lib kernel_blob)))
    by (vm_compute; discriminate).
  assert (H6 : 10 + RSAProcessedKeySize Fixture.test_lib
                      (kernel_sign_algorithm_field
                         (header_ptr_of Fixture.test_lib kernel_blob)) +
               FIELD_LEN_header_checksum Fixture.test_lib
               < 2 ^ size_t_bits Fixture.test_lib)
    by (vm_compute; reflexivity).
  pose proof (accepted_image_reports_its_verified_version Fixture.test_lib
                Fixture.test_firmware_key kernel_blob 0 Hok H1 H2 H3 H4 H5 H6)
    as Hall.
  split; [exact Hok |].
  split; [exact (proj1 Hall) |].
  exact (proj2 (proj2 (proj2 (proj2 Hall)))).
Defined.

(** ** More on the selection policy *)

Lemma filter_none {A : Type} (f : A -> bool) (l : list A) :
  (forall x, In x l -> f x = false) -> filter f l = [].
Proof.
  induction l as [| x l IH]; intros H; [reflexivity |].
  cbn. rewrite (H x) by (left; reflexivity).
  apply IH. intros y Hy. apply H. right. exact Hy.
Qed.

Section StoreTraffic.

Variable lib : CryptoLib.
Variable firmware_key_blob : blob.
Variable dev_mode : Z.

Lemma verifies_store_calls (kernel_blob : blob) :
  filter is_store_call
    (calls (verifies lib firmware_key_blob dev_mode kernel_blob)) = [].
Proof.
  apply filter_none. apply verifies_makes_no_store_call.
Qed.

(** The block that raises the stored version, as a function of its
    condition. *)
Lemma update_stored_version_exact (order : try_order) (m i : Z)
    (st : driver_state) :
  let r := update_stored_version lib firmware_key_blob dev_mode order m i st in
  let raises :=
    (i =? 0) && (stored_lversion st <? try_kernel_lversion order 1) &&
    value (verifies lib firmware_key_blob dev_mode
             (kernel_blob (deref st (try_kernel order 1)))) in
  value r =
    (if raises
     then set_stored_lversion (set_tpm st (write_both (tpm st) m)) m
     else st) /\
  filter is_store_call (calls r) = if raises then version_writes m else [].
Proof.
  intros r raises. subst r raises. unfold update_stored_version.
  destruct ((i =? 0) && (stored_lversion st <? try_kernel_lversion order 1));
    [| split; reflexivity].
  rewrite value_bind, calls_bind, filter_app, verifies_store_calls.
  cbn [andb app].
  destruct (value (verifies lib firmware_key_blob dev_mode
                     (kernel_blob (deref st (try_kernel order 1)))));
    split; reflexivity.
Qed.

Lemma loop_body_exact (order : try_order) (m i : Z) (st : driver_state) :
  let p := try_kernel order i in
  let r := loop_body lib firmware_key_blob dev_mode order m i st in
  let tried := use_one_try st p in
  let selects :=
    accepted lib firmware_key_blob dev_mode (deref st p) &&
    (stored_lversion st <=? try_kernel_lversion order i) in
  let update :=
    update_stored_version lib firmware_key_blob dev_mode order m i tried in
  value r =
    (if selects
     then (LoopBreak,
           set_kernel_to_boot (value update) (try_kernel_which order i))
     else (LoopNext,
           if accepted lib firmware_key_blob dev_mode (deref st p)
           then tried
           else assign st p (set_boot_priority (deref st p) 0))) /\
  filter is_store_call (calls r) =
    if selects then filter is_store_call (calls update) else [].
Proof.
  intros p r tried selects update. subst r selects update.
  unfold loop_body. fold p. fold tried.
  rewrite value_bind, calls_bind, filter_app.
  assert (Hok :
    value (if eligible (deref st p)
           then verifies lib firmware_key_blob dev_mode
                  (kernel_blob (deref st p))
           else ret false) =
    accepted lib firmware_key_blob dev_mode (deref st p)).
  { unfold accepted. destruct (eligible (deref st p)); reflexivity. }
  assert (Hcalls :
    filter is_store_call
      (calls (if eligible (deref st p)
              then verifies lib firmware_key_blob dev_mode
                     (kernel_blob (deref st p))
              else ret false)) = []).
  { destruct (eligible (deref st p));
      [apply verifies_store_calls | reflexivity]. }
  rewrite Hok, Hcalls. cbn [app].
  destruct (accepted lib firmware_key_blob dev_mode (deref st p));
    cbn [andb]; [| split; reflexivity].
  destruct (use_one_try_frame st p) as (_ & Hstored & _).
  fold tried in Hstored. rewrite Hstored.
  rewrite Z.gtb_ltb, Z.leb_antisym.
  destruct (try_kernel_lversion order i <? stored_lversion st); cbn [negb];
    [split; reflexivity |].
  rewrite value_bind, calls_bind, filter_app, calls_ret, app_nil_r.
  split; reflexivity.
Qed.

End StoreTraffic.

Lemma tpm_use_one_try (st : driver_state) (p : kernel_ptr) :
  tpm (use_one_try st p) = tpm st.
Proof. apply use_one_try_frame. Qed.

Lemma stored_lversion_use_one_try (st : driver_state) (p : kernel_ptr) :
  stored_lversion (use_one_try st p) = stored_lversion st.
Proof. apply use_one_try_frame. Qed.

Lemma GetLogicalKernelVersion_store_calls (lib : CryptoLib) (b : blob) :
  filter is_store_call (calls (GetLogicalKernelVersion lib b)) = [].
Proof.
  apply filter_none. intros c Hin.
  pose proof (GetLogicalKernelVersion_makes_no_store_call lib b) as Hall.
  rewrite forallb_forall in Hall. apply Hall in Hin.
  now apply negb_true_iff in Hin.
Qed.

(** What the driver does to the store, exactly. *)
Lemma driver_store_exact
    (lib : CryptoLib) (firmware_key_blob : blob) (dev_mode : Z)
    (kernelA kernelB : kernel_entry) (store : rollback_store) :
  let raises :=
    raises_stored_version lib firmware_key_blob dev_mode
      kernelA kernelB store in
  let m := Min (lversion lib kernelA) (lversion lib kernelB) in
  let r := VerifyKernelDriver_f lib firmware_key_blob dev_mode
             kernelA kernelB store in
  tpm (value r) = lock_both (if raises then write_both store m else store) /\
  stored_lversion (value r) =
    (if raises then m else stored_logical_version store) /\
  filter is_store_call (calls r) =
    [CallGetStoredVersion KERNEL_KEY_VERSION;
     CallGetStoredVersion KERNEL_VERSION] ++
    (if raises then version_writes m else []) ++
    [CallLockStoredVersion KERNEL_KEY_VERSION;
     CallLockStoredVersion KERNEL_VERSION].
Proof.
  intros raises m r.
  destruct (driver_unfold lib firmware_key_blob dev_mode
              kernelA kernelB store) as (Hv & Hc).
  fold r m in Hv, Hc.
  destruct (make_try_order_facts kernelA kernelB
              (lversion lib kernelA) (lversion lib kernelB))
    as (O0 & O1 & _ & _ & L0 & L1).
  set (p0 := first_tried kernelA kernelB) in *.
  set (order := make_try_order kernelA kernelB (lversion lib kernelA)
                  (lversion lib kernelB)) in *.
  set (st0 := {| kernelA := kernelA; kernelB := kernelB; tpm := store;
                 stored_lversion := stored_logical_version store;
                 kernel_to_boot := BOOT_KERNEL_RECOVERY_CONTINUE |}) in *.
  assert (HL0 : try_kernel_lversion order 0 =
                lversion lib (entry kernelA kernelB p0))
    by (rewrite L0; destruct p0; reflexivity).
  assert (HL1 : try_kernel_lversion order 1 =
                lversion lib (entry kernelA kernelB (other p0)))
    by (rewrite L1; destruct p0; reflexivity).
  pose proof (for_loop_two lib firmware_key_blob dev_mode order m st0)
    as Hloop.
  cbv zeta in Hloop.
  destruct (loop_body_exact lib firmware_key_blob dev_mode order m 0 st0)
    as (Hv0 & Hc0).
  rewrite O0, HL0 in Hv0, Hc0.
  change (deref st0 p0) with (entry kernelA kernelB p0) in Hv0, Hc0.
  change (stored_lversion st0) with (stored_logical_version store)
    in Hv0, Hc0.
  fold (bootable lib firmware_key_blob dev_mode store
          (entry kernelA kernelB p0)) in Hv0, Hc0.
  destruct (update_stored_version_exact lib firmware_key_blob dev_mode
              order m 0 (use_one_try st0 p0)) as (Hu & Huc).
  rewrite ?stored_lversion_use_one_try, ?tpm_use_one_try, ?O1, ?HL1,
    ?deref_use_one_try, ?O0, ?other_neq in Hu, Huc.
  change (0 =? 0) with true in Hu, Huc. cbn [andb] in Hu, Huc.
  change (stored_lversion st0) with (stored_logical_version store)
    in Hu, Huc.
  change (tpm st0) with store in Hu.
  change (deref st0 (other p0)) with (entry kernelA kernelB (other p0))
    in Hu, Huc.
  assert (Hraises :
    raises =
    bootable lib firmware_key_blob dev_mode store
      (entry kernelA kernelB p0) &&
    ((stored_logical_version store <?
      lversion lib (entry kernelA kernelB (other p0))) &&
     value (verifies lib firmware_key_blob dev_mode
              (kernel_blob (entry kernelA kernelB (other p0))))))
    by (subst raises; unfold raises_stored_version; fold p0;
        rewrite andb_assoc; reflexivity).
  rewrite Hraises, Hv, Hc.
  rewrite !filter_app, !GetLogicalKernelVersion_store_calls.
  cbn [app filter is_store_call tpm stored_lversion set_tpm].
  destruct (bootable lib firmware_key_blob dev_mode store
              (entry kernelA kernelB p0)); cbn [andb].
  - rewrite Hv0 in Hloop. cbn [fst snd] in Hloop.
    destruct Hloop as (Hlv & Hlc). rewrite Hlv, Hlc, Hc0, Huc, Hu.
    destruct ((stored_logical_version store <?
               lversion lib (entry kernelA kernelB (other p0))) &&
              value (verifies lib firmware_key_blob dev_mode
                       (kernel_blob (entry kernelA kernelB (other p0)))));
      cbn [tpm stored_lversion set_kernel_to_boot set_stored_lversion set_tpm];
      rewrite ?tpm_use_one_try, ?stored_lversion_use_one_try;
      repeat split; reflexivity.
  - rewrite Hv0 in Hloop. cbn [fst snd] in Hloop.
    set (st1 := if accepted lib firmware_key_blob dev_mode
                     (entry kernelA kernelB p0)
                then use_one_try st0 p0
                else assign st0 p0
                       (set_boot_priority (entry kernelA kernelB p0) 0))
      in *.
    assert (Hst1 : tpm st1 = store /\
                   stored_lversion st1 = stored_logical_version store).
    { subst st1.
      destruct (accepted lib firmware_key_blob dev_mode
                  (entry kernelA kernelB p0));
        rewrite ?tpm_use_one_try, ?stored_lversion_use_one_try,
          ?tpm_assign, ?stored_lversion_assign; split; reflexivity. }
    destruct Hst1 as (Htpm1 & Hs1).
    destruct (loop_body_exact lib firmware_key_blob dev_mode order m 1 st1)
      as (Hv1 & Hc1).
    destruct (update_stored_version_exact lib firmware_key_blob dev_mode
                order m 1 (use_one_try st1 (try_kernel order 1)))
      as (Hu1 & Huc1).
    change (1 =? 0) with false in Hu1, Huc1. cbn [andb] in Hu1, Huc1.
    rewrite Hu1, Huc1 in *.
    destruct Hloop as (Hlv & Hlc). rewrite Hlv, Hlc, filter_app, Hc0, Hc1, Hv1.
    cbn [app].
    destruct (accepted lib firmware_key_blob dev_mode
                (deref st1 (try_kernel order 1)) &&
              (stored_lversion st1 <=? try_kernel_lversion order 1));
      cbn [snd tpm stored_lversion set_kernel_to_boot].
    + rewrite tpm_use_one_try, stored_lversion_use_one_try, Htpm1, Hs1.
      repeat split; reflexivity.
    + destruct (accepted lib firmware_key_blob dev_mode
                  (deref st1 (try_kernel order 1)));
        rewrite ?tpm_use_one_try, ?stored_lversion_use_one_try,
          ?tpm_assign, ?stored_lversion_assign, Htpm1, Hs1;
        repeat split; reflexivity.
Qed.

Lemma verifies_true (lib : CryptoLib) (firmware_key_blob b : blob)
    (dev_mode : Z) :
  value (verifies lib firmware_key_blob dev_mode b) = true <->
  value (VerifyKernel lib firmware_key_blob b dev_mode)
    = VERIFY_KERNEL_SUCCESS.
Proof.
  unfold verifies. rewrite value_bind, value_ret.
  rewrite verify_kernel_result_eqb_eq. split; auto.
Qed.

Lemma bootable_true (lib : CryptoLib) (firmware_key_blob : blob)
    (dev_mode : Z) (store : rollback_store) (e : kernel_entry) :
  bootable lib firmware_key_blob dev_mode store e = true <->
  accepted lib firmware_key_blob dev_mode e = true /\
  stored_logical_version store <= lversion lib e.
Proof.
  unfold bootable. rewrite andb_true_iff, Z.leb_le. tauto.
Qed.

Lemma bootable_false (lib : CryptoLib) (firmware_key_blob : blob)
    (dev_mode : Z) (store : rollback_store) (e : kernel_entry) :
  bootable lib firmware_key_blob dev_mode store e = false <->
  accepted lib firmware_key_blob dev_mode e = false \/
  stored_logical_version store > lversion lib e.
Proof.
  unfold bootable. rewrite andb_false_iff, Z.leb_gt. split.
  - intros [H | H]; [left; exact H | right; lia].
  - intros [H | H]; [left; exact H | right; lia].
Qed.

(** The decision of the driver in terms of [bootable]. *)
Lemma driver_decision
    (lib : CryptoLib) (firmware_key_blob : blob) (dev_mode : Z)
    (kernelA kernelB : kernel_entry) (store : rollback_store) :
  let p0 := first_tried kernelA kernelB in
  let can_boot p :=
    bootable lib firmware_key_blob dev_mode store (entry kernelA kernelB p) in
  kernel_to_boot
    (value (VerifyKernelDriver_f lib firmware_key_blob dev_mode
              kernelA kernelB store)) =
  if can_boot p0 then slot_of p0
  else if can_boot (other p0) then slot_of (other p0)
  else BOOT_KERNEL_RECOVERY_CONTINUE.
Proof.
  intros p0 can_boot. subst can_boot. cbv beta.
  pose proof (driver_outcome lib firmware_key_blob dev_mode
                kernelA kernelB store) as Hout.
  cbv zeta in Hout. fold p0 in Hout.
  destruct Hout as [(Ha & Hle & Hboot & _) | (Hfirst & Hsecond & _)].
  - rewrite (proj2 (bootable_true _ _ _ _ _) (conj Ha Hle)). exact Hboot.
  - assert (H0 : bootable lib firmware_key_blob dev_mode store
                   (entry kernelA kernelB p0) = false).
    { apply bootable_false.
      destruct Hfirst as [(_ & Hgt & _) | (Hrej & _)]; auto. }
    rewrite H0.
    destruct Hsecond as [(Ha & Hle & Hboot & _) | [(_ & Hgt & Hboot & _)
                                                  | (Hrej & Hboot & _)]].
    + rewrite (proj2 (bootable_true _ _ _ _ _) (conj Ha Hle)). exact Hboot.
    + rewrite (proj2 (bootable_false _ _ _ _ _) (or_intror Hgt)).
      exact Hboot.
    + rewrite (proj2 (bootable_false _ _ _ _ _) (or_introl Hrej)).
      exact Hboot.
Qed.

(** X8.  The kernel the driver tells the firmware to boot always passed
    the checks: it was eligible, [VerifyKernel] succeeded on its blob, so its
    magic, header checksum, config signature and payload signature are good
    and, outside development mode, so is the firmware-key signature over its
    header; and its logical version is not below the stored one. *)
Theorem selected_kernel_passed_every_check
    (lib : CryptoLib) (firmware_key_blob : blob) (dev_mode : Z)
    (kernelA kernelB : kernel_entry) (store : rollback_store)
    (p : kernel_ptr) :
  let e := entry kernelA kernelB p in
  let header_ptr := header_ptr_of lib (kernel_blob e) in
  kernel_to_boot
    (value (VerifyKernelDriver_f lib firmware_key_blob dev_mode
              kernelA kernelB store)) = slot_of p ->
  eligible e = true /\
  stored_logical_version store <= lversion lib e /\
  value (VerifyKernel lib firmware_key_blob (kernel_blob e) dev_mode)
    = VERIFY_KERNEL_SUCCESS /\
  SafeMemcmp (kernel_blob e) (KERNEL_MAGIC lib) (KERNEL_MAGIC_SIZE lib) = 0 /\
  header_checksum_differs lib header_ptr = 0 /\
  (dev_mode = 0 ->
   header_signature_ok lib firmware_key_blob header_ptr = true) /\
  config_signature_ok lib (kernel_blob e) = true /\
  data_signature_ok lib (kernel_blob e) = true.
Proof.
  intros e header_ptr Hsel.
  rewrite driver_decision in Hsel. cbv zeta beta in Hsel.
  assert (Hboot : bootable lib firmware_key_blob dev_mode store e = true).
  { subst e.
    destruct (first_or_other kernelA kernelB p) as [Hp | Hp].
    - rewrite <- Hp in Hsel.
      destruct (bootable lib firmware_key_blob dev_mode store
                  (entry kernelA kernelB p)); [reflexivity |].
      destruct (bootable lib firmware_key_blob dev_mode store
                  (entry kernelA kernelB (other p)));
        [destruct (slot_of_other p Hsel)
        | symmetry in Hsel; destruct (slot_of_not_recovery p Hsel)].
    - rewrite <- Hp in Hsel.
      destruct (bootable lib firmware_key_blob dev_mode store
                  (entry kernelA kernelB (first_tried kernelA kernelB))).
      + rewrite Hp in Hsel. symmetry in Hsel.
        destruct (slot_of_other _ Hsel).
      + destruct (bootable lib firmware_key_blob dev_mode store
                    (entry kernelA kernelB p)); [reflexivity |].
        symmetry in Hsel. destruct (slot_of_not_recovery p Hsel). }
  apply bootable_true in Hboot. destruct Hboot as (Hacc & Hle).
  apply accepted_true in Hacc. destruct Hacc as (Hel & Hok).
  apply verifies_true in Hok.
  destruct (VerifyKernel_success lib firmware_key_blob (kernel_blob e)
              dev_mode Hok) as (Hmagic & Hhdr & Hcfg & Hdata).
  pose proof (header_success_checks lib firmware_key_blob
                header_ptr dev_mode
                {| firmware_algorithm := 0; kernel_algorithm := 0;
                   kernel_header_len := 0 |}) as Honly.
  destruct (Honly Hhdr) as (_ & _ & _ & Hsum & Hsig).
  repeat (split; [assumption |]). assumption.
Qed.

Lemma selected_kernel_passed_every_check_witness :
  let r := value (VerifyKernelDriver_f Fixture.test_lib
                    Fixture.test_firmware_key 0 Fixture.rollback_A
                    Fixture.current_B (Fixture.unlocked_store 0 5)) in
  let e := entry Fixture.rollback_A Fixture.current_B PtrKernelB in
  kernel_to_boot r = slot_of PtrKernelB /\
  stored_logical_version (Fixture.unlocked_store 0 5)
    <= lversion Fixture.test_lib e /\
  value (VerifyKernel Fixture.test_lib Fixture.test_firmware_key
           (kernel_blob e) 0) = VERIFY_KERNEL_SUCCESS.
Proof.
  intros r e.
  assert (Hsel : kernel_to_boot r = slot_of PtrKernelB)
    by (vm_compute; reflexivity).
  destruct (selected_kernel_passed_every_check Fixture.test_lib
              Fixture.test_firmware_key 0 Fixture.rollback_A
              Fixture.current_B (Fixture.unlocked_store 0 5) PtrKernelB Hsel)
    as (_ & Hle & Hok & _).
  split; [exact Hsel |]. split; [exact Hle | exact Hok].
Defined.

(** X9.  The whole traffic between the driver and the rollback store:
    one read of each counter, then, exactly when the first candidate is
    selected and the second is newer than the stored version and passes
    [VerifyKernel], one write of each counter with the halves of
    [Min(lversionA, lversionB)], then one lock of each counter.  Nothing is
    written after a lock and nothing is read after a write. *)
Theorem driver_store_traffic
    (lib : CryptoLib) (firmware_key_blob : blob) (dev_mode : Z)
    (kernelA kernelB : kernel_entry) (store : rollback_store) :
  let m := Min (lversion lib kernelA) (lversion lib kernelB) in
  filter is_store_call
    (calls (VerifyKernelDriver_f lib firmware_key_blob dev_mode
              kernelA kernelB store)) =
  [CallGetStoredVersion KERNEL_KEY_VERSION;
   CallGetStoredVersion KERNEL_VERSION] ++
  (if raises_stored_version lib firmware_key_blob dev_mode
        kernelA kernelB store
   then [CallWriteStoredVersion KERNEL_KEY_VERSION
           (wrap 16 (Z.shiftr m 16));
         CallWriteStoredVersion KERNEL_VERSION
           (wrap 16 (Z.land m 65535))]
   else []) ++
  [CallLockStoredVersion KERNEL_KEY_VERSION;
   CallLockStoredVersion KERNEL_VERSION].
Proof.
  intros m.
  apply (driver_store_exact lib firmware_key_blob dev_mode
           kernelA kernelB store).
Qed.

(** X10.  The counters are written only on the strength of verified
    images: if the driver makes any [WriteStoredVersion] call, then
    [VerifyKernel] succeeded on both kernel blobs, the first candidate is the
    one returned, and neither logical version is below the stored one. *)
Theorem counters_written_only_when_both_kernels_verify
    (lib : CryptoLib) (firmware_key_blob : blob) (dev_mode : Z)
    (kernelA kernelB : kernel_entry) (store : rollback_store)
    (slot : version_slot) (v : Z) :
  let r := VerifyKernelDriver_f lib firmware_key_blob dev_mode
             kernelA kernelB store in
  let s := stored_logical_version store in
  In (CallWriteStoredVersion slot v) (calls r) ->
  value (VerifyKernel lib firmware_key_blob (kernel_blob kernelA) dev_mode)
    = VERIFY_KERNEL_SUCCESS /\
  value (VerifyKernel lib firmware_key_blob (kernel_blob kernelB) dev_mode)
    = VERIFY_KERNEL_SUCCESS /\
  kernel_to_boot (value r) = slot_of (first_tried kernelA kernelB) /\
  s <= lversion lib kernelA /\ s <= lversion lib kernelB.
Proof.
  intros r s Hin.
  destruct (driver_store_exact lib firmware_key_blob dev_mode
              kernelA kernelB store) as (_ & _ & Hcalls).
  fold r in Hcalls.
  assert (Hf : In (CallWriteStoredVersion slot v)
                 (filter is_store_call (calls r)))
    by (apply filter_In; split; [exact Hin | reflexivity]).
  rewrite Hcalls in Hf.
  destruct (raises_stored_version lib firmware_key_blob dev_mode
              kernelA kernelB store) eqn:Hraises.
  2: { cbn in Hf. intuition discriminate. }
  clear Hf. unfold raises_stored_version in Hraises.
  apply andb_true_iff in Hraises. destruct Hraises as (Hraises & Hok1).
  apply andb_true_iff in Hraises. destruct Hraises as (Hboot & Hlt).
  apply Z.ltb_lt in Hlt. fold s in Hlt.
  pose proof Hboot as Hb. apply bootable_true in Hb.
  destruct Hb as (Hacc & Hle). fold s in Hle.
  apply accepted_true in Hacc. destruct Hacc as (_ & Hok0).
  apply verifies_true in Hok0. apply verifies_true in Hok1.
  assert (Hres : kernel_to_boot (value r) =
                 slot_of (first_tried kernelA kernelB)).
  { subst r. rewrite driver_decision. cbv zeta beta. rewrite Hboot.
    reflexivity. }
  destruct (first_tried kernelA kernelB); cbn [entry other] in *;
    repeat split; solve [assumption | lia].
Qed.

Lemma counters_written_only_when_both_kernels_verify_witness :
  let r := VerifyKernelDriver_f Fixture.test_lib Fixture.test_firmware_key 0
             Fixture.newer_A Fixture.newer_B (Fixture.unlocked_store 0 5) in
  In (CallWriteStoredVersion KERNEL_VERSION 7) (calls r) /\
  value (VerifyKernel Fixture.test_lib Fixture.test_firmware_key
           (kernel_blob Fixture.newer_B) 0) = VERIFY_KERNEL_SUCCESS /\
  kernel_to_boot (value r) =
    slot_of (first_tried Fixture.newer_A Fixture.newer_B).
Proof.
  intros r.
  assert (Hin : In (CallWriteStoredVersion KERNEL_VERSION 7) (calls r))
    by (vm_compute; find_in_list).
  destruct (counters_written_only_when_both_kernels_verify Fixture.test_lib
              Fixture.test_firmware_key 0 Fixture.newer_A Fixture.newer_B
              (Fixture.unlocked_store 0 5) KERNEL_VERSION 7 Hin)
    as (_ & HB & Hsel & _).
  split; [exact Hin |]. split; [exact HB | exact Hsel].
Defined.

Lemma stored_logical_version_write_both (store : rollback_store) (m : Z) :
  0 <= m < 4294967296 ->
  locked (kernel_key_version_counter store) = false ->
  locked (kernel_version_counter store) = false ->
  stored_logical_version (lock_both (write_both store m)) = m.
Proof.
  intros Hm Hkey Hver.
  unfold lock_both, write_both, stored_logical_version.
  unfold WriteStoredVersion, LockStoredVersion. rewrite !value_logged.
  cbn [counter_of]. rewrite Hkey.
  cbn [snd counter_of set_counter kernel_key_version_counter
       kernel_version_counter version locked].
  rewrite Hver.
  cbn [snd counter_of set_counter kernel_key_version_counter
       kernel_version_counter version locked].
  rewrite !wrap_16_idempotent. apply CombineUint16Pair_split, Hm.
Qed.



Lemma lock_both_locked (store : rollback_store) :
  locked (kernel_key_version_counter store) = true ->
  locked (kernel_version_counter store) = true ->
  lock_both store = store /\ forall m, write_both store m = store.
Proof.
  destruct store as [[kv kl] [vv vl]]. cbn. intros -> ->.
  split; [reflexivity | intros m; reflexivity].
Qed.


(** A second call that does go through the writes: they are refused, and
    the store stays as the first call left it. *)
Example refused_writes_leave_the_store_alone :
  let first :=
    value (VerifyKernelDriver_f Fixture.test_lib Fixture.test_firmware_key 0
             Fixture.newer_A Fixture.newer_B (Fixture.unlocked_store 0 5)) in
  let second :=
    VerifyKernelDriver_f Fixture.test_lib Fixture.test_firmware_key 0
      (kernelA first) (kernelB first) (tpm first) in
  In (CallWriteStoredVersion KERNEL_VERSION 7) (calls second) /\
  tpm (value second) = tpm first.
Proof.
  vm_compute. split; [find_in_list | reflexivity].
Qed.

(** ** Logical versions *)

Lemma GetLogicalKernelVersion_value (lib : CryptoLib) (kernel_blob : blob) :
  value (GetLogicalKernelVersion lib kernel_blob) =
  if version_algorithms_ok lib kernel_blob
  then kernel_key_version_read lib kernel_blob * 65536 +
       kernel_version_read lib kernel_blob
  else 0.
Proof.
  unfold GetLogicalKernelVersion, version_algorithms_ok,
    kernel_version_read, kernel_key_version_read, kernel_key_version_ptr.
  fold (version_firmware_algorithm lib kernel_blob).
  fold (version_kernel_algorithm lib kernel_blob).
  destruct (version_firmware_algorithm lib kernel_blob >=? kNumAlgorithms lib);
    [reflexivity |].
  destruct (version_kernel_algorithm lib kernel_blob >=? kNumAlgorithms lib);
    [reflexivity |].
  unfold_logged. cbn [negb andb].
  apply CombineUint16Pair_uint16; apply Memcpy_uint16_range.
Qed.

(** X13.  Logical versions compare like pairs with the key version
    first: for two blobs whose algorithm fields are in range,
    [GetLogicalKernelVersion] is smaller on the first exactly when its key
    version is smaller, or the key versions agree and its kernel version is
    smaller; the two results are equal exactly when both fields are.  Both
    fields can be read back from the result. *)
Theorem logical_versions_compare_key_version_first
    (lib : CryptoLib) (blob1 blob2 : blob) :
  let v1 := value (GetLogicalKernelVersion lib blob1) in
  let v2 := value (GetLogicalKernelVersion lib blob2) in
  let k1 := kernel_key_version_read lib blob1 in
  let k2 := kernel_key_version_read lib blob2 in
  let n1 := kernel_version_read lib blob1 in
  let n2 := kernel_version_read lib blob2 in
  version_algorithms_ok lib blob1 = true ->
  version_algorithms_ok lib blob2 = true ->
  (v1 < v2 <-> k1 < k2 \/ (k1 = k2 /\ n1 < n2)) /\
  (v1 = v2 <-> k1 = k2 /\ n1 = n2) /\
  Z.shiftr v1 16 = k1 /\ Z.land v1 65535 = n1.
Proof.
  intros v1 v2 k1 k2 n1 n2 H1 H2. subst v1 v2.
  rewrite !GetLogicalKernelVersion_value, H1, H2.
  fold k1 k2 n1 n2.
  assert (R1 : 0 <= k1 < 65536) by apply Memcpy_uint16_range.
  assert (R2 : 0 <= k2 < 65536) by apply Memcpy_uint16_range.
  assert (R3 : 0 <= n1 < 65536) by apply Memcpy_uint16_range.
  assert (R4 : 0 <= n2 < 65536) by apply Memcpy_uint16_range.
  split; [lia | split; [lia |]].
  split.
  - rewrite Z.shiftr_div_pow2 by lia. change (2 ^ 16) with 65536.
    rewrite Z.div_add_l by lia. rewrite Z.div_small by lia. lia.
  - change 65535 with (Z.ones 16). rewrite Z.land_ones by lia.
    change (2 ^ 16) with 65536.
    rewrite Z.add_comm, Z.mod_add by lia. apply Z.mod_small. lia.
Qed.

Lemma logical_versions_compare_key_version_first_witness :
  let older := Fixture.good_image 1 9 in
  let newer := Fixture.good_image 2 0 in
  version_algorithms_ok Fixture.test_lib older = true /\
  version_algorithms_ok Fixture.test_lib newer = true /\
  kernel_key_version_read Fixture.test_lib older <
    kernel_key_version_read Fixture.test_lib newer /\
  value (GetLogicalKernelVersion Fixture.test_lib older) <
    value (GetLogicalKernelVersion Fixture.test_lib newer).
Proof.
  intros older newer.
  assert (H1 : version_algorithms_ok Fixture.test_lib older = true)
    by (vm_compute; reflexivity).
  assert (H2 : version_algorithms_ok Fixture.test_lib newer = true)
    by (vm_compute; reflexivity).
  assert (Hk : kernel_key_version_read Fixture.test_lib older <
               kernel_key_version_read Fixture.test_lib newer)
    by (vm_compute; reflexivity).
  destruct (logical_versions_compare_key_version_first Fixture.test_lib
              older newer H1 H2) as ((_ & Hlt) & _).
  split; [exact H1 |]. split; [exact H2 |].
  split; [exact Hk | exact (Hlt (or_introl Hk))].
Defined.

(** ** Calls in a row *)

Lemma first_tried_priorities (kernelA kernelB kernelA' kernelB' : kernel_entry) :
  boot_priority kernelA' = boot_priority kernelA ->
  boot_priority kernelB' = boot_priority kernelB ->
  first_tried kernelA' kernelB' = first_tried kernelA kernelB.
Proof.
  intros HA HB. unfold first_tried, make_try_order. rewrite HA, HB.
  reflexivity.
Qed.

Lemma Min_le_both (a b : Z) : Min a b <= a /\ Min a b <= b.
Proof. unfold Min. destruct (Z.ltb_spec a b); lia. Qed.

(** A call whose first candidate can boot. *)
Lemma selecting_call
    (lib : CryptoLib) (firmware_key_blob : blob) (dev_mode : Z)
    (kernelA kernelB : kernel_entry) (store : rollback_store) :
  let p0 := first_tried kernelA kernelB in
  let e0 := entry kernelA kernelB p0 in
  let r := value (VerifyKernelDriver_f lib firmware_key_blob dev_mode
                    kernelA kernelB store) in
  bootable lib firmware_key_blob dev_mode store e0 = true ->
  locked (kernel_key_version_counter store) =
    locked (kernel_version_counter store) ->
  kernel_to_boot r = slot_of p0 /\
  deref r p0 = after_try e0 /\
  deref r (other p0) = entry kernelA kernelB (other p0) /\
  stored_logical_version (tpm r) <= lversion lib e0 /\
  locked (kernel_key_version_counter (tpm r)) =
    locked (kernel_version_counter (tpm r)).
Proof.
  intros p0 e0 r Hboot Hlock.
  pose proof (driver_outcome lib firmware_key_blob dev_mode
                kernelA kernelB store) as Hout.
  cbv zeta in Hout. fold p0 e0 r in Hout.
  destruct (driver_store_exact lib firmware_key_blob dev_mode
              kernelA kernelB store) as (Htpm & _).
  fold r in Htpm.
  apply bootable_true in Hboot. destruct Hboot as (Hacc & Hle).
  destruct Hout as [(_ & _ & Hsel & Hd0 & Hd1 & _) | (Hfirst & _)].
  2: { destruct Hfirst as [(_ & Hgt & _) | (Hrej & _)];
         [lia | congruence]. }
  repeat (split; [assumption |]).
  rewrite Htpm. split; [| reflexivity].
  destruct (raises_stored_version lib firmware_key_blob dev_mode
              kernelA kernelB store).
  - pose proof (Min_range lib kernelA kernelB) as Hm.
    destruct (stored_logical_version_after_writes store _ Hm Hlock)
      as [Heq | Heq]; rewrite Heq; [| exact Hle].
    subst e0. destruct (Min_le_both (lversion lib kernelA)
                          (lversion lib kernelB)).
    destruct p0; cbn [entry]; assumption.
  - rewrite stored_logical_version_lock_both. exact Hle.
Qed.

(** A call whose first candidate is not accepted. *)
Lemma rejecting_call
    (lib : CryptoLib) (firmware_key_blob : blob) (dev_mode : Z)
    (kernelA kernelB : kernel_entry) (store : rollback_store) :
  let p0 := first_tried kernelA kernelB in
  let e0 := entry kernelA kernelB p0 in
  let r := value (VerifyKernelDriver_f lib firmware_key_blob dev_mode
                    kernelA kernelB store) in
  accepted lib firmware_key_blob dev_mode e0 = false ->
  kernel_to_boot r <> slot_of p0 /\ deref r p0 = demoted e0.
Proof.
  intros p0 e0 r Hrej.
  pose proof (driver_outcome lib firmware_key_blob dev_mode
                kernelA kernelB store) as Hout.
  cbv zeta in Hout. fold p0 e0 r in Hout.
  destruct Hout as [(Hacc & _) | (Hfirst & Hsecond & _)]; [congruence |].
  destruct Hfirst as [(Hacc & _) | (_ & Hd)]; [congruence |].
  split; [| exact Hd].
  destruct Hsecond as [(_ & _ & Hboot & _) | [(_ & _ & Hboot & _)
                                             | (_ & Hboot & _)]];
    rewrite Hboot;
    auto using slot_of_other, not_eq_sym, slot_of_not_recovery.
Qed.

Lemma boots_succ (lib : CryptoLib) (firmware_key_blob : blob) (dev_mode : Z)
    (n : nat) (kernelA kernelB : kernel_entry) (store : rollback_store) :
  boots lib firmware_key_blob dev_mode (S n) kernelA kernelB store =
  boot_again lib firmware_key_blob dev_mode
    (boots lib firmware_key_blob dev_mode n kernelA kernelB store).
Proof. reflexivity. Qed.

Lemma set_boot_tries_remaining_same (e : kernel_entry) :
  set_boot_tries_remaining e (boot_tries_remaining e) = e.
Proof. destruct e; reflexivity. Qed.

(** The state kept over the trial boots of the first candidate. *)
Lemma trial_boots_invariant
    (lib : CryptoLib) (firmware_key_blob : blob) (dev_mode : Z)
    (kA kB : kernel_entry) (store : rollback_store) (t : nat) :
  let p0 := first_tried kA kB in
  let e0 := entry kA kB p0 in
  boot_success_flag e0 = 0 ->
  boot_tries_remaining e0 = Z.of_nat t ->
  value (verifies lib firmware_key_blob dev_mode (kernel_blob e0)) = true ->
  stored_logical_version store <= lversion lib e0 ->
  locked (kernel_key_version_counter store) =
    locked (kernel_version_counter store) ->
  forall n, (n <= t)%nat ->
    let st := boots lib firmware_key_blob dev_mode n kA kB store in
    deref st p0 = set_boot_tries_remaining e0 (Z.of_nat t - Z.of_nat n) /\
    deref st (other p0) = entry kA kB (other p0) /\
    stored_logical_version (tpm st) <= lversion lib e0 /\
    locked (kernel_key_version_counter (tpm st)) =
      locked (kernel_version_counter (tpm st)) /\
    ((0 < n)%nat -> kernel_to_boot st = slot_of p0).
Proof.
  intros p0 e0 Hflag Htries Hok Hle Hlock n.
  induction n as [| n IH]; intros Hn st.
  - subst st.
    change (boots lib firmware_key_blob dev_mode 0 kA kB store)
      with (before_boot kA kB store).
    assert (He : deref (before_boot kA kB store) p0 = e0)
      by (subst e0; destruct p0; reflexivity).
    rewrite He. change (Z.of_nat 0) with 0. rewrite Z.sub_0_r, <- Htries.
    split; [symmetry; apply set_boot_tries_remaining_same |].
    split; [destruct p0; reflexivity |].
    split; [exact Hle |]. split; [exact Hlock | intros H; inversion H].
  - specialize (IH ltac:(lia)). cbv zeta in IH.
    destruct IH as (Hd0 & Hd1 & Hs & Hl & _).
    subst st. rewrite boots_succ.
    set (prev := boots lib firmware_key_blob dev_mode n
                   kA kB store) in *.
    unfold boot_again.
    assert (Hfirst : first_tried (kernelA prev) (kernelB prev) = p0).
    { apply first_tried_priorities.
      - destruct p0; cbn [deref other entry] in Hd0, Hd1;
          [rewrite Hd0 | rewrite Hd1]; reflexivity.
      - destruct p0; cbn [deref other entry] in Hd0, Hd1;
          [rewrite Hd1 | rewrite Hd0]; reflexivity. }
    assert (Hentry : forall q, entry (kernelA prev) (kernelB prev) q =
                               deref prev q)
      by (intros q; destruct q; reflexivity).
    pose proof (selecting_call lib firmware_key_blob dev_mode
                  (kernelA prev) (kernelB prev) (tpm prev)) as Hcall.
    cbv zeta in Hcall. rewrite Hfirst, !Hentry, Hd0, Hd1 in Hcall.
    assert (Hboot :
      bootable lib firmware_key_blob dev_mode (tpm prev)
        (set_boot_tries_remaining e0 (Z.of_nat t - Z.of_nat n)) = true).
    { apply bootable_true. split; [| exact Hs].
      apply accepted_true. split; [| exact Hok].
      unfold eligible. cbn [boot_tries_remaining boot_success_flag
                            set_boot_tries_remaining].
      apply orb_true_iff. right. apply negb_true_iff, Z.eqb_neq. lia. }
    destruct (Hcall Hboot Hl) as (Hsel & Ha0 & Ha1 & Hs' & Hl').
    split; [| split; [exact Ha1 | split; [exact Hs' | split;
                                          [exact Hl' | intros _; exact Hsel]]]].
    rewrite Ha0. unfold after_try.
    cbn [boot_tries_remaining set_boot_tries_remaining].
    destruct (Z.gtb_spec (Z.of_nat t - Z.of_nat n) 0); [| lia].
    unfold set_boot_tries_remaining. cbn. f_equal. lia.
Qed.



(** ** Algorithms that reach the tables *)

Lemma GetLogicalKernelVersion_algorithms_checked
    (lib : CryptoLib) (kernel_blob : blob) (c : call) (a : Z) :
  In c (calls (GetLogicalKernelVersion lib kernel_blob)) ->
  algorithm_of c = Some a ->
  0 <= a < kNumAlgorithms lib.
Proof.
  unfold GetLogicalKernelVersion.
  fold (version_firmware_algorithm lib kernel_blob).
  fold (version_kernel_algorithm lib kernel_blob).
  pose proof (Memcpy_uint16_range
                (ptr_add kernel_blob
                   (FIELD_LEN_magic lib + FIELD_LEN_header_version +
                    FIELD_LEN_header_len))) as Rfa.
  pose proof (Memcpy_uint16_range
                (ptr_add
                   (ptr_add kernel_blob
                      (FIELD_LEN_magic lib + FIELD_LEN_header_version +
                       FIELD_LEN_header_len))
                   FIELD_LEN_firmware_sign_algorithm)) as Rka.
  fold (version_firmware_algorithm lib kernel_blob) in Rfa.
  fold (version_kernel_algorithm lib kernel_blob) in Rka.
  destruct (Z.geb_spec (version_firmware_algorithm lib kernel_blob)
              (kNumAlgorithms lib)); [intros [] |].
  destruct (Z.geb_spec (version_kernel_algorithm lib kernel_blob)
              (kNumAlgorithms lib)); [intros [] |].
  unfold_logged. cbn [In app].
  intros [<- | [<- | []]]; cbn [algorithm_of]; intros Ha;
    injection Ha as <-; lia.
Qed.

Section CallsOfTheLoop.

Variable lib : CryptoLib.
Variable firmware_key_blob : blob.
Variable dev_mode : Z.

Local Notation "'origin'" :=
  (loop_call_origin lib firmware_key_blob dev_mode).

Lemma origin_of_deref (st : driver_state) (p : kernel_ptr) (c : call) :
  In c (calls (verifies lib firmware_key_blob dev_mode
                 (kernel_blob (deref st p)))) ->
  origin st c.
Proof. unfold loop_call_origin. destruct p; cbn [deref]; auto. Qed.

Lemma update_stored_version_origin (order : try_order) (m i : Z)
    (st : driver_state) (c : call) :
  In c (calls (update_stored_version lib firmware_key_blob dev_mode
                 order m i st)) ->
  origin st c.
Proof.
  unfold update_stored_version.
  destruct ((i =? 0) && (stored_lversion st <? try_kernel_lversion order 1));
    [| intros []].
  rewrite calls_bind. intros Hin. apply in_app_or in Hin.
  destruct Hin as [Hin | Hin]; [eapply origin_of_deref; eassumption |].
  destruct (value (verifies lib firmware_key_blob dev_mode _));
    [| destruct Hin].
  cbn in Hin. unfold loop_call_origin.
  destruct Hin as [<- | [<- | []]]; auto.
Qed.

Lemma blobs_use_one_try (st : driver_state) (p : kernel_ptr) :
  kernel_blob (kernelA (use_one_try st p)) = kernel_blob (kernelA st) /\
  kernel_blob (kernelB (use_one_try st p)) = kernel_blob (kernelB st).
Proof.
  unfold use_one_try.
  destruct (boot_tries_remaining (deref st p) >? 0), p; split; reflexivity.
Qed.

Lemma origin_same_blobs (st st' : driver_state) (c : call) :
  kernel_blob (kernelA st') = kernel_blob (kernelA st) ->
  kernel_blob (kernelB st') = kernel_blob (kernelB st) ->
  origin st' c -> origin st c.
Proof. unfold loop_call_origin. intros -> ->. auto. Qed.

Lemma loop_body_origin (order : try_order) (m i : Z) (st : driver_state) :
  let r := loop_body lib firmware_key_blob dev_mode order m i st in
  (forall c, In c (calls r) -> origin st c) /\
  kernel_blob (kernelA (snd (value r))) = kernel_blob (kernelA st) /\
  kernel_blob (kernelB (snd (value r))) = kernel_blob (kernelB st).
Proof.
  intros r.
  destruct (blobs_use_one_try st (try_kernel order i)) as (HA & HB).
  split.
  - intros c. subst r. unfold loop_body. rewrite calls_bind.
    intros Hin. apply in_app_or in Hin. destruct Hin as [Hin | Hin].
    + destruct (eligible (deref st (try_kernel order i))); [| destruct Hin].
      eapply origin_of_deref; eassumption.
    + destruct (value (if eligible (deref st (try_kernel order i))
                       then _ else _)); [| destruct Hin].
      destruct (stored_lversion _ >? _); [destruct Hin |].
      rewrite calls_bind, calls_ret, app_nil_r in Hin.
      apply update_stored_version_origin in Hin.
      exact (origin_same_blobs _ _ _ HA HB Hin).
  - destruct (loop_body_exact lib firmware_key_blob dev_mode order m i st)
      as (Hv & _).
    fold r in Hv. rewrite Hv.
    destruct (update_stored_version_exact lib firmware_key_blob dev_mode
                order m i (use_one_try st (try_kernel order i)))
      as (Hu & _).
    destruct (accepted lib firmware_key_blob dev_mode
                (deref st (try_kernel order i))); cbn [andb].
    + destruct (stored_lversion st <=? try_kernel_lversion order i);
        cbn [snd]; [| exact (conj HA HB)].
      rewrite Hu.
      destruct ((i =? 0) && _ && _); cbn; exact (conj HA HB).
    + cbn [snd]. destruct (try_kernel order i); split; reflexivity.
Qed.

Lemma for_loop_origin (order : try_order) (m : Z) (st : driver_state)
    (c : call) :
  In c (calls (for_loop lib firmware_key_blob dev_mode order m [0; 1] st)) ->
  origin st c.
Proof.
  pose proof (for_loop_two lib firmware_key_blob dev_mode order m st)
    as Hloop.
  cbv zeta in Hloop.
  destruct (loop_body_origin order m 0 st) as (H0 & HA & HB).
  destruct (loop_body_origin order m 1
              (snd (value (loop_body lib firmware_key_blob dev_mode
                             order m 0 st)))) as (H1 & _).
  destruct (fst (value (loop_body lib firmware_key_blob dev_mode
                          order m 0 st)));
    destruct Hloop as (_ & Hc); rewrite Hc; intros Hin.
  - apply in_app_or in Hin. destruct Hin as [Hin | Hin]; [auto |].
    exact (origin_same_blobs _ _ _ HA HB (H1 c Hin)).
  - auto.
Qed.

End CallsOfTheLoop.

(** X15.  No unchecked algorithm reaches a table or a signature routine.
    Every call that takes a signature algorithm, made by [VerifyKernel], by
    [GetLogicalKernelVersion] or by [VerifyKernelDriver_f] through them,
    takes an algorithm that is at least 0 and below [kNumAlgorithms]. *)
Theorem only_checked_algorithms_are_used
    (lib : CryptoLib) (firmware_key_blob : blob) (dev_mode : Z) (c : call)
    (a : Z) :
  algorithm_of c = Some a ->
  (forall kernel_blob,
     In c (calls (VerifyKernel lib firmware_key_blob kernel_blob dev_mode)) ->
     0 <= a < kNumAlgorithms lib) /\
  (forall kernel_blob,
     In c (calls (GetLogicalKernelVersion lib kernel_blob)) ->
     0 <= a < kNumAlgorithms lib) /\
  (forall kernelA kernelB store,
     In c (calls (VerifyKernelDriver_f lib firmware_key_blob dev_mode
                    kernelA kernelB store)) ->
     0 <= a < kNumAlgorithms lib).
Proof.
  intros Ha.
  assert (Hverify : forall kernel_blob,
            In c (calls (VerifyKernel lib firmware_key_blob kernel_blob
                           dev_mode)) ->
            0 <= a < kNumAlgorithms lib)
    by (intros b Hin;
        exact (VerifyKernel_algorithms_checked lib firmware_key_blob b
                 dev_mode c a Hin Ha)).
  assert (Hversion : forall kernel_blob,
            In c (calls (GetLogicalKernelVersion lib kernel_blob)) ->
            0 <= a < kNumAlgorithms lib)
    by (intros b Hin;
        exact (GetLogicalKernelVersion_algorithms_checked lib b c a Hin Ha)).
  split; [exact Hverify | split; [exact Hversion |]].
  intros kernelA kernelB store.
  destruct (driver_unfold lib firmware_key_blob dev_mode
              kernelA kernelB store) as (_ & Hc).
  rewrite Hc. intros Hin.
  assert (Hstore : is_store_call c = true -> False)
    by (destruct c; cbn in Ha |- *; discriminate).
  repeat (apply in_app_or in Hin; destruct Hin as [Hin | Hin]);
    eauto.
  - cbn in Hin. destruct Hin as [<- | [<- | []]]; discriminate Ha.
  - apply for_loop_origin in Hin.
    destruct Hin as [Hin | [Hin | Hin]]; [| | destruct (Hstore Hin)].
    + unfold verifies in Hin.
      rewrite calls_bind, calls_ret, app_nil_r in Hin. eauto.
    + unfold verifies in Hin.
      rewrite calls_bind, calls_ret, app_nil_r in Hin. eauto.
  - cbn in Hin. destruct Hin as [<- | [<- | []]]; discriminate Ha.
Qed.

Lemma only_checked_algorithms_are_used_witness :
  let log :=
    calls (VerifyKernelDriver_f Fixture.test_lib Fixture.test_firmware_key 0
             Fixture.scenario1_A Fixture.scenario1_B
             (Fixture.unlocked_store 0 5)) in
  algorithm_of (CallRSAVerifyBinaryWithDigest 0) = Some 0 /\
  In (CallRSAVerifyBinaryWithDigest 0) log /\
  0 <= 0 < kNumAlgorithms Fixture.test_lib.
Proof.
  intros log.
  assert (Ha : algorithm_of (CallRSAVerifyBinaryWithDigest 0) = Some 0)
    by reflexivity.
  assert (Hin : In (CallRSAVerifyBinaryWithDigest 0) log)
    by (vm_compute; find_in_list).
  destruct (only_checked_algorithms_are_used Fixture.test_lib
              Fixture.test_firmware_key 0 (CallRSAVerifyBinaryWithDigest 0)
              0 Ha) as (_ & _ & Hdriver).
  split; [exact Ha |]. split; [exact Hin |].
  exact (Hdriver Fixture.scenario1_A Fixture.scenario1_B
           (Fixture.unlocked_store 0 5) Hin).
Defined.
